(** * Customer churn prediction: the risk-scoring and classification engine

    A shallow embedding of the server side of the application:
    - [server/models/Customer.js]: the Mongoose schema, the [pre('save')]
      hook and the methods [calculateChurnRisk] and [determineStatus];
    - the customers router: create, update, predict, analytics summary and
      bulk predict.

    JavaScript numbers are embedded as exact rationals ([Q]); the module
    [Binary64] repeats the scorer, the classifier and the bucket search on
    IEEE binary64 numbers, and the concrete evaluations below are checked
    there as well.  Exact rationals have no infinities and no NaN: what the
    scorer returns for those is stated on [Binary64].  A MongoDB collection is a list of documents, each with
    its [_id]; dates are milliseconds since the epoch. *)

From Stdlib Require Import QArith Qminmax Qabs Lqa Lia ZArith String List Bool.
From Stdlib Require PrimFloat.
Import ListNotations.

Open Scope string_scope.
Open Scope list_scope.
Open Scope Q_scope.

(** ** Numbers *)

Module Math.
Definition min (a b : Q) : Q := Qmin a b.
Definition max (a b : Q) : Q := Qmax a b.
Definition abs (a : Q) : Q := Qabs a.
End Math.

(** The JavaScript comparisons [a < b] and [a > b]. *)
Definition Qltb (a b : Q) : bool :=
  match a ?= b with Lt => true | _ => false end.
Definition Qgtb (a b : Q) : bool := Qltb b a.

Infix "<?" := Qltb (at level 70, no associativity) : Q_scope.
Infix ">?" := Qgtb (at level 70, no associativity) : Q_scope.

(** ** The schema *)

Definition ObjectId := string.
Definition Date := Z.

Inductive Status := active | churned | at_risk.
Inductive RiskLevel := low | medium | high.
Inductive InteractionType := by_email | by_call | by_meeting | by_support.

Record Features := {
  daysSinceLastLogin : Q;
  avgSessionDuration : Q;
  totalTransactions : Q;
  avgTransactionValue : Q;
  productUsage : Q;
  supportSatisfaction : Q;
  contractRenewalHistory : Q
}.

Record Prediction := {
  date : Date;
  churnProbability : Q;
  riskLevel : RiskLevel;
  factors : list string;
  modelVersion : string
}.

Record Interaction := {
  i_date : Date;
  i_type : InteractionType;
  description : string;
  outcome : string
}.

Record Customer := {
  _id : ObjectId;
  name : string;
  email : string;
  company : string;
  subscriptionValue : Q;
  lastActivity : Date;
  supportTickets : Q;
  loginFrequency : Q;
  contractLength : Q;
  churnRisk : Q;
  status : Status;
  features : Features;
  predictions : list Prediction;
  interactions : list Interaction;
  createdAt : Date;
  updatedAt : Date
}.

(** Assignments to the paths the routes and the hook write. *)
Definition set_churnRisk (v : Q) (c : Customer) : Customer :=
  {| _id := _id c; name := name c; email := email c; company := company c;
     subscriptionValue := subscriptionValue c; lastActivity := lastActivity c;
     supportTickets := supportTickets c; loginFrequency := loginFrequency c;
     contractLength := contractLength c; churnRisk := v; status := status c;
     features := features c; predictions := predictions c;
     interactions := interactions c; createdAt := createdAt c;
     updatedAt := updatedAt c |}.

Definition set_status (v : Status) (c : Customer) : Customer :=
  {| _id := _id c; name := name c; email := email c; company := company c;
     subscriptionValue := subscriptionValue c; lastActivity := lastActivity c;
     supportTickets := supportTickets c; loginFrequency := loginFrequency c;
     contractLength := contractLength c; churnRisk := churnRisk c; status := v;
     features := features c; predictions := predictions c;
     interactions := interactions c; createdAt := createdAt c;
     updatedAt := updatedAt c |}.

Definition set_predictions (v : list Prediction) (c : Customer) : Customer :=
  {| _id := _id c; name := name c; email := email c; company := company c;
     subscriptionValue := subscriptionValue c; lastActivity := lastActivity c;
     supportTickets := supportTickets c; loginFrequency := loginFrequency c;
     contractLength := contractLength c; churnRisk := churnRisk c;
     status := status c; features := features c; predictions := v;
     interactions := interactions c; createdAt := createdAt c;
     updatedAt := updatedAt c |}.

Definition set_updatedAt (v : Date) (c : Customer) : Customer :=
  {| _id := _id c; name := name c; email := email c; company := company c;
     subscriptionValue := subscriptionValue c; lastActivity := lastActivity c;
     supportTickets := supportTickets c; loginFrequency := loginFrequency c;
     contractLength := contractLength c; churnRisk := churnRisk c;
     status := status c; features := features c; predictions := predictions c;
     interactions := interactions c; createdAt := createdAt c;
     updatedAt := v |}.

(** ** [calculateChurnRisk] *)

Module weights.
Definition daysSinceLastLogin : Q := 0.25.
Definition supportTickets : Q := 0.20.
Definition loginFrequency : Q := -0.15.
Definition contractLength : Q := -0.10.
Definition supportSatisfaction : Q := -0.15.
Definition subscriptionValue : Q := -0.10.
Definition productUsage : Q := -0.05.
End weights.

(** The seven summands, one per [risk += ...] line of the method. *)
Definition term_daysSinceLastLogin (this : Customer) : Q :=
  (daysSinceLastLogin (features this) / 30) * weights.daysSinceLastLogin.

Definition term_supportTickets (this : Customer) : Q :=
  Math.min (supportTickets this / 10) 1 * weights.supportTickets.

Definition term_loginFrequency (this : Customer) : Q :=
  (1 - Math.min (loginFrequency this / 30) 1) * Math.abs weights.loginFrequency.

Definition term_contractLength (this : Customer) : Q :=
  (1 - Math.min (contractLength this / 36) 1) * Math.abs weights.contractLength.

Definition term_supportSatisfaction (this : Customer) : Q :=
  (1 - supportSatisfaction (features this) / 10)
  * Math.abs weights.supportSatisfaction.

Definition term_subscriptionValue (this : Customer) : Q :=
  (1 - Math.min (subscriptionValue this / 10000) 1)
  * Math.abs weights.subscriptionValue.

Definition term_productUsage (this : Customer) : Q :=
  (1 - Math.min (productUsage (features this) / 100) 1)
  * Math.abs weights.productUsage.

Definition calculateChurnRisk (this : Customer) : Q :=
  let risk := 0.5 in
  let risk := risk + term_daysSinceLastLogin this in
  let risk := risk + term_supportTickets this in
  let risk := risk + term_loginFrequency this in
  let risk := risk + term_contractLength this in
  let risk := risk + term_supportSatisfaction this in
  let risk := risk + term_subscriptionValue this in
  let risk := risk + term_productUsage this in
  Math.max 0 (Math.min 1 risk).

(** ** [determineStatus] and the risk level of a prediction *)

Definition determineStatus (this : Customer) : Status :=
  if churnRisk this <? 0.3 then active
  else if churnRisk this <? 0.7 then at_risk
  else churned.

(** [churnProbability < 0.3 ? 'low' : churnProbability < 0.7 ? 'medium' : 'high'] *)
Definition riskLevelOf (churnProbability : Q) : RiskLevel :=
  if churnProbability <? 0.3 then low
  else if churnProbability <? 0.7 then medium
  else high.

(** The label that goes with a status (active/low, at_risk/medium,
    churned/high). *)
Definition levelOfStatus (s : Status) : RiskLevel :=
  match s with active => low | at_risk => medium | churned => high end.

(** ** The factor list of the predict route *)

Definition push {A : Type} (l : list A) (x : A) : list A := l ++ [x].

Definition explainFactors (customer : Customer) : list string :=
  let factors := [] in
  let factors :=
    if daysSinceLastLogin (features customer) >? 14
    then push factors "Inactive user" else factors in
  let factors :=
    if supportTickets customer >? 5
    then push factors "High support volume" else factors in
  let factors :=
    if supportSatisfaction (features customer) <? 6
    then push factors "Low satisfaction" else factors in
  let factors :=
    if loginFrequency customer <? 5
    then push factors "Low engagement" else factors in
  factors.

(** ** Mongoose: documents, validation, the save hook *)

Inductive Error :=
| ValidationError (path : string)
| DuplicateKey.

(** [error.code], set by the driver on a unique-index violation. *)
Definition code (e : Error) : option Z :=
  match e with DuplicateKey => Some 11000%Z | ValidationError _ => None end.

(** [error.code === n] *)
Definition codeIs (e : Error) (n : Z) : bool :=
  match code e with Some c => Z.eqb c n | None => false end.

Definition message (e : Error) : string :=
  match e with
  | ValidationError path => "Customer validation failed: " ++ path
  | DuplicateKey => "E11000 duplicate key error"
  end%string.

Inductive Result (A : Type) :=
| Ok (a : A)
| Fail (e : Error).
Arguments Ok {A} a.
Arguments Fail {A} e.

Definition bind {A B : Type} (r : Result A) (k : A -> Result B) : Result B :=
  match r with Ok a => k a | Fail e => Fail e end.

Notation "x <- e ;; k" := (bind e (fun x => k))
  (at level 61, e at next level, right associativity).

Definition Collection := list Customer.

(** A document in memory: the data, and what Mongoose tracks about it. *)
Record Document := {
  doc : Customer;
  isNew : bool;
  modifiedPaths : list string
}.

(** A document as [findById] or [find] hands it out. *)
Definition hydrate (c : Customer) : Document :=
  {| doc := c; isNew := false; modifiedPaths := [] |}.

(** [isModified(path)]: the path itself or one below it was assigned. *)
Definition isModified (path : string) (d : Document) : bool :=
  existsb (fun p => String.eqb p path || prefix (path ++ ".")%string p)
          (modifiedPaths d).

Definition assign_churnRisk (v : Q) (d : Document) : Document :=
  {| doc := set_churnRisk v (doc d); isNew := isNew d;
     modifiedPaths := "churnRisk" :: modifiedPaths d |}.

Definition assign_status (v : Status) (d : Document) : Document :=
  {| doc := set_status v (doc d); isNew := isNew d;
     modifiedPaths := "status" :: modifiedPaths d |}.

(** [customer.predictions.push(prediction)] *)
Definition push_prediction (p : Prediction) (d : Document) : Document :=
  {| doc := set_predictions (push (predictions (doc d)) p) (doc d);
     isNew := isNew d;
     modifiedPaths := "predictions" :: modifiedPaths d |}.

(** The [min], [max] and [required] validators of the schema, in path order.
    The enum validators hold by typing. *)
Definition between (lo hi v : Q) : bool := Qle_bool lo v && Qle_bool v hi.

Definition validators : list (string * (Customer -> bool)) :=
  [ ("name", fun c => negb (String.eqb (name c) ""));
    ("email", fun c => negb (String.eqb (email c) ""));
    ("company", fun c => negb (String.eqb (company c) ""));
    ("subscriptionValue", fun c => Qle_bool 0 (subscriptionValue c));
    ("supportTickets", fun c => Qle_bool 0 (supportTickets c));
    ("loginFrequency", fun c => Qle_bool 0 (loginFrequency c));
    ("contractLength", fun c => Qle_bool 1 (contractLength c));
    ("churnRisk", fun c => between 0 1 (churnRisk c));
    ("features.supportSatisfaction",
     fun c => between 1 10 (supportSatisfaction (features c)));
    ("predictions.churnProbability",
     fun c => forallb (fun p => between 0 1 (churnProbability p))
                      (predictions c)) ].

Fixpoint runValidators (vs : list (string * (Customer -> bool)))
         (c : Customer) : Result unit :=
  match vs with
  | [] => Ok tt
  | (path, ok) :: vs' =>
      if ok c then runValidators vs' c else Fail (ValidationError path)
  end.

Definition validate (c : Customer) : Result unit := runValidators validators c.

(** [customerSchema.pre('save', ...)] *)
Definition preSave (this : Document) : Document :=
  if isModified "features" this || isNew this then
    let this := assign_churnRisk (calculateChurnRisk (doc this)) this in
    let this := assign_status (determineStatus (doc this)) this in
    this
  else this.

(** ** The collection *)

Fixpoint findById (id : ObjectId) (db : Collection) : option Customer :=
  match db with
  | [] => None
  | c :: db' => if String.eqb (_id c) id then Some c else findById id db'
  end.

Definition find (query : Customer -> bool) (db : Collection) : list Customer :=
  filter query db.

Definition countDocuments (query : Customer -> bool) (db : Collection) : nat :=
  length (filter query db).

(** Writing a document back under its [_id]. *)
Definition replaceById (c : Customer) (db : Collection) : Collection :=
  map (fun x => if String.eqb (_id x) (_id c) then c else x) db.

(** [doc.save()]: validation, then the hook, then the write.  With
    [timestamps: true] a modified document gets a fresh [updatedAt]; a new
    one is inserted, unless its email is taken. *)
Definition save (d : Document) (stamp : Date) (db : Collection)
  : Result (Customer * Collection) :=
  _ <- validate (doc d) ;;
  let d := preSave d in
  if isNew d then
    if existsb (fun x => String.eqb (email x) (email (doc d))) db
    then Fail DuplicateKey
    else let c := set_updatedAt stamp (doc d) in Ok (c, db ++ [c])
  else
    let c := match modifiedPaths d with
             | [] => doc d
             | _ :: _ => set_updatedAt stamp (doc d)
             end in
    Ok (c, replaceById c db).

(** ** Request bodies: [new Customer(req.body)] and [findByIdAndUpdate] *)

Record FeaturesBody := {
  b_daysSinceLastLogin : option Q;
  b_avgSessionDuration : option Q;
  b_totalTransactions : option Q;
  b_avgTransactionValue : option Q;
  b_productUsage : option Q;
  b_supportSatisfaction : option Q;
  b_contractRenewalHistory : option Q
}.

Record Body := {
  b_name : option string;
  b_email : option string;
  b_company : option string;
  b_subscriptionValue : option Q;
  b_lastActivity : option Date;
  b_supportTickets : option Q;
  b_loginFrequency : option Q;
  b_contractLength : option Q;
  b_churnRisk : option Q;
  b_status : option Status;
  b_features : option FeaturesBody;
  b_predictions : option (list Prediction);
  b_interactions : option (list Interaction)
}.

Definition orElse {A : Type} (o : option A) (default : A) : A :=
  match o with Some v => v | None => default end.

Definition required {A : Type} (path : string) (o : option A) : Result A :=
  match o with Some v => Ok v | None => Fail (ValidationError path) end.

(** A field of the nested [features] object, or its schema default. *)
Definition feature (fb : option FeaturesBody) (get : FeaturesBody -> option Q)
           (default : Q) : Q :=
  match fb with Some b => orElse (get b) default | None => default end.

Definition castFeatures (fb : option FeaturesBody) : Features :=
  {| daysSinceLastLogin := feature fb b_daysSinceLastLogin 0;
     avgSessionDuration := feature fb b_avgSessionDuration 0;
     totalTransactions := feature fb b_totalTransactions 0;
     avgTransactionValue := feature fb b_avgTransactionValue 0;
     productUsage := feature fb b_productUsage 0;
     supportSatisfaction := feature fb b_supportSatisfaction 5;
     contractRenewalHistory := feature fb b_contractRenewalHistory 0 |}.

(** [new Customer(req.body)]: the body's fields with the schema defaults.
    A missing required path is reported by the validation that [save] runs
    first; it is reported here, inside the same [try].  The [trim] and
    [lowercase] setters of the text fields are left out: nothing below
    reads the text. *)
Definition newCustomer (body : Body) (id : ObjectId) (now : Date)
  : Result Document :=
  name' <- required "name" (b_name body) ;;
  email' <- required "email" (b_email body) ;;
  company' <- required "company" (b_company body) ;;
  subscriptionValue' <- required "subscriptionValue" (b_subscriptionValue body) ;;
  contractLength' <- required "contractLength" (b_contractLength body) ;;
  Ok {| doc :=
          {| _id := id; name := name'; email := email'; company := company';
             subscriptionValue := subscriptionValue';
             lastActivity := orElse (b_lastActivity body) now;
             supportTickets := orElse (b_supportTickets body) 0;
             loginFrequency := orElse (b_loginFrequency body) 0;
             contractLength := contractLength';
             churnRisk := orElse (b_churnRisk body) 0;
             status := orElse (b_status body) active;
             features := castFeatures (b_features body);
             predictions := orElse (b_predictions body) [];
             interactions := orElse (b_interactions body) [];
             createdAt := now; updatedAt := now |};
        isNew := true; modifiedPaths := [] |}.

(** The update operators of [findByIdAndUpdate(id, req.body, ...)]: every
    path of the body is set, nothing else is touched. *)
Definition applyUpdate (body : Body) (c : Customer) : Customer :=
  {| _id := _id c;
     name := orElse (b_name body) (name c);
     email := orElse (b_email body) (email c);
     company := orElse (b_company body) (company c);
     subscriptionValue := orElse (b_subscriptionValue body) (subscriptionValue c);
     lastActivity := orElse (b_lastActivity body) (lastActivity c);
     supportTickets := orElse (b_supportTickets body) (supportTickets c);
     loginFrequency := orElse (b_loginFrequency body) (loginFrequency c);
     contractLength := orElse (b_contractLength body) (contractLength c);
     churnRisk := orElse (b_churnRisk body) (churnRisk c);
     status := orElse (b_status body) (status c);
     features := match b_features body with
                 | Some fb => castFeatures (Some fb)
                 | None => features c
                 end;
     predictions := orElse (b_predictions body) (predictions c);
     interactions := orElse (b_interactions body) (interactions c);
     createdAt := createdAt c;
     updatedAt := updatedAt c |}.

(** [runValidators: true]: the validators of the paths the body sets. *)
Definition checkPath {A : Type} (path : string) (ok : A -> bool)
           (o : option A) : Result unit :=
  match o with
  | Some v => if ok v then Ok tt else Fail (ValidationError path)
  | None => Ok tt
  end.

Definition validateUpdate (body : Body) : Result unit :=
  _ <- checkPath "name" (fun s => negb (String.eqb s "")) (b_name body) ;;
  _ <- checkPath "email" (fun s => negb (String.eqb s "")) (b_email body) ;;
  _ <- checkPath "company" (fun s => negb (String.eqb s "")) (b_company body) ;;
  _ <- checkPath "subscriptionValue" (Qle_bool 0) (b_subscriptionValue body) ;;
  _ <- checkPath "supportTickets" (Qle_bool 0) (b_supportTickets body) ;;
  _ <- checkPath "loginFrequency" (Qle_bool 0) (b_loginFrequency body) ;;
  _ <- checkPath "contractLength" (Qle_bool 1) (b_contractLength body) ;;
  _ <- checkPath "churnRisk" (between 0 1) (b_churnRisk body) ;;
  _ <- checkPath "features.supportSatisfaction" (between 1 10)
         (match b_features body with
          | Some fb => b_supportSatisfaction fb
          | None => None
          end) ;;
  checkPath "predictions.churnProbability"
    (forallb (fun p => between 0 1 (churnProbability p))) (b_predictions body).

(** [Model.findByIdAndUpdate(id, update, { new: true, runValidators: true })].
    It is a query: no [save] hook runs.  The updated document is returned,
    [None] when no document has this [_id]. *)
Definition findByIdAndUpdate (id : ObjectId) (update : Body) (stamp : Date)
           (db : Collection) : Result (option Customer * Collection) :=
  _ <- validateUpdate update ;;
  match findById id db with
  | None => Ok (None, db)
  | Some c =>
      let c' := set_updatedAt stamp (applyUpdate update c) in
      Ok (Some c', replaceById c' db)
  end.

(** ** The routes *)

Inductive Response (A : Type) :=
| Json (httpStatus : nat) (body : A)
| ErrorJson (httpStatus : nat) (error : string).
Arguments Json {A} httpStatus body.
Arguments ErrorJson {A} httpStatus error.

(** [router.post('/')] *)
Definition createCustomer (body : Body) (id : ObjectId) (now : Date)
           (db : Collection) : Collection * Response Customer :=
  match (customer <- newCustomer body id now ;; save customer now db) with
  | Ok (customer, db') => (db', Json 201 customer)
  | Fail error =>
      if codeIs error 11000
      then (db, ErrorJson 400 "Customer with this email already exists")
      else (db, ErrorJson 400 (message error))
  end.

(** [router.put('/:id')] *)
Definition updateCustomer (id : ObjectId) (body : Body) (now : Date)
           (db : Collection) : Collection * Response Customer :=
  match findByIdAndUpdate id body now db with
  | Ok (None, _) => (db, ErrorJson 404 "Customer not found")
  | Ok (Some customer, db') => (db', Json 200 customer)
  | Fail error => (db, ErrorJson 400 (message error))
  end.

Record CustomerSummary := {
  s_id : ObjectId;
  s_churnRisk : Q;
  s_status : Status
}.

Record PredictResponse := {
  r_prediction : Prediction;
  r_customer : CustomerSummary
}.

(** [router.post('/:id/predict')].  [now] is the route's [new Date()],
    [savedAt] the time of the write. *)
Definition predict (id : ObjectId) (now savedAt : Date) (db : Collection)
  : Collection * Response PredictResponse :=
  match findById id db with
  | None => (db, ErrorJson 404 "Customer not found")
  | Some found =>
      let customer := hydrate found in
      let churnProbability := calculateChurnRisk (doc customer) in
      let riskLevel := riskLevelOf churnProbability in
      let factors := explainFactors (doc customer) in
      let prediction :=
        {| date := now; churnProbability := churnProbability;
           riskLevel := riskLevel; factors := factors;
           modelVersion := "1.0" |} in
      let customer := push_prediction prediction customer in
      let customer := assign_churnRisk churnProbability customer in
      let customer := assign_status (determineStatus (doc customer)) customer in
      match save customer savedAt db with
      | Ok (saved, db') =>
          (db', Json 200 {| r_prediction := prediction;
                            r_customer := {| s_id := _id saved;
                                             s_churnRisk := churnRisk saved;
                                             s_status := status saved |} |})
      | Fail error => (db, ErrorJson 500 (message error))
      end
  end.

(** [router.post('/predict/bulk')] *)

Definition Status_eqb (a b : Status) : bool :=
  match a, b with
  | active, active | churned, churned | at_risk, at_risk => true
  | _, _ => false
  end.

Record BulkResponse := {
  bulk_message : string;
  processedCustomers : nat
}.

(** The body of the [customers.map] callback, up to [customer.save()]. *)
Definition bulkUpdate (now : Date) (found : Customer) : Document :=
  let customer := hydrate found in
  let churnProbability := calculateChurnRisk (doc customer) in
  let riskLevel := riskLevelOf churnProbability in
  let customer := assign_churnRisk churnProbability customer in
  let customer := assign_status (determineStatus (doc customer)) customer in
  let prediction :=
    {| date := now; churnProbability := churnProbability;
       riskLevel := riskLevel; factors := [];
       modelVersion := "1.0" |} in
  push_prediction prediction customer.

(** One callback: the update, then [customer.save()].  A write that fails
    leaves the collection as it is and is remembered as the rejection. *)
Definition saveOne (now savedAt : ObjectId -> Date)
           (acc : Collection * option Error) (customer : Customer)
  : Collection * option Error :=
  let (db, rejected) := acc in
  match save (bulkUpdate (now (_id customer)) customer)
             (savedAt (_id customer)) db with
  | Ok (_, db') => (db', rejected)
  | Fail error =>
      (db, match rejected with Some e => Some e | None => Some error end)
  end.

(** The writes the callbacks start, in the order of the query result; a
    write that fails leaves the others in place and makes [Promise.all]
    reject. *)
Definition saveAll (now savedAt : ObjectId -> Date) (customers : list Customer)
           (db : Collection) : Collection * option Error :=
  fold_left (saveOne now savedAt) customers (db, None).

(** The query [{ status: { $ne: 'churned' } }]. *)
Definition ne_churned (c : Customer) : bool :=
  negb (Status_eqb (status c) churned).

Definition predictBulk (now savedAt : ObjectId -> Date) (db : Collection)
  : Collection * Response BulkResponse :=
  let customers := find ne_churned db in
  match saveAll now savedAt customers db with
  | (db', None) =>
      (db', Json 200 {| bulk_message := "Bulk prediction completed";
                        processedCustomers := length customers |})
  | (db', Some error) => (db', ErrorJson 500 (message error))
  end.

(** ** Analytics: the counts and the risk histogram *)

(** The [$bucket] stage: a value [v] belongs to the bucket of the lower
    boundary [lo] when [lo <= v < hi] for the next boundary [hi]; a value
    in no such interval goes to the [default] bucket. *)
Fixpoint bucketOf (boundaries : list Q) (v : Q) : option Q :=
  match boundaries with
  | [] => None
  | lo :: rest =>
      match rest with
      | [] => None
      | hi :: _ =>
          if Qle_bool lo v && (v <? hi) then Some lo else bucketOf rest v
      end
  end.

Inductive BucketId :=
| Lower (boundary : Q)
| Default (label : string).

Record Member := {
  m_name : string;
  m_email : string;
  m_churnRisk : Q
}.

Record Bucket := {
  bucket_id : BucketId;
  count : nat;
  customers : list Member
}.

Definition sameBucket (a b : option Q) : bool :=
  match a, b with
  | Some x, Some y => Qeq_bool x y
  | None, None => true
  | _, _ => false
  end.

(** The documents of one bucket, with the [output] accumulators
    [count: { $sum: 1 }] and [customers: { $push: ... }]. *)
Definition bucketFor (boundaries : list Q) (default : string)
           (docs : Collection) (key : option Q) : Bucket :=
  let members :=
    filter (fun d => sameBucket (bucketOf boundaries (churnRisk d)) key) docs in
  {| bucket_id := match key with
                  | Some lo => Lower lo
                  | None => Default default
                  end;
     count := length members;
     customers := map (fun d => {| m_name := name d; m_email := email d;
                                   m_churnRisk := churnRisk d |}) members |}.

(** Only buckets that received a document are output. *)
Definition bucketStage (boundaries : list Q) (default : string)
           (docs : Collection) : list Bucket :=
  filter (fun b => negb (Nat.eqb (count b) 0))
         (map (bucketFor boundaries default docs)
              (map Some (removelast boundaries) ++ [None])).

Record Summary := {
  totalCustomers : nat;
  activeCustomers : nat;
  atRiskCustomers : nat;
  churnedCustomers : nat
}.

Record AnalyticsResponse := {
  summary : Summary;
  riskDistribution : list Bucket
}.

(** [router.get('/analytics/summary')]: the four counts and the histogram
    (the averages and the monthly trend are separate pipelines). *)
Definition analyticsSummary (db : Collection) : Response AnalyticsResponse :=
  let totalCustomers := countDocuments (fun _ => true) db in
  let activeCustomers := countDocuments (fun c => Status_eqb (status c) active) db in
  let atRiskCustomers := countDocuments (fun c => Status_eqb (status c) at_risk) db in
  let churnedCustomers := countDocuments (fun c => Status_eqb (status c) churned) db in
  let riskDistribution := bucketStage [0; 0.3; 0.7; 1.0] "other" db in
  Json 200 {| summary := {| totalCustomers := totalCustomers;
                            activeCustomers := activeCustomers;
                            atRiskCustomers := atRiskCustomers;
                            churnedCustomers := churnedCustomers |};
              riskDistribution := riskDistribution |}.


(** ** The scorer, the classifier and the bucket search on binary64 *)

Module Binary64.

Import PrimFloat.
Local Open Scope float_scope.
Local Set Warnings "-inexact-float".

Definition isNaN (x : float) : bool := negb (x =? x).

(** [Math.min], [Math.max]: NaN if an argument is NaN, and -0 below +0. *)
Definition min (a b : float) : float :=
  if (isNaN a || isNaN b)%bool then nan
  else if a <? b then a
  else if b <? a then b
  else match classify a with FloatClass.NZero => a | _ => b end.

Definition max (a b : float) : float :=
  if (isNaN a || isNaN b)%bool then nan
  else if a <? b then b
  else if b <? a then a
  else match classify a with FloatClass.NZero => b | _ => a end.

Definition term_daysSinceLastLogin (daysSinceLastLogin : float) : float :=
  (daysSinceLastLogin / 30) * 0.25.

Definition calculateChurnRisk
           (daysSinceLastLogin supportTickets loginFrequency contractLength
            supportSatisfaction subscriptionValue productUsage : float)
  : float :=
  let risk := 0.5 in
  let risk := risk + term_daysSinceLastLogin daysSinceLastLogin in
  let risk := risk + min (supportTickets / 10) 1 * 0.20 in
  let risk := risk + (1 - min (loginFrequency / 30) 1) * abs (-0.15) in
  let risk := risk + (1 - min (contractLength / 36) 1) * abs (-0.10) in
  let risk := risk + (1 - supportSatisfaction / 10) * abs (-0.15) in
  let risk := risk + (1 - min (subscriptionValue / 10000) 1) * abs (-0.10) in
  let risk := risk + (1 - min (productUsage / 100) 1) * abs (-0.05) in
  max 0 (min 1 risk).

Definition determineStatus (churnRisk : float) : Status :=
  if churnRisk <? 0.3 then active
  else if churnRisk <? 0.7 then at_risk
  else churned.

Fixpoint bucketOf (boundaries : list float) (v : float) : option float :=
  match boundaries with
  | [] => None
  | lo :: rest =>
      match rest with
      | [] => None
      | hi :: _ => if ((lo <=? v) && (v <? hi))%bool then Some lo
                   else bucketOf rest v
      end
  end.

Definition histogram : list float := [0; 0.3; 0.7; 1].

End Binary64.

(** ** The scoring table as the specification words it *)

(** First row of the table: "value / 30, capped at 1", weight 0.25. *)
Definition spec_term_daysSinceLastLogin (value : Q) : Q :=
  Math.min (value / 30) 1 * 0.25.

(** The four rules of the explainer, in check order. *)
Definition spec_factorRules : list (string * (Customer -> bool)) :=
  [ ("Inactive user", fun c => daysSinceLastLogin (features c) >? 14);
    ("High support volume", fun c => supportTickets c >? 5);
    ("Low satisfaction", fun c => supportSatisfaction (features c) <? 6);
    ("Low engagement", fun c => loginFrequency c <? 5) ].

Definition spec_factors (c : Customer) : list string :=
  map fst (filter (fun rule => snd rule c) spec_factorRules).

(** ** Sample customers *)

Definition featuresWith (days usage satisfaction : Q) : Features :=
  {| daysSinceLastLogin := days; avgSessionDuration := 45;
     totalTransactions := 20; avgTransactionValue := 150;
     productUsage := usage; supportSatisfaction := satisfaction;
     contractRenewalHistory := 1 |}.

Definition customerWith (id : ObjectId) (mail : string)
           (value tickets logins months : Q) (risk : Q) (st : Status)
           (f : Features) : Customer :=
  {| _id := id; name := "John Smith"; email := mail; company := "TechCorp";
     subscriptionValue := value; lastActivity := 1700000000000%Z;
     supportTickets := tickets; loginFrequency := logins;
     contractLength := months; churnRisk := risk; status := st;
     features := f; predictions := []; interactions := [];
     createdAt := 1700000000000%Z; updatedAt := 1700000000000%Z |}.

(** Every signal at its best value. *)
Definition loyal : Customer :=
  customerWith "64b000000000000000000001" "john.smith.0@techcorp.com"
               10000 0 30 36 0.5 at_risk (featuresWith 0 100 10).

(** As [loyal], but last seen 60 days ago. *)
Definition dormant : Customer :=
  customerWith "64b000000000000000000002" "john.smith.1@techcorp.com"
               10000 0 30 36 1 churned (featuresWith 60 100 10).

(** As [loyal], but with five support tickets. *)
Definition casual : Customer :=
  customerWith "64b000000000000000000004" "john.smith.3@techcorp.com"
               10000 5 30 36 0.6 at_risk (featuresWith 0 100 10).

(** The input of the explainer scenario. *)
Definition troubled : Customer :=
  customerWith "64b000000000000000000003" "john.smith.2@techcorp.com"
               500 6 3 12 1 churned (featuresWith 20 10 5).

(** Three customers, one of them churned. *)
Definition population : Collection := [loyal; dormant; casual].

Definition someDay : Date := 1700000600000%Z.

(** A body that sets nothing. *)
Definition noBody : Body :=
  {| b_name := None; b_email := None; b_company := None;
     b_subscriptionValue := None; b_lastActivity := None;
     b_supportTickets := None; b_loginFrequency := None;
     b_contractLength := None; b_churnRisk := None; b_status := None;
     b_features := None; b_predictions := None; b_interactions := None |}.

(** What the edit form of the customer list sends: the text fields and the
    four commercial attributes. *)
Definition formBody (name' email' company' : string)
           (value tickets logins months : Q) : Body :=
  {| b_name := Some name'; b_email := Some email'; b_company := Some company';
     b_subscriptionValue := Some value; b_lastActivity := None;
     b_supportTickets := Some tickets; b_loginFrequency := Some logins;
     b_contractLength := Some months; b_churnRisk := None; b_status := None;
     b_features := None; b_predictions := None; b_interactions := None |}.

(** [loyal], edited to ten support tickets and no logins. *)
Definition editedForm : Body :=
  formBody "John Smith" "john.smith.0@techcorp.com" "TechCorp" 10000 10 0 36.

(** A body that sets the score alone. *)
Definition scoreBody (risk : Q) : Body :=
  {| b_name := None; b_email := None; b_company := None;
     b_subscriptionValue := None; b_lastActivity := None;
     b_supportTickets := None; b_loginFrequency := None;
     b_contractLength := None; b_churnRisk := Some risk; b_status := None;
     b_features := None; b_predictions := None; b_interactions := None |}.

(** ** Closed forms used in the statements *)

(** The record the predict route builds for a customer. *)
Definition predictionFor (now : Date) (c : Customer) : Prediction :=
  {| date := now; churnProbability := calculateChurnRisk c;
     riskLevel := riskLevelOf (calculateChurnRisk c);
     factors := explainFactors c; modelVersion := "1.0" |}.

(** The record the bulk route builds for a customer. *)
Definition bulkPredictionFor (now : Date) (c : Customer) : Prediction :=
  {| date := now; churnProbability := calculateChurnRisk c;
     riskLevel := riskLevelOf (calculateChurnRisk c);
     factors := []; modelVersion := "1.0" |}.

(** A customer with a fresh score, the status of that score, one more
    prediction record and a new [updatedAt]; every other field as before. *)
Definition rescored (p : Prediction) (savedAt : Date) (c : Customer) : Customer :=
  {| _id := _id c; name := name c; email := email c; company := company c;
     subscriptionValue := subscriptionValue c; lastActivity := lastActivity c;
     supportTickets := supportTickets c; loginFrequency := loginFrequency c;
     contractLength := contractLength c;
     churnRisk := calculateChurnRisk c;
     status := determineStatus (set_churnRisk (calculateChurnRisk c) c);
     features := features c;
     predictions := predictions c ++ [p];
     interactions := interactions c; createdAt := createdAt c;
     updatedAt := savedAt |}.

(** The invariant of the derived state: the stored score is the score of the
    stored features and attributes, and the stored status is its status. *)
Definition derivedStateFresh (c : Customer) : Prop :=
  churnRisk c == calculateChurnRisk c /\ status c = determineStatus c.

(** What the bulk route stores for a customer it selected. *)
Definition bulkRescored (now savedAt : ObjectId -> Date) (c : Customer)
  : Customer :=
  rescored (bulkPredictionFor (now (_id c)) c) (savedAt (_id c)) c.

(** As [loyal], with other values in the four remaining features. *)
Definition busy : Customer :=
  customerWith "64b000000000000000000005" "john.smith.4@techcorp.com"
               10000 0 30 36 0.5 at_risk
               {| daysSinceLastLogin := 0; avgSessionDuration := 90;
                  totalTransactions := 200; avgTransactionValue := 500;
                  productUsage := 100; supportSatisfaction := 10;
                  contractRenewalHistory := 4 |}.

(** ** The other routes addressed by id *)

(** [router.get('/:id')] *)
Definition getCustomer (id : ObjectId) (db : Collection) : Response Customer :=
  match findById id db with
  | None => ErrorJson 404 "Customer not found"
  | Some customer => Json 200 customer
  end.

(** The collection without the first document stored under [id]. *)
Fixpoint removeById (id : ObjectId) (db : Collection) : Collection :=
  match db with
  | [] => []
  | c :: db' => if String.eqb (_id c) id then db' else c :: removeById id db'
  end.

(** [Model.findByIdAndDelete(id)]: the deleted document, [None] when no
    document has this [_id]. *)
Definition findByIdAndDelete (id : ObjectId) (db : Collection)
  : option Customer * Collection :=
  match findById id db with
  | None => (None, db)
  | Some c => (Some c, removeById id db)
  end.

Record Message := { message_text : string }.

(** [router.delete('/:id')] *)
Definition deleteCustomer (id : ObjectId) (db : Collection)
  : Collection * Response Message :=
  match findByIdAndDelete id db with
  | (None, _) => (db, ErrorJson 404 "Customer not found")
  | (Some _, db') =>
      (db', Json 200 {| message_text := "Customer deleted successfully" |})
  end.

(** Every stored document passes the schema validators. *)
Definition allValid (db : Collection) : Prop :=
  Forall (fun c => validate c = Ok tt) db.

(** No two stored documents share an [_id]. *)
Definition uniqueIds (db : Collection) : Prop := NoDup (map _id db).

(** What the add form sends for a new customer. *)
Definition newcomerForm : Body :=
  formBody "Ann Lee" "ann.lee@datasystems.com" "DataSystems" 2500 1 12 12.

Definition newcomerId : ObjectId := "64b000000000000000000009".

(** ** Analytics: the averages *)

Record Averages := {
  avgRisk : Q;
  avgSubscriptionValue : Q;
  avgSupportTickets : Q
}.

Definition Qsum (l : list Q) : Q := fold_right Qplus 0 l.

(** The accumulator [{ $avg: '$field' }] over the documents of a group. *)
Definition avg (field : Customer -> Q) (docs : Collection) : Q :=
  Qsum (map field docs) / inject_Z (Z.of_nat (length docs)).

(** The [$group] stage with [_id: null]: a single group holding every
    document, and no group at all for an empty collection. *)
Definition groupAll (docs : Collection) : list Averages :=
  match docs with
  | [] => []
  | _ :: _ =>
      [ {| avgRisk := avg churnRisk docs;
           avgSubscriptionValue := avg subscriptionValue docs;
           avgSupportTickets := avg supportTickets docs |} ]
  end.

(** [group?.field || 0] *)
Definition orZero (field : Averages -> Q) (group : option Averages) : Q :=
  match group with
  | Some g => if Qeq_bool (field g) 0 then 0 else field g
  | None => 0
  end.

Record SummaryAverages := {
  s_avgChurnRisk : Q;
  s_avgSubscriptionValue : Q;
  s_avgSupportTickets : Q
}.

(** The three averages of the summary of [router.get('/analytics/summary')]. *)
Definition summaryAverages (db : Collection) : SummaryAverages :=
  let avgChurnRisk := groupAll db in
  {| s_avgChurnRisk := orZero avgRisk (hd_error avgChurnRisk);
     s_avgSubscriptionValue := orZero avgSubscriptionValue (hd_error avgChurnRisk);
     s_avgSupportTickets := orZero avgSupportTickets (hd_error avgChurnRisk) |}.

(** The four groups of the histogram stage before the empty ones are
    dropped. *)
Definition histogramBucket (db : Collection) (key : option Q) : Bucket :=
  bucketFor [0; 0.3; 0.7; 1.0] "other" db key.

(** ** The list route *)

From Stdlib Require Import Permutation.

(** The strings of the [status] enum. *)
Definition statusName (s : Status) : string :=
  match s with
  | active => "active"
  | churned => "churned"
  | at_risk => "at_risk"
  end.

(** A query parameter that is present and not the empty string. *)
Definition truthy (param : option string) : option string :=
  match param with
  | Some s => if String.eqb s "" then None else Some s
  | None => None
  end.

Record Pagination := {
  pg_page : Z;
  pg_limit : Z;
  pg_total : nat;
  pg_pages : option Z
}.

Record ListResponse := {
  l_customers : list Customer;
  l_pagination : Pagination
}.

(** [Math.ceil(total / limit)]; not a finite number when [limit] is 0,
    which the JSON answer renders as [null]. *)
Definition ceilDiv (total : nat) (limit : Z) : option Z :=
  if (limit =? 0)%Z then None
  else Some (- ((- Z.of_nat total) / limit))%Z.

(** [.limit(n)]: 0 means no limit, and a negative number limits like its
    absolute value. *)
Definition limitTo {A : Type} (n : Z) (l : list A) : list A :=
  if (n =? 0)%Z then l else firstn (Z.to_nat (Z.abs n)) l.

Section ListRoute.

(** The store's regular expressions, case-insensitive: the test for a
    pattern, [None] for a pattern that does not compile. *)
Variable regexCompile : string -> option (string -> bool).

(** The store's [.sort({ [sortBy]: direction })]. *)
Variable sortDocs : string -> Z -> list Customer -> list Customer.

(** The messages of the store's errors. *)
Variable invalidRegexMessage negativeSkipMessage : string.

(** The filter built in [query]. *)
Definition listQuery (status' search : option string)
  : option (Customer -> bool) :=
  let byStatus (c : Customer) :=
    match truthy status' with
    | Some s => String.eqb (statusName (status c)) s
    | None => true
    end in
  match truthy search with
  | None => Some byStatus
  | Some pattern =>
      match regexCompile pattern with
      | None => None
      | Some test =>
          Some (fun c => byStatus c
                         && (test (name c) || test (email c) || test (company c)))
      end
  end.

(** [router.get('/')].  [page] and [limit] are [parseInt(page)] and
    [parseInt(limit)]; [riskLevel] is read from the query and not used. *)
Definition listCustomers (page limit : Z) (status' riskLevel search : option string)
           (sortBy sortOrder : string) (db : Collection)
  : Response ListResponse :=
  match listQuery status' search with
  | None => ErrorJson 500 invalidRegexMessage
  | Some query =>
      let sort := if String.eqb sortOrder "desc" then (-1)%Z else 1%Z in
      let skip := ((page - 1) * limit)%Z in
      if (skip <? 0)%Z then ErrorJson 500 negativeSkipMessage
      else
        let customers :=
          limitTo limit
                  (skipn (Z.to_nat skip) (sortDocs sortBy sort (find query db))) in
        let total := countDocuments query db in
        Json 200 {| l_customers := customers;
                    l_pagination := {| pg_page := page; pg_limit := limit;
                                       pg_total := total;
                                       pg_pages := ceilDiv total limit |} |}
  end.

End ListRoute.

(** ** The presentation layer *)

Module Client.

(** *** The prediction panel (PredictionModel.tsx) *)

Module weights.
Definition daysSinceLastLogin : Q := 0.23.
Definition supportTickets : Q := 0.19.
Definition loginFrequency : Q := -0.18.
Definition subscriptionValue : Q := -0.15.
Definition contractLength : Q := -0.13.
Definition productUsage : Q := -0.12.
End weights.

(** [Math.floor((new Date().getTime() - new Date(customer.lastActivity).getTime())
    / (1000 * 60 * 60 * 24))] *)
Definition daysSince (now : Date) (customer : Customer) : Z :=
  ((now - lastActivity customer) / (1000 * 60 * 60 * 24))%Z.

(** [customer.features?.productUsage || Math.random() * 100]: a usage of 0
    (or no features at all) is replaced by a random one. *)
Definition usageOf (random : Q) (customer : Customer) : Q :=
  if Qeq_bool (productUsage (features customer)) 0
  then random * 100
  else productUsage (features customer).

(** The panel's own [calculateChurnRisk]; [now] is its [new Date()] and
    [random] its [Math.random()]. *)
Definition calculateChurnRisk (now : Date) (random : Q) (customer : Customer)
  : Q :=
  let risk := 0.5 in
  let daysSince := inject_Z (daysSince now customer) in
  let risk := risk + Math.min (daysSince / 30) 1 * weights.daysSinceLastLogin in
  let risk := risk + Math.min (supportTickets customer / 20) 1
                     * weights.supportTickets in
  let risk := risk + (1 - Math.min (loginFrequency customer / 30) 1)
                     * Math.abs weights.loginFrequency in
  let risk := risk + (1 - Math.min (subscriptionValue customer / 10000) 1)
                     * Math.abs weights.subscriptionValue in
  let risk := risk + (1 - Math.min (contractLength customer / 36) 1)
                     * Math.abs weights.contractLength in
  let usage := usageOf random customer in
  let risk := risk + (1 - Math.min (usage / 100) 1)
                     * Math.abs weights.productUsage in
  Math.max 0 (Math.min 1 risk).

(** The JavaScript comparison [a >= b]. *)
Definition Qgeb (a b : Q) : bool := Qle_bool b a.

(** [churnRisk >= 0.7 ? 'at_risk' : churnRisk >= 0.3 ? 'at_risk' : 'active'] *)
Definition statusOf (churnRisk : Q) : Status :=
  if Qgeb churnRisk 0.7 then at_risk
  else if Qgeb churnRisk 0.3 then at_risk
  else active.

Record Predicted := {
  customer : Customer;
  lastPrediction : Date
}.

(** The [customers.map] of [runPredictions]: every customer with the
    panel's score and status. *)
Definition runPredictions (now : ObjectId -> Date) (random : ObjectId -> Q)
           (customers : list Customer) : list Predicted :=
  map (fun customer =>
         let churnRisk :=
           calculateChurnRisk (now (_id customer)) (random (_id customer))
                              customer in
         {| customer := set_status (statusOf churnRisk)
                                   (set_churnRisk churnRisk customer);
            lastPrediction := now (_id customer) |})
      customers.

(** [getChurnFactors] *)
Definition getChurnFactors (now : Date) (customer : Customer) : list string :=
  let factors := [] in
  let daysSince := daysSince now customer in
  let factors :=
    if (daysSince >? 14)%Z then push factors "Inactive user (14+ days)"
    else factors in
  let factors :=
    if supportTickets customer >? 10 then push factors "High support volume"
    else factors in
  let factors :=
    if loginFrequency customer <? 5 then push factors "Low engagement"
    else factors in
  let factors :=
    if contractLength customer <? 12 then push factors "Short contract"
    else factors in
  let factors :=
    if subscriptionValue customer <? 1000 then push factors "Low value customer"
    else factors in
  factors.

(** *** The dashboard *)

Record Slice := {
  slice_name : string;
  slice_value : nat;
  slice_color : string
}.

Definition riskData (customers : list Customer) : list Slice :=
  [ {| slice_name := "Low Risk";
       slice_value := length (filter (fun c => churnRisk c <? 0.3) customers);
       slice_color := "#10B981" |};
    {| slice_name := "Medium Risk";
       slice_value :=
         length (filter (fun c => Qgeb (churnRisk c) 0.3 && (churnRisk c <? 0.7))
                        customers);
       slice_color := "#F59E0B" |};
    {| slice_name := "High Risk";
       slice_value := length (filter (fun c => Qgeb (churnRisk c) 0.7) customers);
       slice_color := "#EF4444" |} ].

(** [list.reduce((sum, c) => sum + c.supportTickets, 0)] *)
Definition ticketsOf (customers : list Customer) : Q :=
  fold_left (fun sum c => sum + supportTickets c) customers 0.

Definition supportData (customers : list Customer) : list (string * Q) :=
  [ ("Low", ticketsOf (filter (fun c => churnRisk c <? 0.3) customers));
    ("Medium",
     ticketsOf (filter (fun c => Qgeb (churnRisk c) 0.3 && (churnRisk c <? 0.7))
                       customers));
    ("High", ticketsOf (filter (fun c => Qgeb (churnRisk c) 0.7) customers)) ].

(** *** The analytics page *)

(** A range of subscription values; [None] is the upper bound [Infinity]. *)
Record ValueRange := {
  range : string;
  min : Q;
  max : option Q
}.

Definition valueRanges : list ValueRange :=
  [ {| range := "$0-1K"; min := 0; max := Some 1000 |};
    {| range := "$1K-3K"; min := 1000; max := Some 3000 |};
    {| range := "$3K-5K"; min := 3000; max := Some 5000 |};
    {| range := "$5K-10K"; min := 5000; max := Some 10000 |};
    {| range := "$10K+"; min := 10000; max := None |} ].

Definition customersInRange (r : ValueRange) (customers : list Customer)
  : list Customer :=
  filter (fun c => Qgeb (subscriptionValue c) (min r)
                   && match max r with
                      | Some m => subscriptionValue c <? m
                      | None => true
                      end)
         customers.

Definition churnedInRange (r : ValueRange) (customers : list Customer)
  : list Customer :=
  filter (fun c => Status_eqb (status c) churned) (customersInRange r customers).

(** The groups of [supportImpact], before their averages are taken. *)
Definition supportGroups (customers : list Customer)
  : list (string * list Customer) :=
  [ ("0-2", filter (fun c => Qle_bool (supportTickets c) 2) customers);
    ("3-5", filter (fun c => Qgeb (supportTickets c) 3
                             && Qle_bool (supportTickets c) 5) customers);
    ("6-10", filter (fun c => Qgeb (supportTickets c) 6
                              && Qle_bool (supportTickets c) 10) customers);
    ("10+", filter (fun c => supportTickets c >? 10) customers) ].

End Client.

(** ** Seeding the collection (server.js) *)

From Stdlib Require Import Ascii DecimalString Qround.

Module Seed.

(** *** Strings *)

(** [String.prototype.toLowerCase], on ASCII text. *)
Definition lowerChar (a : ascii) : ascii :=
  let n := nat_of_ascii a in
  if (65 <=? n)%nat && (n <=? 90)%nat then ascii_of_nat (n + 32) else a.

Fixpoint toLowerCase (s : string) : string :=
  match s with
  | EmptyString => EmptyString
  | String a s' => String (lowerChar a) (toLowerCase s')
  end.

(** [s.replace(pattern, replacement)] with a one-character string pattern:
    the first occurrence only. *)
Fixpoint replace (pattern replacement : ascii) (s : string) : string :=
  match s with
  | EmptyString => EmptyString
  | String a s' =>
      if Ascii.eqb a pattern then String replacement s'
      else String a (replace pattern replacement s')
  end.

(** The ASCII white space that [trim] removes. *)
Definition isSpace (a : ascii) : bool :=
  let n := nat_of_ascii a in
  (n =? 32)%nat || ((9 <=? n)%nat && (n <=? 13)%nat).

Fixpoint trimStart (s : string) : string :=
  match s with
  | EmptyString => EmptyString
  | String a s' => if isSpace a then trimStart s' else s
  end.

Fixpoint trimEnd (s : string) : string :=
  match s with
  | EmptyString => EmptyString
  | String a s' =>
      match trimEnd s' with
      | EmptyString => if isSpace a then EmptyString else String a EmptyString
      | t => String a t
      end
  end.

Definition trim (s : string) : string := trimEnd (trimStart s).

(** A whole number in a template literal. *)
Definition decimal (n : nat) : string :=
  NilZero.string_of_uint (Nat.to_uint n).

(** *** Numbers and dates *)

Definition floor (x : Q) : Q := inject_Z (Qfloor x).

(** [new Date(t)]: the time value, its fraction dropped. *)
Definition newDate (t : Q) : Date :=
  if Qle_bool 0 t then Qfloor t else Qceiling t.

(** *** [generateSampleCustomers] *)

Definition names : list string :=
  [ "John Smith"; "Sarah Johnson"; "Michael Brown"; "Emily Davis";
    "David Wilson"; "Lisa Anderson"; "Robert Taylor"; "Jennifer Martinez";
    "Christopher Lee"; "Amanda Thompson"; "Matthew Garcia";
    "Jessica Rodriguez"; "Daniel Hernandez"; "Ashley Lopez"; "James Gonzalez";
    "Michelle Perez"; "Ryan Turner"; "Stephanie Phillips"; "Kevin Campbell";
    "Nicole Parker" ].

Definition companies : list string :=
  [ "TechCorp"; "DataSystems"; "CloudWorks"; "FinanceBase"; "RetailMax";
    "HealthTech"; "EduSoft"; "MediaGroup"; "LogisticsPro"; "ConsultingFirm";
    "InnovateLab"; "GlobalSolutions"; "SmartAnalytics"; "FutureVision";
    "AlphaTech" ].

(** The plain objects the generator builds. *)
Record Sample := {
  o_name : string;
  o_email : string;
  o_company : string;
  o_subscriptionValue : Q;
  o_lastActivity : Date;
  o_supportTickets : Q;
  o_loginFrequency : Q;
  o_contractLength : Q;
  o_features : Features;
  o_createdAt : Date;
  o_updatedAt : Date
}.

(** [names[i % names.length]] *)
Definition nameAt (i : nat) : string :=
  nth (i mod length names) names "undefined".

(** [companies[i % companies.length]] *)
Definition companyAt (i : nat) : string :=
  nth (i mod length companies) companies "undefined".

(** [`${name} ${i > 19 ? Math.floor(i/20) : ''}`.trim()] *)
Definition sampleName (i : nat) : string :=
  trim (nameAt i ++ " " ++ (if (19 <? i)%nat then decimal (i / 20) else "")).

(** [`${name.toLowerCase().replace(' ', '.')}.${i}@${company.toLowerCase()}.com`] *)
Definition sampleEmail (i : nat) : string :=
  replace " " "." (toLowerCase (nameAt i)) ++ "." ++ decimal i ++ "@"
  ++ toLowerCase (companyAt i) ++ ".com".

Section Generator.

(** The results of the successive calls of [Math.random()] and of
    [Date.now()]; one turn of the loop makes twelve calls of the first and
    two of the second. *)
Variable random : nat -> Q.
Variable now : nat -> Date.

(** The body of the loop. *)
Definition sample (i : nat) : Sample :=
  let name := nameAt i in
  let company := companyAt i in
  let createdDate :=
    newDate (inject_Z (now (2 * i))
             - random (12 * i) * 365 * 24 * 60 * 60 * 1000) in
  let daysSinceLastLogin := floor (random (12 * i + 1) * 90) in
  let lastActivity :=
    newDate (inject_Z (now (2 * i + 1))
             - daysSinceLastLogin * 24 * 60 * 60 * 1000) in
  {| o_name := sampleName i;
     o_email := sampleEmail i;
     o_company := company;
     o_subscriptionValue := floor (random (12 * i + 2) * 9500) + 500;
     o_lastActivity := lastActivity;
     o_supportTickets := floor (random (12 * i + 3) * 15);
     o_loginFrequency := floor (random (12 * i + 4) * 25) + 1;
     o_contractLength := floor (random (12 * i + 5) * 30) + 6;
     o_features :=
       {| daysSinceLastLogin := daysSinceLastLogin;
          avgSessionDuration := floor (random (12 * i + 6) * 120) + 10;
          totalTransactions := floor (random (12 * i + 7) * 200) + 5;
          avgTransactionValue := floor (random (12 * i + 8) * 500) + 50;
          productUsage := floor (random (12 * i + 9) * 100);
          supportSatisfaction := floor (random (12 * i + 10) * 6) + 4;
          contractRenewalHistory := floor (random (12 * i + 11) * 5) |};
     o_createdAt := createdDate;
     o_updatedAt := createdDate |}.

(** [for (let i = 0; i < count; i++) { ...; customers.push(customer) }] *)
Definition generateSampleCustomers (count : nat) : list Sample :=
  fold_left (fun customers i => push customers (sample i)) (seq 0 count) [].

End Generator.

(** *** [Customer.insertMany] *)

(** The document of a plain object: its fields and the schema defaults of
    the others.  The [trim] and [lowercase] setters are left out, as for
    [newCustomer]. *)
Definition construct (o : Sample) (id : ObjectId) : Customer :=
  {| _id := id; name := o_name o; email := o_email o; company := o_company o;
     subscriptionValue := o_subscriptionValue o;
     lastActivity := o_lastActivity o;
     supportTickets := o_supportTickets o;
     loginFrequency := o_loginFrequency o;
     contractLength := o_contractLength o;
     churnRisk := 0; status := active;
     features := o_features o;
     predictions := []; interactions := [];
     createdAt := o_createdAt o; updatedAt := o_updatedAt o |}.

(** The documents in order, the [n]-th with the [n]-th fresh [_id]. *)
Fixpoint constructAll (objects : list Sample) (newId : nat -> ObjectId)
         (n : nat) : list Customer :=
  match objects with
  | [] => []
  | o :: rest => construct o (newId n) :: constructAll rest newId (S n)
  end.

(** The first validation error, if any. *)
Fixpoint validateAll (docs : list Customer) : Result unit :=
  match docs with
  | [] => Ok tt
  | c :: rest => _ <- validate c ;; validateAll rest
  end.

(** The ordered insert of the driver: it stops at the first document whose
    email is taken, the documents before it stay inserted. *)
Fixpoint insertOrdered (docs : list Customer) (db : Collection)
  : Collection * option Error :=
  match docs with
  | [] => (db, None)
  | c :: rest =>
      if existsb (fun x => String.eqb (email x) (email c)) db
      then (db, Some DuplicateKey)
      else insertOrdered rest (db ++ [c])
  end.

(** [Model.insertMany(objects)]: every document is validated, and nothing
    is sent when one fails; no [save] hook runs. *)
Definition insertMany (objects : list Sample) (newId : nat -> ObjectId)
           (db : Collection) : Collection * option Error :=
  let docs := constructAll objects newId 0 in
  match validateAll docs with
  | Fail e => (db, Some e)
  | Ok _ => insertOrdered docs db
  end.

(** *** [seedDatabase] *)

(** The error of a failed insert is logged and dropped. *)
Definition seedDatabase (random : nat -> Q) (now : nat -> Date)
           (newId : nat -> ObjectId) (db : Collection) : Collection :=
  let customerCount := countDocuments (fun _ => true) db in
  if (customerCount =? 0)%nat then
    let sampleCustomers := generateSampleCustomers random now 100 in
    fst (insertMany sampleCustomers newId db)
  else db.

(** No string of [l] occurs in [seen] or twice in [l]. *)
Fixpoint distinctFrom (seen l : list string) : bool :=
  match l with
  | [] => true
  | e :: l' =>
      negb (existsb (String.eqb e) seen) && distinctFrom (seen ++ [e]) l'
  end.

(** Every call of [Math.random()] returns a number in [0, 1). *)
Definition unitRange (random : nat -> Q) : Prop :=
  forall k, 0 <= random k /\ random k < 1.

End Seed.

(** ** The [:id] of the URL *)



Section UrlIds.

(** [req.params.id] is any text.  [findById], [findByIdAndUpdate] and
    [findByIdAndDelete] cast it to an ObjectId before they look anything
    up, and reject with a CastError when the text is not one; each route
    answers that rejection from its [catch], with the status it gives to
    every error.  [isObjectId] is the driver's test and [castMessage] the
    message of its error. *)
Variable isObjectId : string -> bool.
Variable castMessage : string -> string.





End UrlIds.

(** * Properties *)

(** ** Comparisons, [min] and [max] *)

Lemma Qltb_lt (a b : Q) : (a <? b) = true <-> a < b.
Proof.
  unfold Qltb. rewrite Qlt_alt.
  destruct (a ?= b); split; intros H; congruence.
Qed.

Lemma Qltb_ge (a b : Q) : (a <? b) = false <-> b <= a.
Proof.
  split; intros H.
  - apply Qnot_lt_le. intros Hlt. apply Qltb_lt in Hlt. congruence.
  - destruct (a <? b) eqn:E; [|reflexivity].
    apply Qltb_lt in E. exfalso. apply (Qlt_not_le _ _ E H).
Qed.

Lemma Qgtb_gt (a b : Q) : (a >? b) = true <-> b < a.
Proof. apply Qltb_lt. Qed.

Lemma between_spec (lo hi v : Q) :
  between lo hi v = true <-> lo <= v /\ v <= hi.
Proof.
  unfold between. rewrite andb_true_iff, !Qle_bool_iff. reflexivity.
Qed.

Lemma min_le_r (a b : Q) : Math.min a b <= b.
Proof. apply Q.le_min_r. Qed.

Lemma min_le_l (a b : Q) : Math.min a b <= a.
Proof. apply Q.le_min_l. Qed.

Lemma min_glb (a b c : Q) : c <= a -> c <= b -> c <= Math.min a b.
Proof. intros; apply Q.min_glb; assumption. Qed.

Lemma clamp_range (x : Q) :
  0 <= Math.max 0 (Math.min 1 x) /\ Math.max 0 (Math.min 1 x) <= 1.
Proof.
  split.
  - apply Q.le_max_l.
  - apply Q.max_lub; [lra | apply min_le_l].
Qed.

(** ** The scorer *)

(** On exact numbers, that is for every finite value of the features and of
    the commercial attributes (zero, negative or large), [calculateChurnRisk]
    returns a score in the closed interval [0,1]. *)
Theorem calculateChurnRisk_in_unit_interval (this : Customer) :
  0 <= calculateChurnRisk this /\ calculateChurnRisk this <= 1.
Proof. unfold calculateChurnRisk; cbv zeta. apply clamp_range. Qed.

(** The five capped summands stay inside their band for non-negative
    input; the satisfaction summand does for a satisfaction in 1..10. *)
Lemma capped_ratio_band (x d w : Q) :
  0 <= x -> 0 < d -> 0 <= w ->
  0 <= Math.min (x / d) 1 * w /\ Math.min (x / d) 1 * w <= w.
Proof.
  intros Hx Hd Hw.
  assert (H0 : 0 <= Math.min (x / d) 1).
  { apply min_glb; [|lra]. apply Qle_shift_div_l; lra. }
  pose proof (min_le_r (x / d) 1) as H1.
  split; nra.
Qed.

Lemma inverted_ratio_band (x d w : Q) :
  0 <= x -> 0 < d -> 0 <= w ->
  0 <= (1 - Math.min (x / d) 1) * w /\ (1 - Math.min (x / d) 1) * w <= w.
Proof.
  intros Hx Hd Hw.
  assert (H0 : 0 <= Math.min (x / d) 1).
  { apply min_glb; [|lra]. apply Qle_shift_div_l; lra. }
  pose proof (min_le_r (x / d) 1) as H1.
  split; nra.
Qed.

Lemma capped_terms_within_band (this : Customer) :
  0 <= supportTickets this -> 0 <= loginFrequency this ->
  0 <= contractLength this -> 0 <= subscriptionValue this ->
  0 <= productUsage (features this) ->
  (0 <= term_supportTickets this /\ term_supportTickets this <= 0.20) /\
  (0 <= term_loginFrequency this /\ term_loginFrequency this <= 0.15) /\
  (0 <= term_contractLength this /\ term_contractLength this <= 0.10) /\
  (0 <= term_subscriptionValue this /\ term_subscriptionValue this <= 0.10) /\
  (0 <= term_productUsage this /\ term_productUsage this <= 0.05).
Proof.
  intros Ht Hl Hc Hs Hp.
  unfold term_supportTickets, term_loginFrequency, term_contractLength,
    term_subscriptionValue, term_productUsage.
  repeat split;
    first [ apply capped_ratio_band | apply inverted_ratio_band ];
    solve [ assumption | reflexivity | discriminate ].
Qed.

Lemma satisfaction_term_within_band (this : Customer) :
  1 <= supportSatisfaction (features this) ->
  supportSatisfaction (features this) <= 10 ->
  0 <= term_supportSatisfaction this /\ term_supportSatisfaction this <= 0.15.
Proof.
  intros Hlo Hhi. unfold term_supportSatisfaction.
  set (s := supportSatisfaction (features this)) in *.
  assert (Hw : Math.abs weights.supportSatisfaction == 0.15) by reflexivity.
  rewrite Hw. unfold Qdiv.
  assert (Hinv : / 10 == 0.1) by reflexivity. rewrite Hinv.
  split; nra.
Qed.

(** The first summand has no cap: past 30 days it leaves its band. *)
Lemma days_term_exceeds_band (this : Customer) :
  30 < daysSinceLastLogin (features this) ->
  0.25 < term_daysSinceLastLogin this.
Proof.
  intros Hd. unfold term_daysSinceLastLogin, weights.daysSinceLastLogin.
  set (d := daysSinceLastLogin (features this)) in *.
  unfold Qdiv. assert (Hinv : / 30 == 1 # 30) by reflexivity. rewrite Hinv.
  lra.
Qed.

(** C3. The summand for days-since-last-login is not capped: at 60 days it
    contributes 0.5 where the capped ratio of the table gives 0.25, and the
    score of an otherwise ideal customer becomes 1 instead of 0.75. *)
Theorem days_term_not_capped_at_60 :
  daysSinceLastLogin (features dormant) = 60 /\
  term_daysSinceLastLogin dormant == 0.5 /\
  spec_term_daysSinceLastLogin 60 == 0.25 /\
  ~ term_daysSinceLastLogin dormant == spec_term_daysSinceLastLogin 60 /\
  calculateChurnRisk dormant == 1.
Proof.
  repeat split; try reflexivity.
  vm_compute. discriminate.
Qed.

(** ** The classifier *)

Lemma determineStatus_active (this : Customer) :
  determineStatus this = active <-> churnRisk this < 0.3.
Proof.
  unfold determineStatus.
  destruct (churnRisk this <? 0.3) eqn:E1.
  - apply Qltb_lt in E1. tauto.
  - apply Qltb_ge in E1.
    destruct (churnRisk this <? 0.7); split; intros H;
      solve [ discriminate | exfalso; lra ].
Qed.

Lemma determineStatus_at_risk (this : Customer) :
  determineStatus this = at_risk <-> 0.3 <= churnRisk this /\ churnRisk this < 0.7.
Proof.
  unfold determineStatus.
  destruct (churnRisk this <? 0.3) eqn:E1.
  - apply Qltb_lt in E1. split; intros H; [discriminate | exfalso; lra].
  - apply Qltb_ge in E1. destruct (churnRisk this <? 0.7) eqn:E2.
    + apply Qltb_lt in E2. tauto.
    + apply Qltb_ge in E2. split; intros H; [discriminate | exfalso; lra].
Qed.

Lemma determineStatus_churned (this : Customer) :
  determineStatus this = churned <-> 0.7 <= churnRisk this.
Proof.
  unfold determineStatus.
  destruct (churnRisk this <? 0.3) eqn:E1.
  - apply Qltb_lt in E1. split; intros H; [discriminate | exfalso; lra].
  - destruct (churnRisk this <? 0.7) eqn:E2.
    + apply Qltb_lt in E2. split; intros H; [discriminate | exfalso; lra].
    + apply Qltb_ge in E2. tauto.
Qed.

Lemma riskLevelOf_cases (r : Q) :
  (riskLevelOf r = low <-> r < 0.3) /\
  (riskLevelOf r = medium <-> 0.3 <= r /\ r < 0.7) /\
  (riskLevelOf r = high <-> 0.7 <= r).
Proof.
  unfold riskLevelOf.
  destruct (r <? 0.3) eqn:E1; [apply Qltb_lt in E1 | apply Qltb_ge in E1];
    (destruct (r <? 0.7) eqn:E2; [apply Qltb_lt in E2 | apply Qltb_ge in E2]);
    (split; [|split]); (split; intros H);
      solve [ reflexivity | discriminate | assumption | lra | exfalso; lra ].
Qed.

Lemma level_matches_status (this : Customer) :
  riskLevelOf (churnRisk this) = levelOfStatus (determineStatus this).
Proof.
  unfold riskLevelOf, determineStatus.
  destruct (churnRisk this <? 0.3); [reflexivity|].
  destruct (churnRisk this <? 0.7); reflexivity.
Qed.

Lemma levelOfStatus_injective (s t : Status) :
  levelOfStatus s = levelOfStatus t -> s = t.
Proof. destruct s, t; simpl; intros H; solve [reflexivity | discriminate]. Qed.

(** ** Validation and the save hook *)

Lemma runValidators_ok (vs : list (string * (Customer -> bool))) (c : Customer) :
  runValidators vs c = Ok tt <-> forallb (fun v => snd v c) vs = true.
Proof.
  induction vs as [|[path ok] vs IH]; simpl.
  - tauto.
  - destruct (ok c); simpl; [exact IH | split; discriminate].
Qed.

(** The scorer does not look at the derived state or at the history. *)
Lemma calculateChurnRisk_ext (c c' : Customer) :
  features c' = features c ->
  supportTickets c' = supportTickets c ->
  loginFrequency c' = loginFrequency c ->
  contractLength c' = contractLength c ->
  subscriptionValue c' = subscriptionValue c ->
  calculateChurnRisk c' = calculateChurnRisk c.
Proof.
  intros Hf Ht Hl Hc Hs.
  unfold calculateChurnRisk, term_daysSinceLastLogin, term_supportTickets,
    term_loginFrequency, term_contractLength, term_supportSatisfaction,
    term_subscriptionValue, term_productUsage.
  rewrite Hf, Ht, Hl, Hc, Hs. reflexivity.
Qed.


Lemma score_between (c : Customer) : between 0 1 (calculateChurnRisk c) = true.
Proof.
  apply between_spec. unfold calculateChurnRisk; cbv zeta. apply clamp_range.
Qed.

(** A valid document stays valid when it is given a fresh score, any
    status and one more record carrying a score. *)
Lemma validate_rescored (p : Prediction) (savedAt : Date) (c : Customer) :
  validate c = Ok tt ->
  churnProbability p = calculateChurnRisk c ->
  validate (rescored p savedAt c) = Ok tt.
Proof.
  unfold validate. rewrite !runValidators_ok. unfold validators.
  cbn [forallb snd rescored name email company subscriptionValue
       supportTickets loginFrequency contractLength churnRisk features
       predictions].
  intros H Hp.
  repeat (apply andb_prop in H; destruct H as [?H H]).
  rewrite forallb_app. cbn [forallb]. rewrite Hp, !score_between.
  repeat first [ assumption | reflexivity | apply andb_true_intro; split ].
Qed.

Lemma validate_set_updatedAt (t : Date) (c : Customer) :
  validate (set_updatedAt t c) = validate c.
Proof. reflexivity. Qed.

(** On a document that was read from the collection and whose features
    were not assigned, the hook does nothing. *)
Lemma preSave_untouched_features (d : Document) :
  isNew d = false -> isModified "features" d = false -> preSave d = d.
Proof. intros Hn Hm. unfold preSave. rewrite Hn, Hm. reflexivity. Qed.

(** On a new document the hook installs the score and its status. *)
Lemma preSave_new (d : Document) :
  isNew d = true ->
  doc (preSave d) =
  set_status (determineStatus (set_churnRisk (calculateChurnRisk (doc d)) (doc d)))
             (set_churnRisk (calculateChurnRisk (doc d)) (doc d)).
Proof.
  intros Hn. unfold preSave. rewrite Hn, orb_true_r. reflexivity.
Qed.

(** ** The collection *)

Lemma findById_id (id : ObjectId) (db : Collection) (c : Customer) :
  findById id db = Some c -> _id c = id.
Proof.
  induction db as [|x db IH]; simpl; [discriminate|].
  destruct (String.eqb (_id x) id) eqn:E.
  - intros H; injection H as <-. apply String.eqb_eq, E.
  - exact IH.
Qed.

Lemma findById_In (id : ObjectId) (db : Collection) (c : Customer) :
  findById id db = Some c -> In c db.
Proof.
  induction db as [|x db IH]; simpl; [discriminate|].
  destruct (String.eqb (_id x) id).
  - intros H; injection H as <-. now left.
  - intros H. right. apply IH, H.
Qed.

Lemma findById_replaceById (n : Customer) (db : Collection) (id : ObjectId) :
  findById id (replaceById n db) =
  option_map (fun x => if String.eqb (_id x) (_id n) then n else x)
             (findById id db).
Proof.
  induction db as [|x db IH]; simpl; [reflexivity|].
  destruct (String.eqb (_id x) (_id n)) eqn:E.
  - pose proof (proj1 (String.eqb_eq _ _) E) as E'.
    replace (String.eqb (_id n) id) with (String.eqb (_id x) id)
      by (rewrite E'; reflexivity).
    destruct (String.eqb (_id x) id); simpl.
    + rewrite E. reflexivity.
    + exact IH.
  - destruct (String.eqb (_id x) id); simpl.
    + rewrite E. reflexivity.
    + exact IH.
Qed.


(** ** The explainer *)

Lemma explainFactors_rules (customer : Customer) :
  explainFactors customer = spec_factors customer.
Proof.
  unfold explainFactors, spec_factors, spec_factorRules, push.
  cbn [filter snd fst map].
  destruct (daysSinceLastLogin (features customer) >? 14);
    destruct (supportTickets customer >? 5);
    destruct (supportSatisfaction (features customer) <? 6);
    destruct (loginFrequency customer <? 5); reflexivity.
Qed.

(** C9. The explainer is a total function that returns the names of the
    rules that fire, in check order (more than 14 days since the last login,
    more than 5 support tickets, satisfaction below 6, login frequency below
    5): each name is present exactly when its rule fires, nothing else is
    returned, the list is empty when no rule fires, and the scenario input
    yields all four names in order. *)
Theorem explainFactors_fixed_rules (customer : Customer) :
  explainFactors customer
  = map fst (filter (fun rule => snd rule customer) spec_factorRules) /\
  (In "Inactive user" (explainFactors customer)
   <-> 14 < daysSinceLastLogin (features customer)) /\
  (In "High support volume" (explainFactors customer)
   <-> 5 < supportTickets customer) /\
  (In "Low satisfaction" (explainFactors customer)
   <-> supportSatisfaction (features customer) < 6) /\
  (In "Low engagement" (explainFactors customer)
   <-> loginFrequency customer < 5) /\
  (forall s, In s (explainFactors customer) ->
             In s ["Inactive user"; "High support volume";
                   "Low satisfaction"; "Low engagement"]) /\
  (daysSinceLastLogin (features customer) <= 14 ->
   supportTickets customer <= 5 ->
   6 <= supportSatisfaction (features customer) ->
   5 <= loginFrequency customer ->
   explainFactors customer = []) /\
  (daysSinceLastLogin (features customer) = 20 ->
   supportTickets customer = 6 ->
   supportSatisfaction (features customer) = 5 ->
   loginFrequency customer = 3 ->
   explainFactors customer
   = ["Inactive user"; "High support volume";
      "Low satisfaction"; "Low engagement"]).
Proof.
  split; [apply explainFactors_rules|].
  rewrite explainFactors_rules.
  unfold spec_factors, spec_factorRules. cbn [filter snd fst].
  rewrite <- (Qgtb_gt (daysSinceLastLogin (features customer)) 14).
  rewrite <- (Qgtb_gt (supportTickets customer) 5).
  rewrite <- (Qltb_lt (supportSatisfaction (features customer)) 6).
  rewrite <- (Qltb_lt (loginFrequency customer) 5).
  split; [|split; [|split; [|split; [|split; [|split]]]]].
  1-5: destruct (daysSinceLastLogin (features customer) >? 14);
    destruct (supportTickets customer >? 5);
    destruct (supportSatisfaction (features customer) <? 6);
    destruct (loginFrequency customer <? 5); simpl;
    intuition (congruence || discriminate).
  - intros Hd Ht Hs Hl.
    apply Qltb_ge in Hd, Ht, Hs, Hl. unfold Qgtb.
    rewrite Hd, Ht, Hs, Hl. reflexivity.
  - intros -> -> -> ->. reflexivity.
Qed.

(** ** Scenarios *)

Lemma loyal_score : calculateChurnRisk loyal == 0.5.
Proof. vm_compute. reflexivity. Qed.

(** C6. With daysSinceLastLogin 0, supportTickets 0, loginFrequency 30,
    contractLength 36, supportSatisfaction 10, subscriptionValue 10000 and
    productUsage 100, every summand is zero and the score is exactly the
    base 0.5; the status of that score, as the classifier and the save hook
    assign it, is [at_risk]. *)
Theorem base_score_scenario (this : Customer) :
  daysSinceLastLogin (features this) = 0 ->
  supportTickets this = 0 ->
  loginFrequency this = 30 ->
  contractLength this = 36 ->
  supportSatisfaction (features this) = 10 ->
  subscriptionValue this = 10000 ->
  productUsage (features this) = 100 ->
  calculateChurnRisk this == 0.5 /\
  (term_daysSinceLastLogin this == 0 /\ term_supportTickets this == 0 /\
   term_loginFrequency this == 0 /\ term_contractLength this == 0 /\
   term_supportSatisfaction this == 0 /\ term_subscriptionValue this == 0 /\
   term_productUsage this == 0) /\
  determineStatus (set_churnRisk (calculateChurnRisk this) this) = at_risk /\
  status (doc (preSave {| doc := this; isNew := true; modifiedPaths := [] |}))
  = at_risk.
Proof.
  intros Hd Ht Hl Hc Hs Hv Hp.
  assert (Hscore : calculateChurnRisk this = calculateChurnRisk loyal).
  { unfold calculateChurnRisk, term_daysSinceLastLogin, term_supportTickets,
      term_loginFrequency, term_contractLength, term_supportSatisfaction,
      term_subscriptionValue, term_productUsage.
    rewrite Hd, Ht, Hl, Hc, Hs, Hv, Hp. reflexivity. }
  split; [rewrite Hscore; apply loyal_score|].
  split.
  { unfold term_daysSinceLastLogin, term_supportTickets, term_loginFrequency,
      term_contractLength, term_supportSatisfaction, term_subscriptionValue,
      term_productUsage.
    rewrite Hd, Ht, Hl, Hc, Hs, Hv, Hp.
    repeat split; vm_compute; reflexivity. }
  assert (Hst : determineStatus (set_churnRisk (calculateChurnRisk this) this)
                = at_risk).
  { apply determineStatus_at_risk. cbn [set_churnRisk churnRisk].
    rewrite Hscore, loyal_score. split; [discriminate | reflexivity]. }
  split; [exact Hst|].
  rewrite preSave_new by reflexivity. exact Hst.
Qed.

(** The scenario customer [loyal] meets the scenario's premises; its score
    is 0.5 and its status [at_risk]. *)
Lemma base_score_scenario_witness :
  (daysSinceLastLogin (features loyal) = 0 /\ supportTickets loyal = 0 /\
   loginFrequency loyal = 30 /\ contractLength loyal = 36 /\
   supportSatisfaction (features loyal) = 10 /\
   subscriptionValue loyal = 10000 /\ productUsage (features loyal) = 100) /\
  calculateChurnRisk loyal == 0.5 /\
  determineStatus (set_churnRisk (calculateChurnRisk loyal) loyal) = at_risk.
Proof.
  split.
  - repeat split; reflexivity.
  - pose proof (base_score_scenario loyal eq_refl eq_refl eq_refl eq_refl
                                    eq_refl eq_refl eq_refl) as (H1 & _ & H2 & _).
    split; [exact H1 | exact H2].
Defined.

(** The scenario as the specification states it (score 0.5 and status
    [active]) fails on [loyal]: 0.5 is not below the first cutoff. *)
Lemma base_score_scenario_not_active :
  ~ (calculateChurnRisk loyal == 0.5 /\
     determineStatus (set_churnRisk (calculateChurnRisk loyal) loyal) = active).
Proof. intros [_ H]. vm_compute in H. discriminate H. Qed.

(** The explainer scenario on [troubled]. *)
Lemma explainFactors_fixed_rules_witness :
  (daysSinceLastLogin (features troubled) = 20 /\ supportTickets troubled = 6 /\
   supportSatisfaction (features troubled) = 5 /\ loginFrequency troubled = 3) /\
  explainFactors troubled
  = ["Inactive user"; "High support volume"; "Low satisfaction";
     "Low engagement"].
Proof.
  split.
  - repeat split; reflexivity.
  - exact (proj2 (proj2 (proj2 (proj2 (proj2 (proj2 (proj2
      (explainFactors_fixed_rules troubled)))))))
      eq_refl eq_refl eq_refl eq_refl).
Defined.

(** ** The scorer: bounds, monotonicity, unused features *)

Lemma inverted_ratio_nonneg (x d w : Q) :
  0 <= w -> 0 <= (1 - Math.min (x / d) 1) * w.
Proof.
  intros Hw. pose proof (min_le_r (x / d) 1) as H1. nra.
Qed.

Lemma days_term_value (this : Customer) :
  term_daysSinceLastLogin this
  == daysSinceLastLogin (features this) * (1 # 120).
Proof.
  unfold term_daysSinceLastLogin, weights.daysSinceLastLogin, Qdiv.
  assert (Hinv : / 30 == 1 # 30) by reflexivity. rewrite Hinv. ring.
Qed.

Lemma tickets_term_nonneg (this : Customer) :
  0 <= supportTickets this -> 0 <= term_supportTickets this.
Proof.
  intros Ht. unfold term_supportTickets.
  apply (capped_ratio_band (supportTickets this) 10 weights.supportTickets);
    solve [ assumption | reflexivity | discriminate ].
Qed.

Lemma satisfaction_term_value (this : Customer) :
  term_supportSatisfaction this
  == (10 - supportSatisfaction (features this)) * (3 # 200).
Proof.
  unfold term_supportSatisfaction, Qdiv.
  assert (Hw : Math.abs weights.supportSatisfaction == 3 # 20) by reflexivity.
  assert (Hinv : / 10 == 1 # 10) by reflexivity.
  rewrite Hw, Hinv. ring.
Qed.

Lemma churnRisk_set_churnRisk (r : Q) (c : Customer) :
  churnRisk (set_churnRisk r c) = r.
Proof. reflexivity. Qed.

Lemma status_set_status (s : Status) (c : Customer) :
  status (set_status s c) = s.
Proof. reflexivity. Qed.

Lemma clamp_lower (lo x : Q) :
  0 <= lo -> lo <= 1 -> lo <= x -> lo <= Math.max 0 (Math.min 1 x).
Proof.
  intros H0 H1 Hx. apply Qle_trans with (Math.min 1 x).
  - apply min_glb; assumption.
  - apply Q.le_max_r.
Qed.


(** The sum before the clamp is at least the base plus the first summand,
    when tickets are not negative and satisfaction is at most 10. *)
Lemma score_lower_bound (lo : Q) (this : Customer) :
  0 <= lo -> lo <= 1 ->
  lo <= 0.5 + daysSinceLastLogin (features this) * (1 # 120) ->
  0 <= supportTickets this ->
  supportSatisfaction (features this) <= 10 ->
  lo <= calculateChurnRisk this.
Proof.
  intros H0 H1 Hlo Ht Hs. unfold calculateChurnRisk. cbv zeta.
  apply clamp_lower; [assumption | assumption |].
  pose proof (days_term_value this) as Hd.
  pose proof (tickets_term_nonneg this Ht) as Htk.
  pose proof (satisfaction_term_value this) as Hsat.
  assert (Hl : 0 <= term_loginFrequency this)
    by (apply inverted_ratio_nonneg; discriminate).
  assert (Hc : 0 <= term_contractLength this)
    by (apply inverted_ratio_nonneg; discriminate).
  assert (Hv : 0 <= term_subscriptionValue this)
    by (apply inverted_ratio_nonneg; discriminate).
  assert (Hu : 0 <= term_productUsage this)
    by (apply inverted_ratio_nonneg; discriminate).
  lra.
Qed.

(** X1. With a non-negative number of days since the last login, tickets
    not negative and a satisfaction of at most 10, the score is at least the
    base 0.5: the classifier never answers [active] for a computed score,
    neither directly nor in the save hook of a new document. *)
Theorem computed_score_never_active (this : Customer) :
  0 <= daysSinceLastLogin (features this) ->
  0 <= supportTickets this ->
  supportSatisfaction (features this) <= 10 ->
  0.5 <= calculateChurnRisk this /\
  determineStatus (set_churnRisk (calculateChurnRisk this) this) <> active /\
  status (doc (preSave {| doc := this; isNew := true; modifiedPaths := [] |}))
  <> active.
Proof.
  intros Hd Ht Hs.
  assert (Hscore : 0.5 <= calculateChurnRisk this)
    by (apply score_lower_bound; [discriminate | discriminate | lra | assumption | assumption]).
  assert (Hst : determineStatus (set_churnRisk (calculateChurnRisk this) this)
                <> active).
  { intros H. apply determineStatus_active in H.
    rewrite churnRisk_set_churnRisk in H. lra. }
  split; [exact Hscore|]. split; [exact Hst|].
  rewrite preSave_new by reflexivity. rewrite status_set_status. exact Hst.
Qed.

(** X2. From 24 days without a login on (tickets not negative, satisfaction
    at most 10) the score is at least 0.7 and the status [churned],
    whatever the other signals; from 60 days on the score is exactly 1. *)
Theorem long_inactivity_means_churned (this : Customer) :
  24 <= daysSinceLastLogin (features this) ->
  0 <= supportTickets this ->
  supportSatisfaction (features this) <= 10 ->
  0.7 <= calculateChurnRisk this /\
  determineStatus (set_churnRisk (calculateChurnRisk this) this) = churned /\
  (60 <= daysSinceLastLogin (features this) -> calculateChurnRisk this == 1).
Proof.
  intros Hd Ht Hs.
  assert (Hscore : 0.7 <= calculateChurnRisk this)
    by (apply score_lower_bound; [discriminate | discriminate | lra | assumption | assumption]).
  split; [exact Hscore|]. split.
  - apply determineStatus_churned. rewrite churnRisk_set_churnRisk.
    exact Hscore.
  - intros H60. apply Qle_antisym.
    + unfold calculateChurnRisk. cbv zeta. apply clamp_range.
    + apply score_lower_bound; [discriminate | discriminate | lra | assumption | assumption].
Qed.






(** X4. Four of the seven features take no part: two customers that agree
    on the days since the last login, product usage, satisfaction and the
    four commercial attributes get the same score and the same factors,
    whatever their session duration, transaction count, transaction value
    and renewal history. *)
Theorem unused_features_do_not_matter (a b : Customer) :
  daysSinceLastLogin (features a) = daysSinceLastLogin (features b) ->
  productUsage (features a) = productUsage (features b) ->
  supportSatisfaction (features a) = supportSatisfaction (features b) ->
  supportTickets a = supportTickets b ->
  loginFrequency a = loginFrequency b ->
  contractLength a = contractLength b ->
  subscriptionValue a = subscriptionValue b ->
  calculateChurnRisk a = calculateChurnRisk b /\
  explainFactors a = explainFactors b.
Proof.
  intros Hd Hu Hs Ht Hl Hc Hv. split.
  - unfold calculateChurnRisk, term_daysSinceLastLogin, term_supportTickets,
      term_loginFrequency, term_contractLength, term_supportSatisfaction,
      term_subscriptionValue, term_productUsage.
    rewrite Hd, Hu, Hs, Ht, Hl, Hc, Hv. reflexivity.
  - unfold explainFactors. rewrite Hd, Hs, Ht, Hl. reflexivity.
Qed.

(** [loyal] satisfies the premises of the lower bound. *)
Lemma computed_score_never_active_witness :
  (0 <= daysSinceLastLogin (features loyal) /\ 0 <= supportTickets loyal /\
   supportSatisfaction (features loyal) <= 10) /\
  0.5 <= calculateChurnRisk loyal /\
  determineStatus (set_churnRisk (calculateChurnRisk loyal) loyal) <> active.
Proof.
  assert (H : 0 <= daysSinceLastLogin (features loyal) /\
              0 <= supportTickets loyal /\
              supportSatisfaction (features loyal) <= 10)
    by (repeat split; vm_compute; discriminate).
  split; [exact H|].
  destruct H as (H1 & H2 & H3).
  destruct (computed_score_never_active loyal H1 H2 H3) as (Ha & Hb & _).
  split; [exact Ha | exact Hb].
Defined.

(** [dormant] has not logged in for 60 days. *)
Lemma long_inactivity_means_churned_witness :
  (24 <= daysSinceLastLogin (features dormant) /\ 0 <= supportTickets dormant /\
   supportSatisfaction (features dormant) <= 10) /\
  determineStatus (set_churnRisk (calculateChurnRisk dormant) dormant) = churned.
Proof.
  assert (H : 24 <= daysSinceLastLogin (features dormant) /\
              0 <= supportTickets dormant /\
              supportSatisfaction (features dormant) <= 10)
    by (repeat split; vm_compute; discriminate).
  split; [exact H|].
  destruct H as (H1 & H2 & H3).
  exact (proj1 (proj2 (long_inactivity_means_churned dormant H1 H2 H3))).
Defined.

(** [loyal] and [busy] differ in the four unused features only. *)
Lemma unused_features_do_not_matter_witness :
  (daysSinceLastLogin (features loyal) = daysSinceLastLogin (features busy) /\
   productUsage (features loyal) = productUsage (features busy) /\
   supportSatisfaction (features loyal) = supportSatisfaction (features busy) /\
   supportTickets loyal = supportTickets busy /\
   loginFrequency loyal = loginFrequency busy /\
   contractLength loyal = contractLength busy /\
   subscriptionValue loyal = subscriptionValue busy) /\
  avgSessionDuration (features loyal) <> avgSessionDuration (features busy) /\
  calculateChurnRisk loyal = calculateChurnRisk busy.
Proof.
  split; [repeat split|]. split; [discriminate|].
  exact (proj1 (unused_features_do_not_matter loyal busy eq_refl eq_refl eq_refl
                  eq_refl eq_refl eq_refl eq_refl)).
Defined.

(** ** The routes

    From here on the scorer and the explainer are used through their
    properties only. *)

Opaque calculateChurnRisk explainFactors.

(** ** The predict route *)

(** The route on a valid stored customer: one write, answer 200. *)
Lemma predict_found (id : ObjectId) (now savedAt : Date) (db : Collection)
      (c : Customer) :
  findById id db = Some c ->
  validate c = Ok tt ->
  predict id now savedAt db =
  (replaceById (rescored (predictionFor now c) savedAt c) db,
   Json 200
        {| r_prediction := predictionFor now c;
           r_customer :=
             {| s_id := _id c; s_churnRisk := calculateChurnRisk c;
                s_status :=
                  determineStatus (set_churnRisk (calculateChurnRisk c) c) |} |}).
Proof.
  intros Hfind Hvalid. unfold predict. rewrite Hfind. cbv zeta.
  unfold save.
  pose proof (validate_rescored (predictionFor now c) savedAt c Hvalid eq_refl)
    as Hv.
  change (validate (rescored (predictionFor now c) savedAt c))
    with (validate (doc (assign_status
      (determineStatus (doc (assign_churnRisk (calculateChurnRisk (doc (hydrate c)))
         (push_prediction (predictionFor now c) (hydrate c)))))
      (assign_churnRisk (calculateChurnRisk (doc (hydrate c)))
         (push_prediction (predictionFor now c) (hydrate c)))))) in Hv.
  change (explainFactors (doc (hydrate c))) with (explainFactors c).
  change (calculateChurnRisk (doc (hydrate c))) with (calculateChurnRisk c) in *.
  fold (predictionFor now c).
  rewrite Hv. cbv beta iota delta [bind].
  rewrite preSave_untouched_features by reflexivity.
  reflexivity.
Qed.

(** Whatever the route answers, a record it returns carries the label of
    the status it returns. *)
Lemma predict_answer_consistent (id : ObjectId) (now savedAt : Date)
      (db : Collection) :
  match snd (predict id now savedAt db) with
  | Json _ answer =>
      riskLevel (r_prediction answer)
      = levelOfStatus (s_status (r_customer answer))
      /\ churnProbability (r_prediction answer) = s_churnRisk (r_customer answer)
  | ErrorJson _ _ => True
  end.
Proof.
  unfold predict. destruct (findById id db) as [c|]; [|exact I].
  cbv zeta. unfold save.
  destruct (validate _) as [[]|e]; cbv beta iota delta [bind]; [|exact I].
  rewrite preSave_untouched_features by reflexivity.
  cbn -[calculateChurnRisk riskLevelOf determineStatus explainFactors].
  split; [|reflexivity].
  exact (level_matches_status
           (set_churnRisk (calculateChurnRisk c)
              (set_predictions (push (predictions c) (predictionFor now c)) c))).
Qed.

(** C2. The classifier answers [active] exactly below 0.3, [at_risk] exactly
    from 0.3 up to but excluding 0.7, and [churned] exactly from 0.7 on; the
    label of a prediction record follows the same cutoffs, so status and
    label always correspond, also in what the predict route returns. *)
Theorem status_and_level_cutoffs (this : Customer) :
  (determineStatus this = active <-> churnRisk this < 0.3) /\
  (determineStatus this = at_risk <->
     0.3 <= churnRisk this /\ churnRisk this < 0.7) /\
  (determineStatus this = churned <-> 0.7 <= churnRisk this) /\
  (riskLevelOf (churnRisk this) = low <-> churnRisk this < 0.3) /\
  (riskLevelOf (churnRisk this) = medium <->
     0.3 <= churnRisk this /\ churnRisk this < 0.7) /\
  (riskLevelOf (churnRisk this) = high <-> 0.7 <= churnRisk this) /\
  riskLevelOf (churnRisk this) = levelOfStatus (determineStatus this) /\
  determineStatus (set_churnRisk 0.3 this) = at_risk /\
  determineStatus (set_churnRisk 0.7 this) = churned /\
  (forall id now savedAt db,
     match snd (predict id now savedAt db) with
     | Json _ answer =>
         riskLevel (r_prediction answer)
         = levelOfStatus (s_status (r_customer answer))
     | ErrorJson _ _ => True
     end).
Proof.
  split; [apply determineStatus_active|].
  split; [apply determineStatus_at_risk|].
  split; [apply determineStatus_churned|].
  pose proof (riskLevelOf_cases (churnRisk this)) as (Hl & Hm & Hh).
  split; [exact Hl|]. split; [exact Hm|]. split; [exact Hh|].
  split; [apply level_matches_status|].
  split; [reflexivity|]. split; [reflexivity|].
  intros id now savedAt db.
  pose proof (predict_answer_consistent id now savedAt db) as H.
  destruct (snd (predict id now savedAt db)); [apply H | exact I].
Qed.


(** What the route leaves alone, whatever it answers: every stored document
    is still stored under its [_id], with the same identity, commercial
    attributes, features and interaction log, and with its earlier
    prediction records as a prefix of its history. *)
Lemma predict_frame_any (id id' : ObjectId) (now savedAt : Date)
      (db : Collection) (c : Customer) :
  findById id' db = Some c ->
  exists c',
    findById id' (fst (predict id now savedAt db)) = Some c' /\
    (_id c' = _id c /\ name c' = name c /\ email c' = email c /\
     company c' = company c /\ subscriptionValue c' = subscriptionValue c /\
     contractLength c' = contractLength c /\
     supportTickets c' = supportTickets c /\
     loginFrequency c' = loginFrequency c /\
     lastActivity c' = lastActivity c /\ features c' = features c /\
     interactions c' = interactions c /\ createdAt c' = createdAt c) /\
    (exists added, predictions c' = predictions c ++ added
                   /\ (length added <= 1)%nat) /\
    (id' <> id -> c' = c).
Proof.
  intros Hc. unfold predict.
  destruct (findById id db) as [found|] eqn:Hfound.
  2:{ exists c. cbn [fst]. split; [exact Hc|]. split; [tauto|].
      split; [|reflexivity]. exists []. rewrite app_nil_r. simpl. split; [reflexivity|lia]. }
  cbv zeta. unfold save.
  destruct (validate _) as [[]|e]; cbv beta iota delta [bind].
  2:{ exists c. cbn [fst]. split; [exact Hc|]. split; [tauto|].
      split; [|reflexivity]. exists []. rewrite app_nil_r. simpl. split; [reflexivity|lia]. }
  rewrite preSave_untouched_features by reflexivity.
  cbn -[calculateChurnRisk riskLevelOf determineStatus explainFactors
        replaceById findById].
  rewrite findById_replaceById, Hc.
  cbn -[calculateChurnRisk riskLevelOf determineStatus explainFactors].
  pose proof (findById_id _ _ _ Hfound) as Hid.
  pose proof (findById_id _ _ _ Hc) as Hid'.
  destruct (String.eqb (_id c) (_id found)) eqn:E.
  - apply String.eqb_eq in E.
    assert (id' = id) as -> by congruence.
    assert (found = c) as -> by congruence.
    eexists. split; [reflexivity|].
    cbn -[calculateChurnRisk riskLevelOf determineStatus explainFactors].
    split; [tauto|]. split; [|congruence].
    eexists. split; [reflexivity|]. simpl. lia.
  - exists c. split; [reflexivity|]. split; [tauto|].
    split; [|reflexivity]. exists []. rewrite app_nil_r. simpl. split; [reflexivity|lia].
Qed.

(** C10. A prediction for one customer changes, of everything stored, only
    that customer's score, status and history (one record appended, the
    earlier ones kept) and the [updatedAt] stamp the write refreshes: name,
    email, company, subscription value, contract length, support tickets,
    login frequency, last activity, features and interaction log are as
    before, and so is every other customer. *)
Theorem predict_changes_only_derived_state (id id' : ObjectId)
        (now savedAt : Date) (db : Collection) (c : Customer) :
  findById id' db = Some c ->
  exists c',
    findById id' (fst (predict id now savedAt db)) = Some c' /\
    (_id c' = _id c /\ name c' = name c /\ email c' = email c /\
     company c' = company c /\ subscriptionValue c' = subscriptionValue c /\
     contractLength c' = contractLength c /\
     supportTickets c' = supportTickets c /\
     loginFrequency c' = loginFrequency c /\
     lastActivity c' = lastActivity c /\ features c' = features c /\
     interactions c' = interactions c /\ createdAt c' = createdAt c) /\
    (exists added, predictions c' = predictions c ++ added
                   /\ (length added <= 1)%nat) /\
    (id' <> id -> c' = c) /\
    (id' = id -> validate c = Ok tt ->
     c' = rescored (predictionFor now c) savedAt c).
Proof.
  intros Hc.
  destruct (predict_frame_any id id' now savedAt db c Hc)
    as (c' & Hc' & Hsame & Hhist & Hother).
  exists c'. repeat (split; [assumption|]).
  intros -> Hvalid.
  rewrite (predict_found id now savedAt db c Hc Hvalid) in Hc'.
  cbn [fst] in Hc'. rewrite findById_replaceById, Hc in Hc'.
  cbn [option_map rescored _id] in Hc'.
  rewrite String.eqb_refl in Hc'. congruence.
Qed.

(** ** The bulk route *)

Lemma save_bulkUpdate (now savedAt : Date) (db : Collection) (c : Customer) :
  validate c = Ok tt ->
  save (bulkUpdate now c) savedAt db =
  Ok (rescored (bulkPredictionFor now c) savedAt c,
      replaceById (rescored (bulkPredictionFor now c) savedAt c) db).
Proof.
  intros Hvalid. unfold save.
  pose proof (validate_rescored (bulkPredictionFor now c) savedAt c Hvalid
                                eq_refl) as Hv.
  change (validate (rescored (bulkPredictionFor now c) savedAt c))
    with (validate (doc (bulkUpdate now c))) in Hv.
  rewrite Hv. cbv beta iota delta [bind].
  rewrite preSave_untouched_features by reflexivity.
  reflexivity.
Qed.

Lemma replaceById_absent (n : Customer) (l : Collection) :
  ~ In (_id n) (map _id l) -> replaceById n l = l.
Proof.
  induction l as [|x l IH]; simpl; intros Hn; [reflexivity|].
  destruct (String.eqb (_id x) (_id n)) eqn:E.
  - apply String.eqb_eq in E. tauto.
  - f_equal. apply IH. tauto.
Qed.

Lemma replaceById_head (n c : Customer) (l : Collection) :
  _id c = _id n -> ~ In (_id n) (map _id l) ->
  replaceById n (c :: l) = n :: l.
Proof.
  intros Hc Hn. unfold replaceById at 1. cbn [map].
  rewrite Hc, String.eqb_refl. f_equal. apply replaceById_absent, Hn.
Qed.

Lemma replaceById_app (n : Customer) (l l' : Collection) :
  replaceById n (l ++ l') = replaceById n l ++ replaceById n l'.
Proof. apply map_app. Qed.

Lemma fold_saveOne_rejected (now savedAt : ObjectId -> Date)
      (l : list Customer) (db : Collection) (e : Error) :
  exists db', fold_left (saveOne now savedAt) l (db, Some e) = (db', Some e).
Proof.
  revert db. induction l as [|c l IH]; intros db; simpl.
  - now exists db.
  - destruct (save _ _ db) as [[saved db']|e']; apply IH.
Qed.

(** With unique ids and valid documents, the writes of the selected
    customers amount to one pass over the collection. *)
Lemma saveAll_selected (now savedAt : ObjectId -> Date) (q : Customer -> bool)
      (rest done : Collection) :
  NoDup (map _id (done ++ rest)) ->
  Forall (fun c => validate c = Ok tt) rest ->
  saveAll now savedAt (filter q rest) (done ++ rest) =
  (done ++ map (fun c => if q c then bulkRescored now savedAt c else c) rest,
   None).
Proof.
  unfold saveAll. revert done.
  induction rest as [|c rest IH]; intros done Hnodup Hvalid.
  - reflexivity.
  - inversion Hvalid as [|? ? Hc Hrest]; subst.
    assert (Hsplit : forall x : Customer,
               done ++ x :: rest = (done ++ [x]) ++ rest)
      by (intros x; rewrite <- app_assoc; reflexivity).
    cbn [filter map]. destruct (q c) eqn:Hq.
    + cbn [fold_left saveOne]. rewrite save_bulkUpdate by exact Hc.
      fold (bulkRescored now savedAt c).
      rewrite map_app in Hnodup. cbn [map] in Hnodup.
      pose proof (NoDup_remove_2 _ _ _ Hnodup) as Hfresh.
      rewrite in_app_iff in Hfresh.
      rewrite replaceById_app.
      rewrite (replaceById_absent _ done)
        by (cbn [bulkRescored rescored _id]; tauto).
      rewrite (replaceById_head _ c rest)
        by (cbn [bulkRescored rescored _id]; tauto).
      rewrite (Hsplit (bulkRescored now savedAt c)).
      rewrite IH; [rewrite <- app_assoc; reflexivity | | exact Hrest].
      rewrite <- app_assoc, map_app. exact Hnodup.
    + rewrite (Hsplit c).
      rewrite IH; [rewrite <- app_assoc; reflexivity | | exact Hrest].
      rewrite <- app_assoc. exact Hnodup.
Qed.








(** Reduce the field accesses on the assignments of the routes. *)
Ltac fields :=
  cbn [set_churnRisk set_status set_predictions set_updatedAt rescored
       doc isNew modifiedPaths _id name email company subscriptionValue
       lastActivity supportTickets loginFrequency contractLength churnRisk
       status features predictions interactions createdAt updatedAt].

(** ** Writes and the derived state *)

(** The classifier reads the score alone. *)
Lemma determineStatus_ext (a b : Customer) :
  churnRisk a = churnRisk b -> determineStatus a = determineStatus b.
Proof. unfold determineStatus. intros ->. reflexivity. Qed.

Lemma derivedStateFresh_rescored (p : Prediction) (savedAt : Date) (c : Customer) :
  derivedStateFresh (rescored p savedAt c).
Proof.
  unfold derivedStateFresh.
  assert (Hscore : calculateChurnRisk (rescored p savedAt c) = calculateChurnRisk c)
    by (apply calculateChurnRisk_ext; reflexivity).
  split.
  - rewrite Hscore. reflexivity.
  - fields. apply determineStatus_ext. fields. reflexivity.
Qed.

(** A prediction leaves the customer with a fresh derived state. *)
Lemma predict_establishes (id : ObjectId) (now savedAt : Date)
      (db : Collection) (c : Customer) :
  findById id db = Some c ->
  validate c = Ok tt ->
  exists c', findById id (fst (predict id now savedAt db)) = Some c'
             /\ derivedStateFresh c'.
Proof.
  intros Hfind Hvalid.
  exists (rescored (predictionFor now c) savedAt c).
  rewrite (predict_found id now savedAt db c Hfind Hvalid). cbn [fst].
  rewrite findById_replaceById, Hfind. cbn [option_map].
  pose proof (findById_id _ _ _ Hfind) as Hid.
  change (_id (rescored (predictionFor now c) savedAt c)) with (_id c).
  rewrite String.eqb_refl.
  split; [reflexivity | apply derivedStateFresh_rescored].
Qed.

Lemma newCustomer_isNew (body : Body) (id : ObjectId) (now : Date) (d : Document) :
  newCustomer body id now = Ok d -> isNew d = true.
Proof.
  unfold newCustomer.
  destruct (b_name body); [|discriminate].
  destruct (b_email body); [|discriminate].
  destruct (b_company body); [|discriminate].
  destruct (b_subscriptionValue body); [|discriminate].
  destruct (b_contractLength body); [|discriminate].
  cbn [required bind]. intros H. injection H as <-. reflexivity.
Qed.

(** Saving a new document stores it with the score of its features and the
    status of that score. *)
Lemma save_new (d : Document) (stamp : Date) (db db' : Collection) (c : Customer) :
  isNew d = true ->
  save d stamp db = Ok (c, db') ->
  derivedStateFresh c /\ db' = db ++ [c].
Proof.
  intros Hnew. unfold save.
  destruct (validate (doc d)) as [[]|e]; cbv beta iota delta [bind];
    [|discriminate].
  assert (Hnew' : isNew (preSave d) = true)
    by (unfold preSave; rewrite Hnew, orb_true_r; exact Hnew).
  rewrite Hnew'.
  destruct (existsb _ db); [discriminate|].
  intros H. injection H as <- <-. split; [|reflexivity].
  rewrite (preSave_new d Hnew). unfold derivedStateFresh. split.
  - fields.
    match goal with
    | |- _ == calculateChurnRisk ?x =>
        rewrite (calculateChurnRisk_ext (doc d) x) by reflexivity
    end.
    reflexivity.
  - fields.
    apply determineStatus_ext. fields. reflexivity.
Qed.

(** A created customer is stored with a fresh derived state. *)
Lemma create_establishes (body : Body) (id : ObjectId) (now : Date)
      (db db' : Collection) (httpStatus : nat) (c : Customer) :
  createCustomer body id now db = (db', Json httpStatus c) ->
  derivedStateFresh c /\ db' = db ++ [c].
Proof.
  unfold createCustomer.
  destruct (newCustomer body id now) as [d|e] eqn:Hd; cbv beta iota delta [bind].
  - destruct (save d now db) as [[saved db'']|e] eqn:Hs.
    + intros H. injection H as <- _ <-.
      exact (save_new d now db db'' saved (newCustomer_isNew _ _ _ _ Hd) Hs).
    + destruct (codeIs e 11000); discriminate.
  - destruct (codeIs e 11000); discriminate.
Qed.

(** C4. The update route writes the body's fields and nothing else: after
    the edit form raises the support tickets of [loyal] to ten and takes its
    logins to zero, the stored score is still 0.5 and the status [at_risk],
    where the score of the stored attributes is 0.85 and its status
    [churned]; and a body that sets the score to 0.9 leaves the status
    [at_risk], which is not the status of 0.9. *)
Theorem update_skips_recomputation :
  derivedStateFresh loyal /\
  (let c' := set_updatedAt someDay (applyUpdate editedForm loyal) in
   updateCustomer (_id loyal) editedForm someDay [loyal] = ([c'], Json 200 c') /\
   supportTickets c' = 10 /\ loginFrequency c' = 0 /\
   churnRisk c' == 0.5 /\ status c' = at_risk /\
   calculateChurnRisk c' == 0.85 /\
   determineStatus (set_churnRisk (calculateChurnRisk c') c') = churned /\
   ~ derivedStateFresh c') /\
  (let c' := set_updatedAt someDay (applyUpdate (scoreBody 0.9) loyal) in
   updateCustomer (_id loyal) (scoreBody 0.9) someDay [loyal]
   = ([c'], Json 200 c') /\
   churnRisk c' == 0.9 /\ status c' = at_risk /\
   determineStatus c' = churned /\ status c' <> determineStatus c').
Proof.
  split; [split; vm_compute; reflexivity|].
  split; cbv zeta.
  - repeat split; try (vm_compute; reflexivity).
    intros [H _]. vm_compute in H. discriminate H.
  - repeat split; try (vm_compute; reflexivity).
    vm_compute. discriminate.
Qed.

(** ** Analytics *)

Lemma Qle_bool_false (a b : Q) : Qle_bool a b = false <-> b < a.
Proof.
  rewrite <- not_true_iff_false, Qle_bool_iff. split.
  - apply Qnot_le_lt.
  - intros H Hle. apply (Qlt_not_le _ _ H Hle).
Qed.

Ltac reflect_comparisons :=
  repeat match goal with
         | H : Qle_bool _ _ = true |- _ => apply Qle_bool_iff in H
         | H : Qle_bool _ _ = false |- _ => apply Qle_bool_false in H
         | H : (_ <? _) = true |- _ => apply Qltb_lt in H
         | H : (_ <? _) = false |- _ => apply Qltb_ge in H
         end.

(** The ranges of the histogram: closed below, open above. *)
Lemma bucketOf_histogram (v : Q) :
  (bucketOf [0; 0.3; 0.7; 1.0] v = Some 0 <-> 0 <= v /\ v < 0.3) /\
  (bucketOf [0; 0.3; 0.7; 1.0] v = Some 0.3 <-> 0.3 <= v /\ v < 0.7) /\
  (bucketOf [0; 0.3; 0.7; 1.0] v = Some 0.7 <-> 0.7 <= v /\ v < 1) /\
  (bucketOf [0; 0.3; 0.7; 1.0] v = None <-> v < 0 \/ 1 <= v).
Proof.
  cbn [bucketOf].
  destruct (Qle_bool 0 v) eqn:E0; destruct (v <? 0.3) eqn:E1;
    destruct (Qle_bool 0.3 v) eqn:E2; destruct (v <? 0.7) eqn:E3;
    destruct (Qle_bool 0.7 v) eqn:E4; destruct (v <? 1.0) eqn:E5;
    cbn [andb]; reflect_comparisons;
    (split; [|split; [|split]]); (split; intros H);
    solve [ reflexivity | discriminate H | lra | exfalso; lra
          | exfalso; destruct H; lra ].
Qed.

(** Every value is in exactly one of the four buckets. *)
Lemma bucketOf_histogram_cases (v : Q) :
  bucketOf [0; 0.3; 0.7; 1.0] v = Some 0 \/
  bucketOf [0; 0.3; 0.7; 1.0] v = Some 0.3 \/
  bucketOf [0; 0.3; 0.7; 1.0] v = Some 0.7 \/
  bucketOf [0; 0.3; 0.7; 1.0] v = None.
Proof.
  cbn [bucketOf].
  destruct (Qle_bool 0 v && (v <? 0.3)); [tauto|].
  destruct (Qle_bool 0.3 v && (v <? 0.7)); [tauto|].
  destruct (Qle_bool 0.7 v && (v <? 1.0)); tauto.
Qed.

Lemma nonempty_buckets_sum (l : list Bucket) :
  list_sum (map count (filter (fun b => negb (Nat.eqb (count b) 0)) l))
  = list_sum (map count l).
Proof.
  unfold list_sum.
  induction l as [|b l IH]; [reflexivity|]. cbn [filter].
  destruct (Nat.eqb (count b) 0) eqn:E; cbn [negb map fold_right].
  - apply Nat.eqb_eq in E. rewrite E, IH. reflexivity.
  - rewrite IH. reflexivity.
Qed.

Lemma histogram_tally (db : Collection) :
  let members key :=
    filter (fun d => sameBucket (bucketOf [0; 0.3; 0.7; 1.0] (churnRisk d)) key)
           db in
  (length (members (Some 0%Q)) + length (members (Some 0.3%Q))
   + length (members (Some 0.7%Q)) + length (members None) = length db)%nat.
Proof.
  cbv zeta. induction db as [|c db IH]; [reflexivity|].
  cbn [filter].
  set (t0 := filter (fun d => sameBucket _ (Some 0)) db) in *.
  set (t1 := filter (fun d => sameBucket _ (Some 0.3)) db) in *.
  set (t2 := filter (fun d => sameBucket _ (Some 0.7)) db) in *.
  set (t3 := filter (fun d => sameBucket _ None) db) in *.
  clearbody t0 t1 t2 t3.
  destruct (bucketOf_histogram_cases (churnRisk c)) as [H|[H|[H|H]]];
    rewrite H; cbn; lia.
Qed.

(** The counts of the histogram, overflow bucket included, add up to the
    number of customers. *)
Lemma bucket_counts_sum (db : Collection) :
  list_sum (map count (bucketStage [0; 0.3; 0.7; 1.0] "other" db)) = length db.
Proof.
  unfold bucketStage. rewrite nonempty_buckets_sum.
  cbn [removelast map app bucketFor count]. unfold list_sum. cbn [fold_right].
  pose proof (histogram_tally db) as H. cbv zeta in H. lia.
Qed.

(** C7. A score of exactly 1 is outside every range of the histogram, whose
    last range is open at 1: the customer is counted in the bucket ['other'],
    and the histogram of a collection with one customer at 0.5 and one at 1
    has a bucket for 0.3 and the overflow bucket, none for 0.7. *)
Theorem full_score_lands_in_overflow_bucket :
  calculateChurnRisk dormant == 1 /\
  churnRisk dormant == 1 /\
  riskLevelOf (churnRisk dormant) = high /\
  bucketOf [0; 0.3; 0.7; 1.0] (churnRisk dormant) = None /\
  analyticsSummary [loyal; dormant] =
  Json 200
    {| summary := {| totalCustomers := 2; activeCustomers := 0;
                     atRiskCustomers := 1; churnedCustomers := 1 |};
       riskDistribution :=
         [ {| bucket_id := Lower 0.3; count := 1;
              customers := [ {| m_name := name loyal; m_email := email loyal;
                                m_churnRisk := churnRisk loyal |} ] |};
           {| bucket_id := Default "other"; count := 1;
              customers := [ {| m_name := name dormant;
                                m_email := email dormant;
                                m_churnRisk := churnRisk dormant |} ] |} ] |}.
Proof.
  repeat split; vm_compute; reflexivity.
Qed.

(** ** The theorems at the sample population *)

Lemma population_ids : NoDup (map _id population).
Proof.
  repeat constructor; cbn; intros H;
    repeat (destruct H as [H|H]; [discriminate H|]); exact H.
Defined.

Lemma population_valid : Forall (fun c => validate c = Ok tt) population.
Proof. repeat constructor. Defined.



(** A prediction for [loyal] in the sample population. *)
Lemma predict_changes_only_derived_state_witness :
  findById (_id loyal) population = Some loyal /\
  exists c',
    findById (_id loyal)
             (fst (predict (_id loyal) someDay someDay population)) = Some c' /\
    features c' = features loyal /\
    supportTickets c' = supportTickets loyal /\
    interactions c' = interactions loyal /\
    predictions c' = predictions loyal ++ [predictionFor someDay loyal].
Proof.
  split; [reflexivity|].
  destruct (predict_changes_only_derived_state
              (_id loyal) (_id loyal) someDay someDay population loyal eq_refl)
    as (c' & Hfind & _ & _ & _ & Hclosed).
  exists c'. split; [exact Hfind|].
  rewrite (Hclosed eq_refl eq_refl). repeat split.
Defined.

(** ** The concrete evaluations on binary64 *)

Module Binary64Facts.

Import PrimFloat.
Local Open Scope float_scope.
Local Set Warnings "-inexact-float".

(** The inputs of the scenarios and of the failing cases give the same
    scores, statuses and bucket on IEEE binary64 numbers: 0.5 and [at_risk]
    for the ideal customer; a first summand of 0.5 and a score of 1 at 60
    days; [churned] for the edited attributes; no range for a score of 1. *)
Lemma binary64_evaluations :
  Binary64.calculateChurnRisk 0 0 30 36 10 10000 100 = 0.5 /\
  Binary64.determineStatus 0.5 = at_risk /\
  Binary64.term_daysSinceLastLogin 60 = 0.5 /\
  Binary64.calculateChurnRisk 60 0 30 36 10 10000 100 = 1 /\
  Binary64.determineStatus
    (Binary64.calculateChurnRisk 0 10 0 36 10 10000 100) = churned /\
  Binary64.determineStatus 0.9 = churned /\
  Binary64.bucketOf Binary64.histogram 1 = None /\
  Binary64.bucketOf Binary64.histogram 0.5 = Some 0.3.
Proof. repeat split; vm_compute; reflexivity. Qed.

(** C1. The score does not lie in [0,1] for every value a customer can
    carry.  With [-Infinity] as the days since the last login and as the
    product usage (numbers, which the schema accepts: neither path has a
    bound), the first summand is [-Infinity] and the last one [Infinity],
    their sum is NaN, [Math.min(1, NaN)] and [Math.max(0, NaN)] are NaN, and
    the score returned is neither at least 0 nor at most 1.  One infinite
    value alone is still clamped. *)
Theorem calculateChurnRisk_not_a_number :
  Binary64.term_daysSinceLastLogin neg_infinity = neg_infinity /\
  (1 - Binary64.min (neg_infinity / 100) 1) * abs (-0.05) = infinity /\
  Binary64.isNaN
    (Binary64.calculateChurnRisk neg_infinity 0 30 36 10 10000 neg_infinity)
  = true /\
  (0 <=? Binary64.calculateChurnRisk neg_infinity 0 30 36 10 10000
                                      neg_infinity) = false /\
  (Binary64.calculateChurnRisk neg_infinity 0 30 36 10 10000 neg_infinity
   <=? 1) = false /\
  Binary64.calculateChurnRisk neg_infinity 0 30 36 10 10000 100 = 0 /\
  Binary64.calculateChurnRisk 0 0 30 36 10 10000 neg_infinity = 1.
Proof. repeat split; vm_compute; reflexivity. Qed.

End Binary64Facts.

(** ** Creation *)

Lemma findById_absent (id : ObjectId) (db : Collection) :
  findById id db = None <-> ~ In id (map _id db).
Proof.
  induction db as [|x db IH]; simpl; [tauto|].
  destruct (String.eqb (_id x) id) eqn:E.
  - apply String.eqb_eq in E. split; [discriminate | tauto].
  - apply String.eqb_neq in E. rewrite IH. tauto.
Qed.

Lemma findById_app_fresh (id : ObjectId) (db : Collection) (c : Customer) :
  findById id db = None -> _id c = id -> findById id (db ++ [c]) = Some c.
Proof.
  intros Hfresh Hid. induction db as [|x db IH]; simpl in *.
  - rewrite Hid, String.eqb_refl. reflexivity.
  - destruct (String.eqb (_id x) id); [discriminate | exact (IH Hfresh)].
Qed.

Lemma findById_app_other (id : ObjectId) (db : Collection) (c : Customer) :
  _id c <> id -> findById id (db ++ [c]) = findById id db.
Proof.
  intros Hid. induction db as [|x db IH]; simpl.
  - apply String.eqb_neq in Hid. rewrite Hid. reflexivity.
  - destruct (String.eqb (_id x) id); [reflexivity | exact IH].
Qed.

Lemma newCustomer_id (body : Body) (id : ObjectId) (now : Date) (d : Document) :
  newCustomer body id now = Ok d ->
  _id (doc d) = id /\ createdAt (doc d) = now /\
  predictions (doc d) = orElse (b_predictions body) [].
Proof.
  unfold newCustomer.
  destruct (b_name body); [|discriminate].
  destruct (b_email body); [|discriminate].
  destruct (b_company body); [|discriminate].
  destruct (b_subscriptionValue body); [|discriminate].
  destruct (b_contractLength body); [|discriminate].
  cbn [required bind]. intros H. injection H as <-. repeat split.
Qed.

(** A saved new document passes the validators, with the identity it was
    built with. *)
Lemma save_new_valid (d : Document) (stamp : Date) (db db' : Collection)
      (c : Customer) :
  isNew d = true ->
  save d stamp db = Ok (c, db') ->
  validate c = Ok tt /\ _id c = _id (doc d) /\ createdAt c = createdAt (doc d)
  /\ predictions c = predictions (doc d) /\ email c = email (doc d)
  /\ (forall x, In x db -> email x <> email c).
Proof.
  intros Hnew. unfold save.
  destruct (validate (doc d)) as [[]|e] eqn:Hv; cbv beta iota delta [bind];
    [|discriminate].
  assert (Hnew' : isNew (preSave d) = true)
    by (unfold preSave; rewrite Hnew, orb_true_r; exact Hnew).
  rewrite Hnew'.
  destruct (existsb _ db) eqn:Hdup; [discriminate|].
  intros H. injection H as <- _.
  rewrite (preSave_new d Hnew) in *. fields.
  split; [|split; [reflexivity | split; [reflexivity | split; [reflexivity | split; [reflexivity|]]]]].
  - revert Hv. unfold validate. rewrite !runValidators_ok. unfold validators.
    cbn [forallb snd]. fields. intros H.
    repeat (apply andb_prop in H; destruct H as [?H H]).
    rewrite score_between.
    repeat first [ assumption | reflexivity | apply andb_true_intro; split ].
  - intros x Hx Heq.
    assert (Hex : existsb (fun x0 => String.eqb (email x0) (email (doc d))) db = true).
    { apply existsb_exists. exists x. split; [exact Hx|].
      apply String.eqb_eq. exact Heq. }
    cbn [set_churnRisk set_status set_updatedAt email] in Hdup, Heq.
    congruence.
Qed.

Lemma getCustomer_found (id : ObjectId) (db : Collection) (c : Customer) :
  findById id db = Some c -> getCustomer id db = Json 200 c.
Proof. intros H. unfold getCustomer. rewrite H. reflexivity. Qed.

(** X5. When [POST /] answers with a customer, the answer is 201 and the
    customer is appended to the collection under the given [_id]; it passes
    the validators, and its score and status are the computed ones, whatever
    the body said.  With a fresh [_id], [GET /:id] then returns this
    customer, and every other [_id] resolves as before. *)
Theorem create_stores_derived_state (body : Body) (id : ObjectId) (now : Date)
        (db db' : Collection) (httpStatus : nat) (c : Customer) :
  findById id db = None ->
  createCustomer body id now db = (db', Json httpStatus c) ->
  httpStatus = 201%nat /\ db' = db ++ [c] /\ _id c = id /\
  churnRisk c == calculateChurnRisk c /\ status c = determineStatus c /\
  validate c = Ok tt /\
  getCustomer id db' = Json 200 c /\
  (forall id', id' <> id -> getCustomer id' db' = getCustomer id' db).
Proof.
  intros Hfresh. unfold createCustomer.
  destruct (newCustomer body id now) as [d|e] eqn:Hd;
    cbv beta iota delta [bind].
  2:{ destruct (codeIs e 11000); discriminate. }
  destruct (save d now db) as [[saved db'']|e] eqn:Hs.
  2:{ destruct (codeIs e 11000); discriminate. }
  intros H. injection H as <- <- <-.
  pose proof (newCustomer_isNew _ _ _ _ Hd) as Hnew.
  destruct (save_new d now db db'' saved Hnew Hs) as [[Hrisk Hstatus] ->].
  destruct (save_new_valid d now db _ saved Hnew Hs) as (Hvalid & Hid & _).
  destruct (newCustomer_id _ _ _ _ Hd) as (Hid' & _).
  assert (Hsaved : _id saved = id) by congruence.
  repeat split; try assumption.
  - apply getCustomer_found, findById_app_fresh; assumption.
  - intros id' Hne. unfold getCustomer.
    rewrite findById_app_other by congruence. reflexivity.
Qed.

Lemma runValidators_fail (vs : list (string * (Customer -> bool)))
      (c : Customer) :
  forallb (fun v => snd v c) vs = false ->
  exists e, runValidators vs c = Fail e.
Proof.
  intros H. destruct (runValidators vs c) as [[]|e] eqn:E.
  - apply runValidators_ok in E. congruence.
  - now exists e.
Qed.

Lemma createCustomer_error_shape (body : Body) (id : ObjectId) (now : Date)
      (db : Collection) (e : Error) :
  (customer <- newCustomer body id now ;; save customer now db) = Fail e ->
  exists msg, createCustomer body id now db = (db, ErrorJson 400 msg).
Proof.
  intros H. unfold createCustomer. rewrite H.
  destruct (codeIs e 11000); eexists; reflexivity.
Qed.

(** X6. [POST /] answers 400 and leaves the collection as it is when the
    body lacks one of the required fields (name, email, company,
    subscription value, contract length), when the subscription value is
    negative, or when the contract length is below 1. *)
Theorem create_rejects_invalid_body (body : Body) (id : ObjectId) (now : Date)
        (db : Collection) :
  b_name body = None \/ b_email body = None \/ b_company body = None \/
  b_subscriptionValue body = None \/ b_contractLength body = None \/
  (exists v, b_subscriptionValue body = Some v /\ v < 0) \/
  (exists m, b_contractLength body = Some m /\ m < 1) ->
  exists msg, createCustomer body id now db = (db, ErrorJson 400 msg).
Proof.
  intros H.
  assert (Hfail : exists e,
             (customer <- newCustomer body id now ;; save customer now db)
             = Fail e).
  { unfold newCustomer.
    destruct (b_name body) as [n|]; [|eexists; reflexivity].
    destruct (b_email body) as [m|]; [|eexists; reflexivity].
    destruct (b_company body) as [k|]; [|eexists; reflexivity].
    destruct (b_subscriptionValue body) as [v|]; [|eexists; reflexivity].
    destruct (b_contractLength body) as [l|]; [|eexists; reflexivity].
    cbn [required bind]. unfold save.
    match goal with
    | |- context [validate ?x] =>
        assert (Hv : exists e, validate x = Fail e)
    end.
    { apply runValidators_fail. unfold validators. cbn [forallb snd]. fields.
      destruct H as [H|[H|[H|[H|[H|[(v' & Hv' & Hneg)|(m' & Hm' & Hlow)]]]]]];
        try discriminate.
      - injection Hv' as <-. apply Qle_bool_false in Hneg. rewrite Hneg.
        rewrite !andb_false_r. reflexivity.
      - injection Hm' as <-. apply Qle_bool_false in Hlow. rewrite Hlow.
        rewrite !andb_false_r. reflexivity. }
    destruct Hv as [e He]. rewrite He. exists e. reflexivity. }
  destruct Hfail as [e He]. exact (createCustomer_error_shape _ _ _ _ e He).
Qed.

Lemma newCustomer_same_body (body : Body) (id id' : ObjectId) (now now' : Date)
      (d : Document) :
  newCustomer body id now = Ok d ->
  exists d', newCustomer body id' now' = Ok d' /\
             validate (doc d') = validate (doc d) /\
             email (doc d') = email (doc d).
Proof.
  unfold newCustomer.
  destruct (b_name body); [|discriminate].
  destruct (b_email body); [|discriminate].
  destruct (b_company body); [|discriminate].
  destruct (b_subscriptionValue body); [|discriminate].
  destruct (b_contractLength body); [|discriminate].
  cbn [required bind]. intros H. injection H as <-.
  eexists. split; [reflexivity|]. split; reflexivity.
Qed.

(** X7. The email is unique: after [POST /] has stored a customer, a second
    [POST /] with the same body (under any other [_id], at any time) answers
    400 with the message for a taken email and leaves the collection as it
    is. *)
Theorem create_twice_rejects_duplicate (body : Body) (id id' : ObjectId)
        (now now' : Date) (db db' : Collection) (httpStatus : nat)
        (c : Customer) :
  createCustomer body id now db = (db', Json httpStatus c) ->
  createCustomer body id' now' db'
  = (db', ErrorJson 400 "Customer with this email already exists").
Proof.
  unfold createCustomer at 1.
  destruct (newCustomer body id now) as [d|e] eqn:Hd;
    cbv beta iota delta [bind].
  2:{ destruct (codeIs e 11000); discriminate. }
  destruct (save d now db) as [[saved db'']|e] eqn:Hs.
  2:{ destruct (codeIs e 11000); discriminate. }
  intros H. injection H as <- _ <-.
  pose proof (newCustomer_isNew _ _ _ _ Hd) as Hnew.
  destruct (save_new d now db db'' saved Hnew Hs) as [_ ->].
  destruct (save_new_valid d now db _ saved Hnew Hs)
    as (_ & _ & _ & _ & Hmail & _).
  destruct (newCustomer_same_body body id id' now now' d Hd)
    as (d' & Hd' & Hvalid' & Hmail').
  assert (Hv : validate (doc d) = Ok tt).
  { revert Hs. unfold save. destruct (validate (doc d)) as [[]|e];
      [reflexivity | discriminate]. }
  unfold createCustomer. rewrite Hd'. cbv beta iota delta [bind].
  unfold save. rewrite Hvalid', Hv. cbv beta iota delta [bind].
  pose proof (newCustomer_isNew _ _ _ _ Hd') as Hnew'.
  assert (Hnew'' : isNew (preSave d') = true)
    by (unfold preSave; rewrite Hnew', orb_true_r; exact Hnew').
  rewrite Hnew''.
  assert (Hdup : existsb (fun x => String.eqb (email x) (email (doc (preSave d'))))
                         (db ++ [saved]) = true).
  { apply existsb_exists. exists saved. split; [apply in_or_app; right; now left|].
    apply String.eqb_eq. rewrite (preSave_new d' Hnew').
    cbn [set_status set_churnRisk email]. congruence. }
  rewrite Hdup. reflexivity.
Qed.

(** The add form, sent for [newcomerId] to the sample population. *)
Lemma create_stores_derived_state_witness :
  findById newcomerId population = None /\
  exists c,
    createCustomer newcomerForm newcomerId someDay population
    = (population ++ [c], Json 201 c) /\
    status c = determineStatus c /\ getCustomer newcomerId (population ++ [c])
                                    = Json 200 c.
Proof.
  split; [reflexivity|].
  destruct (createCustomer newcomerForm newcomerId someDay population)
    as [db' [code c|code msg]] eqn:E.
  - destruct (create_stores_derived_state
                newcomerForm newcomerId someDay population db' code c
                eq_refl E)
      as (-> & -> & _ & _ & Hst & _ & Hget & _).
    exists c. split; [reflexivity|]. split; [exact Hst | exact Hget].
  - exfalso. vm_compute in E. discriminate E.
Defined.

(** The add form sent twice. *)
Lemma create_twice_rejects_duplicate_witness :
  exists db' httpStatus c,
    createCustomer newcomerForm newcomerId someDay population
    = (db', Json httpStatus c) /\
    createCustomer newcomerForm "64b00000000000000000000a" (someDay + 1)%Z db'
    = (db', ErrorJson 400 "Customer with this email already exists").
Proof.
  destruct (createCustomer newcomerForm newcomerId someDay population)
    as [db' [code c|code msg]] eqn:E.
  - pose proof (create_twice_rejects_duplicate
                  newcomerForm newcomerId "64b00000000000000000000a"
                  someDay (someDay + 1)%Z population db' code c E) as H.
    exists db', code, c. split; [reflexivity | exact H].
  - exfalso. vm_compute in E. discriminate E.
Defined.

(** A body without any field. *)
Lemma create_rejects_invalid_body_witness :
  b_name noBody = None /\
  exists msg,
    createCustomer noBody newcomerId someDay population
    = (population, ErrorJson 400 msg).
Proof.
  split; [reflexivity|].
  exact (create_rejects_invalid_body noBody newcomerId someDay population
           (or_introl eq_refl)).
Defined.

(** ** Deletion, unknown ids, updates *)

Lemma removeById_absent (id : ObjectId) (db : Collection) :
  findById id db = None -> removeById id db = db.
Proof.
  induction db as [|x db IH]; simpl; [reflexivity|].
  destruct (String.eqb (_id x) id); [discriminate|].
  intros H. f_equal. exact (IH H).
Qed.

Lemma removeById_length (id : ObjectId) (db : Collection) (c : Customer) :
  findById id db = Some c -> S (length (removeById id db)) = length db.
Proof.
  induction db as [|x db IH]; simpl; [discriminate|].
  destruct (String.eqb (_id x) id); [reflexivity|].
  intros H. simpl. f_equal. exact (IH H).
Qed.

Lemma findById_removeById_other (id id' : ObjectId) (db : Collection) :
  id' <> id -> findById id' (removeById id db) = findById id' db.
Proof.
  intros Hne. induction db as [|x db IH]; simpl; [reflexivity|].
  destruct (String.eqb (_id x) id) eqn:E.
  - apply String.eqb_eq in E.
    destruct (String.eqb (_id x) id') eqn:E'; [|reflexivity].
    apply String.eqb_eq in E'. congruence.
  - simpl. destruct (String.eqb (_id x) id'); [reflexivity | exact IH].
Qed.

Lemma In_removeById (id : ObjectId) (db : Collection) (x : Customer) :
  In x (removeById id db) -> In x db.
Proof.
  induction db as [|y db IH]; simpl; [tauto|].
  destruct (String.eqb (_id y) id); simpl; intuition.
Qed.

Lemma findById_removeById_same (id : ObjectId) (db : Collection) :
  NoDup (map _id db) -> findById id (removeById id db) = None.
Proof.
  induction db as [|x db IH]; simpl; intros Hnodup; [reflexivity|].
  inversion Hnodup as [|? ? Hfresh Hrest]; subst.
  destruct (String.eqb (_id x) id) eqn:E.
  - apply String.eqb_eq in E. subst id. apply findById_absent, Hfresh.
  - simpl. rewrite E. exact (IH Hrest).
Qed.

Lemma removeById_app_fresh (id : ObjectId) (db : Collection) (c : Customer) :
  findById id db = None -> _id c = id -> removeById id (db ++ [c]) = db.
Proof.
  intros Hfresh Hid. induction db as [|x db IH]; simpl in *.
  - rewrite Hid, String.eqb_refl. reflexivity.
  - destruct (String.eqb (_id x) id); [discriminate|].
    f_equal. exact (IH Hfresh).
Qed.

(** X8. [DELETE /:id] of a stored customer, in a collection with unique
    ids, answers 200, removes exactly that customer and nothing else:
    afterwards [GET /:id] answers 404 and every other [_id] resolves as
    before. *)
Theorem delete_removes_exactly_one (id : ObjectId) (db : Collection)
        (c : Customer) :
  uniqueIds db ->
  findById id db = Some c ->
  exists db',
    deleteCustomer id db
    = (db', Json 200 {| message_text := "Customer deleted successfully" |}) /\
    S (length db') = length db /\
    getCustomer id db' = ErrorJson 404 "Customer not found" /\
    (forall id', id' <> id -> getCustomer id' db' = getCustomer id' db) /\
    (forall x, In x db' -> In x db).
Proof.
  intros Hunique Hfind. exists (removeById id db).
  split; [unfold deleteCustomer, findByIdAndDelete; rewrite Hfind; reflexivity|].
  split; [exact (removeById_length id db c Hfind)|].
  split; [unfold getCustomer; rewrite (findById_removeById_same id db Hunique);
          reflexivity|].
  split.
  - intros id' Hne. unfold getCustomer.
    rewrite (findById_removeById_other id id' db Hne). reflexivity.
  - intros x. apply In_removeById.
Qed.

(** X9. Creating a customer under a fresh [_id] and deleting it again gives
    back the collection as it was. *)
Theorem create_then_delete_restores (body : Body) (id : ObjectId) (now : Date)
        (db db' : Collection) (httpStatus : nat) (c : Customer) :
  findById id db = None ->
  createCustomer body id now db = (db', Json httpStatus c) ->
  deleteCustomer id db'
  = (db, Json 200 {| message_text := "Customer deleted successfully" |}).
Proof.
  intros Hfresh Hcreate.
  destruct (create_establishes body id now db db' httpStatus c Hcreate)
    as [_ ->].
  assert (Hid : _id c = id).
  { revert Hcreate. unfold createCustomer.
    destruct (newCustomer body id now) as [d|e] eqn:Hd;
      cbv beta iota delta [bind].
    2:{ destruct (codeIs e 11000); discriminate. }
    destruct (save d now db) as [[saved db'']|e] eqn:Hs.
    2:{ destruct (codeIs e 11000); discriminate. }
    intros H. injection H as _ _ <-.
    destruct (save_new_valid d now db _ saved (newCustomer_isNew _ _ _ _ Hd) Hs)
      as (_ & Hid & _).
    destruct (newCustomer_id _ _ _ _ Hd) as (Hid' & _). congruence. }
  unfold deleteCustomer, findByIdAndDelete.
  rewrite (findById_app_fresh id db c Hfresh Hid).
  rewrite (removeById_app_fresh id db c Hfresh Hid). reflexivity.
Qed.


Lemma checkPath_ok {A : Type} (path : string) (ok : A -> bool) (o : option A) :
  checkPath path ok o = Ok tt ->
  match o with Some v => ok v = true | None => True end.
Proof.
  unfold checkPath. destruct o as [v|]; [|trivial].
  destruct (ok v); [reflexivity | discriminate].
Qed.

Lemma checkPath_fail {A : Type} (path : string) (ok : A -> bool) (v : A) :
  ok v = false -> checkPath path ok (Some v) = Fail (ValidationError path).
Proof. intros H. unfold checkPath. rewrite H. reflexivity. Qed.

Lemma bind_unit_ok (r : Result unit) (k : unit -> Result unit) :
  bind r k = Ok tt -> r = Ok tt /\ k tt = Ok tt.
Proof. destruct r as [[]|e]; simpl; [tauto | discriminate]. Qed.

Lemma bind_fail {A B : Type} (r : Result A) (k : A -> Result B) (e : Error) :
  r = Fail e -> bind r k = Fail e.
Proof. intros ->. reflexivity. Qed.

Lemma bind_unit_fail (r : Result unit) (k : unit -> Result unit) :
  (exists e, k tt = Fail e) -> exists e, bind r k = Fail e.
Proof.
  intros [e He]. destruct r as [[]|e']; simpl; [now exists e | now exists e'].
Qed.


(** X12. [PUT /:id] on a stored customer answers 400 and changes nothing
    when the body sets a negative subscription value, support ticket count
    or login frequency, a contract length below 1, a score outside [0,1] or
    a satisfaction outside [1,10]. *)
Theorem update_rejects_invalid_body (id : ObjectId) (body : Body) (now : Date)
        (db : Collection) (c : Customer) :
  findById id db = Some c ->
  (exists v, b_subscriptionValue body = Some v /\ v < 0) \/
  (exists v, b_supportTickets body = Some v /\ v < 0) \/
  (exists v, b_loginFrequency body = Some v /\ v < 0) \/
  (exists v, b_contractLength body = Some v /\ v < 1) \/
  (exists v, b_churnRisk body = Some v /\ (v < 0 \/ 1 < v)) \/
  (exists fb v, b_features body = Some fb /\ b_supportSatisfaction fb = Some v
                /\ (v < 1 \/ 10 < v)) ->
  exists msg, updateCustomer id body now db = (db, ErrorJson 400 msg).
Proof.
  intros _ H.
  assert (Hfail : exists e, validateUpdate body = Fail e).
  { unfold validateUpdate.
    destruct H as [(v & Hb & Hv)|[(v & Hb & Hv)|[(v & Hb & Hv)|[(v & Hb & Hv)
                  |[(v & Hb & Hv)|(fb & v & Hf & Hb & Hv)]]]]].
    - do 3 apply bind_unit_fail. rewrite Hb.
      eexists. apply bind_fail, checkPath_fail, Qle_bool_false, Hv.
    - do 4 apply bind_unit_fail. rewrite Hb.
      eexists. apply bind_fail, checkPath_fail, Qle_bool_false, Hv.
    - do 5 apply bind_unit_fail. rewrite Hb.
      eexists. apply bind_fail, checkPath_fail, Qle_bool_false, Hv.
    - do 6 apply bind_unit_fail. rewrite Hb.
      eexists. apply bind_fail, checkPath_fail, Qle_bool_false, Hv.
    - do 7 apply bind_unit_fail. rewrite Hb.
      eexists. apply bind_fail, checkPath_fail.
      unfold between. destruct Hv as [Hv|Hv]; apply Qle_bool_false in Hv;
        rewrite Hv; [reflexivity | apply andb_false_r].
    - do 8 apply bind_unit_fail. rewrite Hf, Hb.
      eexists. apply bind_fail, checkPath_fail.
      unfold between. destruct Hv as [Hv|Hv]; apply Qle_bool_false in Hv;
        rewrite Hv; [reflexivity | apply andb_false_r]. }
  destruct Hfail as [e He]. exists (message e).
  unfold updateCustomer, findByIdAndUpdate. rewrite He. reflexivity.
Qed.

(** ** What every write keeps *)

Lemma validate_derived (r : Q) (s : Status) (c : Customer) :
  validate c = Ok tt -> between 0 1 r = true ->
  validate (set_status s (set_churnRisk r c)) = Ok tt.
Proof.
  unfold validate. rewrite !runValidators_ok. unfold validators.
  cbn [forallb snd]. fields. intros H Hr.
  repeat (apply andb_prop in H; destruct H as [?H H]).
  repeat first [ assumption | reflexivity | apply andb_true_intro; split ].
Qed.

Lemma validate_preSave (d : Document) :
  validate (doc d) = Ok tt -> validate (doc (preSave d)) = Ok tt.
Proof.
  intros H. unfold preSave.
  destruct (isModified "features" d || isNew d); [|exact H].
  cbn [assign_status assign_churnRisk doc].
  apply validate_derived; [exact H | apply score_between].
Qed.

Lemma allValid_replaceById (c : Customer) (db : Collection) :
  validate c = Ok tt -> allValid db -> allValid (replaceById c db).
Proof.
  intros Hc Hdb. unfold allValid, replaceById. rewrite Forall_map.
  apply (Forall_impl _ (P := fun x => validate x = Ok tt)); [|exact Hdb].
  intros x Hx. destruct (String.eqb (_id x) (_id c)); assumption.
Qed.

Lemma save_allValid (d : Document) (stamp : Date) (db db' : Collection)
      (c : Customer) :
  allValid db -> save d stamp db = Ok (c, db') -> allValid db'.
Proof.
  intros Hdb. unfold save.
  destruct (validate (doc d)) as [[]|e] eqn:Hv; cbv beta iota delta [bind];
    [|discriminate].
  pose proof (validate_preSave d Hv) as Hv'.
  destruct (isNew (preSave d)).
  - destruct (existsb _ db); [discriminate|].
    intros H. injection H as _ <-.
    apply Forall_app. split; [exact Hdb|]. constructor; [|constructor].
    rewrite validate_set_updatedAt. exact Hv'.
  - intros H. injection H as _ <-. apply allValid_replaceById; [|exact Hdb].
    destruct (modifiedPaths (preSave d)); [exact Hv'|].
    rewrite validate_set_updatedAt. exact Hv'.
Qed.

Lemma validate_applyUpdate (body : Body) (c : Customer) :
  validateUpdate body = Ok tt -> validate c = Ok tt ->
  validate (applyUpdate body c) = Ok tt.
Proof.
  intros Hu Hc. unfold validateUpdate in Hu.
  repeat (apply bind_unit_ok in Hu; destruct Hu as [?Hchk Hu]).
  repeat match goal with
         | H : checkPath _ _ _ = Ok tt |- _ => apply checkPath_ok in H
         end.
  revert Hc. unfold validate. rewrite !runValidators_ok. unfold validators.
  cbn [forallb snd]. fields. cbn [applyUpdate name email company
    subscriptionValue supportTickets loginFrequency contractLength churnRisk
    features predictions]. intros H.
  repeat (apply andb_prop in H; destruct H as [?H H]).
  repeat first
    [ reflexivity
    | match goal with
      | |- context [orElse ?o _] =>
          destruct o; cbn [orElse]; assumption
      | |- context [match b_features body with _ => _ end] =>
          destruct (b_features body) as [fb|]; [|assumption];
          cbn [castFeatures supportSatisfaction feature];
          destruct (b_supportSatisfaction fb); cbn [orElse];
          [assumption | reflexivity]
      end
    | apply andb_true_intro; split ].
Qed.

Lemma fold_saveOne_allValid (now savedAt : ObjectId -> Date)
      (l : list Customer) (acc : Collection * option Error) :
  allValid (fst acc) -> allValid (fst (fold_left (saveOne now savedAt) l acc)).
Proof.
  revert acc. induction l as [|c l IH]; intros [db rejected] Hdb; [exact Hdb|].
  cbn [fold_left]. apply IH. cbn [saveOne fst] in *.
  destruct (save _ _ db) as [[saved db']|e] eqn:Hs; cbn [fst].
  - exact (save_allValid _ _ _ _ _ Hdb Hs).
  - exact Hdb.
Qed.

(** X13. Validity is kept by the writes: when every stored customer passes
    the schema validators, so does every customer stored after [POST /],
    [POST /:id/predict], [POST /predict/bulk] or [DELETE /:id], and after
    [PUT /:id] with a body of plain field values (the paths of the schema,
    as the edit form sends them), whatever these values and whatever the
    answer.  A [PUT /:id] body made of update operators is not covered. *)
Theorem writes_keep_validity (db : Collection) :
  allValid db ->
  (forall body id now, allValid (fst (createCustomer body id now db))) /\
  (forall id body now, allValid (fst (updateCustomer id body now db))) /\
  (forall id now savedAt, allValid (fst (predict id now savedAt db))) /\
  (forall now savedAt, allValid (fst (predictBulk now savedAt db))) /\
  (forall id, allValid (fst (deleteCustomer id db))).
Proof.
  intros Hdb. split; [|split; [|split; [|split]]].
  - intros body id now. unfold createCustomer.
    destruct (newCustomer body id now) as [d|e]; cbv beta iota delta [bind].
    + destruct (save d now db) as [[saved db']|e] eqn:Hs.
      * exact (save_allValid _ _ _ _ _ Hdb Hs).
      * destruct (codeIs e 11000); exact Hdb.
    + destruct (codeIs e 11000); exact Hdb.
  - intros id body now. unfold updateCustomer, findByIdAndUpdate.
    destruct (validateUpdate body) as [[]|e] eqn:Hu;
      cbv beta iota delta [bind]; [|exact Hdb].
    destruct (findById id db) as [c|] eqn:Hc; [|exact Hdb].
    cbn [fst]. apply allValid_replaceById; [|exact Hdb].
    rewrite validate_set_updatedAt. apply validate_applyUpdate; [exact Hu|].
    exact (proj1 (Forall_forall _ _) Hdb c (findById_In _ _ _ Hc)).
  - intros id now savedAt. unfold predict.
    destruct (findById id db) as [c|]; [|exact Hdb]. cbv zeta.
    destruct (save _ savedAt db) as [[saved db']|e] eqn:Hs; [|exact Hdb].
    exact (save_allValid _ _ _ _ _ Hdb Hs).
  - intros now savedAt. unfold predictBulk, saveAll. cbv zeta.
    pose proof (fold_saveOne_allValid now savedAt (find ne_churned db)
                                      (db, None) Hdb) as H.
    destruct (fold_left _ _ _) as [db' [e|]]; exact H.
  - intros id. unfold deleteCustomer, findByIdAndDelete.
    destruct (findById id db); [|exact Hdb]. cbn [fst].
    apply Forall_forall. intros x Hx.
    exact (proj1 (Forall_forall _ _) Hdb x (In_removeById _ _ _ Hx)).
Qed.

Lemma map_id_replaceById (c : Customer) (db : Collection) :
  map _id (replaceById c db) = map _id db.
Proof.
  unfold replaceById. induction db as [|x db IH]; [reflexivity|].
  cbn [map]. rewrite IH.
  destruct (String.eqb (_id x) (_id c)) eqn:E; [|reflexivity].
  apply String.eqb_eq in E. rewrite E. reflexivity.
Qed.

Lemma preSave_keeps (d : Document) :
  isNew (preSave d) = isNew d /\ _id (doc (preSave d)) = _id (doc d).
Proof.
  unfold preSave. destruct (isModified "features" d || isNew d); split;
    reflexivity.
Qed.

Lemma save_ids (d : Document) (stamp : Date) (db db' : Collection)
      (c : Customer) :
  save d stamp db = Ok (c, db') ->
  map _id db' = if isNew d then map _id db ++ [_id (doc d)] else map _id db.
Proof.
  unfold save.
  destruct (validate (doc d)) as [[]|e]; cbv beta iota delta [bind];
    [|discriminate].
  destruct (preSave_keeps d) as [Hnew Hid]. rewrite Hnew.
  destruct (isNew d).
  - destruct (existsb _ db); [discriminate|].
    intros H. injection H as _ <-. rewrite map_app. cbn [map set_updatedAt _id].
    rewrite Hid. reflexivity.
  - intros H. injection H as _ <-. apply map_id_replaceById.
Qed.

Lemma fold_saveOne_ids (now savedAt : ObjectId -> Date)
      (l : list Customer) (acc : Collection * option Error) :
  map _id (fst (fold_left (saveOne now savedAt) l acc)) = map _id (fst acc).
Proof.
  revert acc. induction l as [|c l IH]; intros [db rejected]; [reflexivity|].
  cbn [fold_left]. rewrite IH. cbn [saveOne fst].
  destruct (save _ _ db) as [[saved db']|e] eqn:Hs; cbn [fst]; [|reflexivity].
  exact (save_ids _ _ _ _ _ Hs).
Qed.

Lemma removeById_NoDup (id : ObjectId) (db : Collection) :
  NoDup (map _id db) -> NoDup (map _id (removeById id db)).
Proof.
  induction db as [|x db IH]; simpl; intros H; [exact H|].
  inversion H as [|? ? Hfresh Hrest]; subst.
  destruct (String.eqb (_id x) id); [exact Hrest|].
  simpl. constructor; [|exact (IH Hrest)].
  intros Hin. apply Hfresh. apply in_map_iff in Hin.
  destruct Hin as (y & Hy & Hin). rewrite <- Hy.
  apply in_map, (In_removeById _ _ _ Hin).
Qed.

(** X14. The routes never change a customer's [_id] and never reorder the
    collection: [PUT /:id], [POST /:id/predict] and [POST /predict/bulk]
    leave the list of ids exactly as it is, [POST /] leaves it or appends
    the new [_id], and [DELETE /:id] keeps the remaining ids distinct; so
    ids that are unique stay unique when new customers get fresh ids. *)
Theorem writes_keep_ids (db : Collection) :
  (forall id body now,
     map _id (fst (updateCustomer id body now db)) = map _id db) /\
  (forall id now savedAt,
     map _id (fst (predict id now savedAt db)) = map _id db) /\
  (forall now savedAt,
     map _id (fst (predictBulk now savedAt db)) = map _id db) /\
  (forall body id now,
     map _id (fst (createCustomer body id now db)) = map _id db \/
     map _id (fst (createCustomer body id now db)) = map _id db ++ [id]) /\
  (uniqueIds db ->
   (forall body id now,
      ~ In id (map _id db) ->
      uniqueIds (fst (createCustomer body id now db))) /\
   (forall id, uniqueIds (fst (deleteCustomer id db)))).
Proof.
  split; [|split; [|split; [|split]]].
  - intros id body now. unfold updateCustomer, findByIdAndUpdate.
    destruct (validateUpdate body) as [[]|e]; cbv beta iota delta [bind];
      [|reflexivity].
    destruct (findById id db); [|reflexivity].
    cbn [fst]. apply map_id_replaceById.
  - intros id now savedAt. unfold predict.
    destruct (findById id db) as [c|]; [|reflexivity]. cbv zeta.
    destruct (save _ savedAt db) as [[saved db']|e] eqn:Hs; [|reflexivity].
    exact (save_ids _ _ _ _ _ Hs).
  - intros now savedAt. unfold predictBulk, saveAll. cbv zeta.
    pose proof (fold_saveOne_ids now savedAt (find ne_churned db) (db, None))
      as H.
    destruct (fold_left _ _ _) as [db' [e|]]; exact H.
  - intros body id now. unfold createCustomer.
    destruct (newCustomer body id now) as [d|e] eqn:Hd;
      cbv beta iota delta [bind].
    + destruct (save d now db) as [[saved db']|e] eqn:Hs.
      * right. cbn [fst]. rewrite (save_ids _ _ _ _ _ Hs).
        rewrite (newCustomer_isNew _ _ _ _ Hd).
        destruct (newCustomer_id _ _ _ _ Hd) as [-> _]. reflexivity.
      * left. destruct (codeIs e 11000); reflexivity.
    + left. destruct (codeIs e 11000); reflexivity.
  - intros Hunique. split.
    + intros body id now Hfresh. unfold uniqueIds, createCustomer.
      destruct (newCustomer body id now) as [d|e] eqn:Hd;
        cbv beta iota delta [bind].
      * destruct (save d now db) as [[saved db']|e] eqn:Hs.
        -- cbn [fst]. rewrite (save_ids _ _ _ _ _ Hs).
           rewrite (newCustomer_isNew _ _ _ _ Hd).
           destruct (newCustomer_id _ _ _ _ Hd) as [-> _].
           apply NoDup_app; [exact Hunique | repeat constructor; intros [] |].
           intros x Hx [<-|[]]. exact (Hfresh Hx).
        -- destruct (codeIs e 11000); exact Hunique.
      * destruct (codeIs e 11000); exact Hunique.
    + intros id. unfold deleteCustomer, findByIdAndDelete.
      destruct (findById id db); [|exact Hunique].
      apply removeById_NoDup, Hunique.
Qed.

(** Deleting [loyal] from the sample population. *)
Lemma delete_removes_exactly_one_witness :
  (uniqueIds population /\ findById (_id loyal) population = Some loyal) /\
  fst (deleteCustomer (_id loyal) population) = [dormant; casual] /\
  getCustomer (_id loyal) [dormant; casual]
  = ErrorJson 404 "Customer not found".
Proof.
  split; [split; [exact population_ids | reflexivity]|].
  destruct (delete_removes_exactly_one (_id loyal) population loyal
              population_ids eq_refl) as (db' & Hdel & _ & Hget & _).
  assert (Hdb : db' = [dormant; casual]).
  { change (fst (db', Json 200 {| message_text := "Customer deleted successfully" |})
            = [dormant; casual]).
    rewrite <- Hdel. reflexivity. }
  subst db'. split; [rewrite Hdel; reflexivity | exact Hget].
Defined.

(** The add form, then a deletion of the new customer. *)
Lemma create_then_delete_restores_witness :
  findById newcomerId population = None /\
  exists db' httpStatus c,
    createCustomer newcomerForm newcomerId someDay population
    = (db', Json httpStatus c) /\
    deleteCustomer newcomerId db'
    = (population,
       Json 200 {| message_text := "Customer deleted successfully" |}).
Proof.
  split; [reflexivity|].
  destruct (createCustomer newcomerForm newcomerId someDay population)
    as [db' [code c|code msg]] eqn:E.
  - exists db', code, c. split; [reflexivity|].
    exact (create_then_delete_restores newcomerForm newcomerId someDay
             population db' code c eq_refl E).
  - exfalso. vm_compute in E. discriminate E.
Defined.

Lemma newcomerId_unknown : ~ In newcomerId (map _id population).
Proof.
  cbn. intros H. repeat (destruct H as [H|H]; [discriminate H|]). exact H.
Defined.



(** A body that sets the score to 2. *)
Lemma update_rejects_invalid_body_witness :
  (findById (_id loyal) population = Some loyal /\
   b_churnRisk (scoreBody 2) = Some 2 /\ 1 < 2) /\
  exists msg,
    updateCustomer (_id loyal) (scoreBody 2) someDay population
    = (population, ErrorJson 400 msg).
Proof.
  split; [repeat split|].
  apply (update_rejects_invalid_body (_id loyal) (scoreBody 2) someDay
           population loyal eq_refl).
  right. right. right. right. left. exists 2.
  split; [reflexivity | right; reflexivity].
Defined.

(** The sample population after a bulk prediction. *)
Lemma writes_keep_validity_witness :
  allValid population /\
  allValid (fst (predictBulk (fun _ => someDay) (fun _ => someDay) population)).
Proof.
  split; [exact population_valid|].
  exact (proj1 (proj2 (proj2 (proj2 (writes_keep_validity population
                                       population_valid))))
               (fun _ => someDay) (fun _ => someDay)).
Defined.

(** The sample population after the add form. *)
Lemma writes_keep_ids_witness :
  (uniqueIds population /\ ~ In newcomerId (map _id population)) /\
  uniqueIds (fst (createCustomer newcomerForm newcomerId someDay population)).
Proof.
  split; [split; [exact population_ids | exact newcomerId_unknown]|].
  exact (proj1 (proj2 (proj2 (proj2 (proj2 (writes_keep_ids population))))
                 population_ids)
               newcomerForm newcomerId someDay newcomerId_unknown).
Defined.

(** ** The bulk route, run again *)

Lemma predictBulk_closed_form (now savedAt : ObjectId -> Date) (db : Collection) :
  uniqueIds db -> allValid db ->
  predictBulk now savedAt db =
  (map (fun c => if ne_churned c then bulkRescored now savedAt c else c) db,
   Json 200 {| bulk_message := "Bulk prediction completed";
               processedCustomers := length (filter ne_churned db) |}).
Proof.
  intros Hunique Hvalid. unfold predictBulk. cbv zeta. unfold find.
  pose proof (saveAll_selected now savedAt ne_churned db [] Hunique Hvalid)
    as Hall.
  cbn [app] in Hall. rewrite Hall. reflexivity.
Qed.





(** ** Analytics: counts, histogram and averages *)

Lemma status_counts_sum (db : Collection) :
  (countDocuments (fun c => Status_eqb (status c) active) db
   + countDocuments (fun c => Status_eqb (status c) at_risk) db
   + countDocuments (fun c => Status_eqb (status c) churned) db
   = length db)%nat.
Proof.
  unfold countDocuments. induction db as [|c db IH]; [reflexivity|].
  cbn [filter]. destruct (status c); cbn [Status_eqb length]; lia.
Qed.

Lemma bucketStage_members (boundaries : list Q) (default : string)
      (db : Collection) (b : Bucket) :
  In b (bucketStage boundaries default db) ->
  (0 < count b)%nat /\ length (customers b) = count b /\
  exists key, b = bucketFor boundaries default db key.
Proof.
  unfold bucketStage. rewrite filter_In, in_map_iff.
  intros [(key & <- & _) Hpos]. split; [|split].
  - apply negb_true_iff, Nat.eqb_neq in Hpos. lia.
  - unfold bucketFor. cbn [customers count]. apply length_map.
  - now exists key.
Qed.

(** X16. In the analytics summary the three status counts add up to the
    total, and so do the counts of the histogram, overflow bucket included;
    every bucket that is listed holds at least one customer and lists as
    many customers as it counts. *)
Theorem analytics_counts_add_up (db : Collection) :
  exists answer,
    analyticsSummary db = Json 200 answer /\
    totalCustomers (summary answer) = length db /\
    (activeCustomers (summary answer) + atRiskCustomers (summary answer)
     + churnedCustomers (summary answer)
     = totalCustomers (summary answer))%nat /\
    list_sum (map count (riskDistribution answer))
    = totalCustomers (summary answer) /\
    (forall b, In b (riskDistribution answer) ->
               (0 < count b)%nat /\ length (customers b) = count b).
Proof.
  eexists. split; [reflexivity|].
  cbn [summary riskDistribution totalCustomers activeCustomers atRiskCustomers
       churnedCustomers].
  assert (Htotal : countDocuments (fun _ => true) db = length db).
  { unfold countDocuments. induction db as [|c db IH]; [reflexivity|].
    cbn [filter length]. rewrite IH. reflexivity. }
  rewrite Htotal.
  split; [reflexivity|]. split; [apply status_counts_sum|].
  split; [apply bucket_counts_sum|].
  intros b Hb. destruct (bucketStage_members _ _ _ _ Hb) as (H1 & H2 & _).
  split; assumption.
Qed.

Lemma bucket_of_fresh (c : Customer) :
  status c = determineStatus c -> 0 <= churnRisk c ->
  (bucketOf [0; 0.3; 0.7; 1.0] (churnRisk c) = Some 0 /\ status c = active) \/
  (bucketOf [0; 0.3; 0.7; 1.0] (churnRisk c) = Some 0.3 /\ status c = at_risk) \/
  (bucketOf [0; 0.3; 0.7; 1.0] (churnRisk c) = Some 0.7 /\ status c = churned) \/
  (bucketOf [0; 0.3; 0.7; 1.0] (churnRisk c) = None /\ status c = churned
   /\ 1 <= churnRisk c).
Proof.
  intros Hst Hpos.
  destruct (bucketOf_histogram (churnRisk c)) as (H0 & H3 & H7 & Hn).
  destruct (bucketOf_histogram_cases (churnRisk c)) as [H|[H|[H|H]]].
  - left. split; [exact H|]. rewrite Hst. apply determineStatus_active.
    apply H0 in H. tauto.
  - right. left. split; [exact H|]. rewrite Hst. apply determineStatus_at_risk.
    apply H3 in H. exact H.
  - right. right. left. split; [exact H|]. rewrite Hst.
    apply determineStatus_churned. apply H7 in H. tauto.
  - right. right. right. split; [exact H|].
    apply Hn in H. assert (H1 : 1 <= churnRisk c) by (destruct H; [exfalso|]; lra).
    split; [|exact H1]. rewrite Hst. apply determineStatus_churned. lra.
Qed.

(** X17. When every stored customer carries the status of its score and no
    score is negative, the histogram agrees with the status counts: the
    range from 0 holds the active customers, the range from 0.3 the
    customers at risk, and the range from 0.7 together with the overflow
    bucket the churned ones; the overflow bucket holds exactly the customers
    whose score is 1 or more. *)
Theorem histogram_matches_status_counts (db : Collection) :
  (forall c, In c db -> status c = determineStatus c /\ 0 <= churnRisk c) ->
  count (histogramBucket db (Some 0))
  = countDocuments (fun c => Status_eqb (status c) active) db /\
  count (histogramBucket db (Some 0.3))
  = countDocuments (fun c => Status_eqb (status c) at_risk) db /\
  (count (histogramBucket db (Some 0.7%Q)) + count (histogramBucket db None)
   = countDocuments (fun c => Status_eqb (status c) churned) db)%nat /\
  count (histogramBucket db None)
  = countDocuments (fun c => Qle_bool 1 (churnRisk c)) db /\
  (forall answer,
     analyticsSummary db = Json 200 answer ->
     riskDistribution answer
     = filter (fun b => negb (Nat.eqb (count b) 0))
              (map (histogramBucket db) [Some 0; Some 0.3; Some 0.7; None])).
Proof.
  intros Hfresh.
  unfold histogramBucket, bucketFor, countDocuments. cbn [count].
  split; [|split; [|split; [|split]]].
  5:{ intros answer H. injection H as <-. reflexivity. }
  all: induction db as [|c db IH]; [reflexivity|];
    (assert (Hc : status c = determineStatus c /\ 0 <= churnRisk c)
       by (apply Hfresh; now left));
    (assert (IH' := IH (fun x Hx => Hfresh x (or_intror Hx)))); clear IH;
    destruct Hc as [Hst Hpos];
    cbn [filter];
    destruct (bucket_of_fresh c Hst Hpos)
      as [[Hb Hs]|[[Hb Hs]|[[Hb Hs]|(Hb & Hs & H1)]]];
    rewrite Hb, ?Hs; simpl (sameBucket (Some _) _); simpl (sameBucket None _);
    repeat match goal with
           | |- context [Qeq_bool ?a ?b] =>
               let v := eval vm_compute in (Qeq_bool a b) in
               change (Qeq_bool a b) with v
           end;
    cbn [Status_eqb].
  all: try (assert (Hq : Qle_bool 1 (churnRisk c) = true)
              by (apply Qle_bool_iff; exact H1); rewrite ?Hq).
  all: try (assert (Hq : Qle_bool 1 (churnRisk c) = false);
            [ apply Qle_bool_false;
              destruct (bucketOf_histogram (churnRisk c)) as (H0 & H3 & H7 & _);
              first [ apply H0 in Hb | apply H3 in Hb | apply H7 in Hb ]; lra
            | rewrite ?Hq ]).
  all: cbn [length]; lia.
Qed.

Lemma validate_bounds (c : Customer) :
  validate c = Ok tt ->
  0 <= subscriptionValue c /\ 0 <= supportTickets c /\ 0 <= loginFrequency c /\
  1 <= contractLength c /\ (0 <= churnRisk c /\ churnRisk c <= 1) /\
  (1 <= supportSatisfaction (features c)
   /\ supportSatisfaction (features c) <= 10).
Proof.
  unfold validate. rewrite runValidators_ok. unfold validators.
  cbn [forallb snd]. intros H.
  repeat (apply andb_prop in H; destruct H as [?H H]).
  repeat match goal with
         | H : Qle_bool _ _ = true |- _ => apply Qle_bool_iff in H
         | H : between _ _ _ = true |- _ => apply between_spec in H
         end.
  tauto.
Qed.

Lemma Qsum_bounds (f : Customer -> Q) (lo hi : Q) (db : Collection) :
  (forall c, In c db -> lo <= f c /\ f c <= hi) ->
  lo * inject_Z (Z.of_nat (length db)) <= Qsum (map f db) /\
  Qsum (map f db) <= hi * inject_Z (Z.of_nat (length db)).
Proof.
  induction db as [|c db IH]; intros H.
  - cbn. split; rewrite Qmult_0_r; apply Qle_refl.
  - destruct (H c (or_introl eq_refl)) as [Hlo Hhi].
    destruct (IH (fun x Hx => H x (or_intror Hx))) as [IHlo IHhi].
    cbn [map Qsum fold_right length]. fold (Qsum (map f db)).
    rewrite Nat2Z.inj_succ. unfold Z.succ. rewrite inject_Z_plus.
    change (inject_Z 1) with 1. split; nra.
Qed.

Lemma avg_nonneg (f : Customer -> Q) (db : Collection) :
  (forall c, In c db -> 0 <= f c) -> 0 <= avg f db.
Proof.
  intros H. unfold avg.
  assert (Hsum : 0 <= Qsum (map f db)).
  { induction db as [|c db IH]; [apply Qle_refl|].
    cbn [map Qsum fold_right]. fold (Qsum (map f db)).
    pose proof (H c (or_introl eq_refl)).
    pose proof (IH (fun x Hx => H x (or_intror Hx))). lra. }
  unfold Qdiv. apply Qmult_le_0_compat; [exact Hsum|].
  apply Qinv_le_0_compat. change 0 with (inject_Z 0).
  rewrite <- Zle_Qle. lia.
Qed.

Lemma avg_bounds (f : Customer -> Q) (lo hi : Q) (db : Collection) :
  db <> [] ->
  (forall c, In c db -> lo <= f c /\ f c <= hi) ->
  lo <= avg f db /\ avg f db <= hi.
Proof.
  intros Hne H.
  destruct (Qsum_bounds f lo hi db H) as [Hlo Hhi].
  assert (Hn : 0 < inject_Z (Z.of_nat (length db))).
  { destruct db as [|c db]; [congruence|]. cbn [length].
    change 0 with (inject_Z 0). rewrite <- Zlt_Qlt. lia. }
  unfold avg. split.
  - apply Qle_shift_div_l; assumption.
  - apply Qle_shift_div_r; assumption.
Qed.

Lemma orZero_value (field : Averages -> Q) (g : Averages) :
  orZero field (Some g) == field g.
Proof.
  unfold orZero. destruct (Qeq_bool (field g) 0) eqn:E; [|reflexivity].
  apply Qeq_bool_iff in E. symmetry. exact E.
Qed.

(** X18. The averages of the summary are 0 for an empty collection: the
    group stage returns no group and the route falls back to 0, no division
    takes place.  When every customer passes the validators the average
    score lies in [0,1] and the average subscription value and the average
    ticket count are not negative. *)
Theorem summary_averages_in_range (db : Collection) :
  (db = [] ->
   groupAll db = [] /\
   s_avgChurnRisk (summaryAverages db) = 0 /\
   s_avgSubscriptionValue (summaryAverages db) = 0 /\
   s_avgSupportTickets (summaryAverages db) = 0) /\
  (allValid db ->
   (0 <= s_avgChurnRisk (summaryAverages db)
    /\ s_avgChurnRisk (summaryAverages db) <= 1) /\
   0 <= s_avgSubscriptionValue (summaryAverages db) /\
   0 <= s_avgSupportTickets (summaryAverages db)).
Proof.
  split; [intros ->; repeat split|].
  destruct db as [|c db].
  { intros _. split; [split|split]; discriminate. }
  assert (Hne : c :: db <> []) by discriminate.
  unfold summaryAverages. cbv zeta. cbn [groupAll hd_error].
  cbn [s_avgChurnRisk s_avgSubscriptionValue s_avgSupportTickets].
  rewrite (orZero_value avgRisk), (orZero_value avgSubscriptionValue),
    (orZero_value avgSupportTickets).
  cbn [avgRisk avgSubscriptionValue avgSupportTickets].
  intros Hvalid.
  assert (Hb : forall x, In x (c :: db) ->
                 (0 <= churnRisk x /\ churnRisk x <= 1) /\
                 0 <= subscriptionValue x /\ 0 <= supportTickets x).
  { intros x Hx.
    pose proof (validate_bounds x (proj1 (Forall_forall _ _) Hvalid x Hx)).
    tauto. }
  split; [|split].
  - apply avg_bounds; [exact Hne|]. intros x Hx. apply (Hb x Hx).
  - apply avg_nonneg. intros x Hx. apply (Hb x Hx).
  - apply avg_nonneg. intros x Hx. apply (Hb x Hx).
Qed.

Lemma population_fresh (c : Customer) :
  In c population -> status c = determineStatus c /\ 0 <= churnRisk c.
Proof.
  intros [<-|[<-|[<-|[]]]]; split;
    solve [ vm_compute; reflexivity | vm_compute; discriminate ].
Defined.

(** The summary of the sample population. *)
Lemma analytics_counts_add_up_witness :
  exists answer b,
    analyticsSummary population = Json 200 answer /\
    In b (riskDistribution answer) /\ (0 < count b)%nat /\
    list_sum (map count (riskDistribution answer)) = 3%nat.
Proof.
  destruct (analytics_counts_add_up population)
    as (answer & Hrun & Htotal & _ & Hsum & Hbuckets).
  injection Hrun as <-.
  eexists. eexists. split; [reflexivity|].
  assert (Hin : In (histogramBucket population None)
                   (bucketStage [0; 0.3; 0.7; 1.0] "other" population))
    by (right; left; reflexivity).
  split; [exact Hin|]. split; [exact (proj1 (Hbuckets _ Hin))|].
  rewrite Hsum. exact Htotal.
Defined.

(** The histogram of the sample population: nobody active, two customers
    at risk, one churned and in the overflow bucket. *)
Lemma histogram_matches_status_counts_witness :
  (forall c, In c population -> status c = determineStatus c /\ 0 <= churnRisk c)
  /\ count (histogramBucket population (Some 0.3)) = 2%nat
  /\ count (histogramBucket population None) = 1%nat.
Proof.
  split; [exact population_fresh|].
  destruct (histogram_matches_status_counts population population_fresh)
    as (_ & H3 & _ & Hn & _).
  split; [rewrite H3; reflexivity | rewrite Hn; reflexivity].
Defined.

(** The averages of the sample population. *)
Lemma summary_averages_in_range_witness :
  allValid population /\
  0 <= s_avgChurnRisk (summaryAverages population) /\
  s_avgChurnRisk (summaryAverages population) <= 1 /\
  0 <= s_avgSupportTickets (summaryAverages population).
Proof.
  split; [exact population_valid|].
  destruct (summary_averages_in_range population) as (_ & Hbounds).
  destruct (Hbounds population_valid) as ((H0 & H1) & _ & Ht).
  split; [exact H0|]. split; [exact H1 | exact Ht].
Defined.

(** ** The list route *)

Lemma ceilDiv_spec (total : nat) (limit pages : Z) :
  (0 < limit)%Z ->
  ceilDiv total limit = Some pages ->
  ((pages - 1) * limit < Z.of_nat total <= pages * limit)%Z /\ (0 <= pages)%Z.
Proof.
  intros Hl. unfold ceilDiv.
  destruct (Z.eqb_spec limit 0) as [->|_]; [lia|].
  intros H. injection H as <-.
  pose proof (Z.div_mod (- Z.of_nat total) limit ltac:(lia)) as Hdm.
  pose proof (Z.mod_pos_bound (- Z.of_nat total) limit Hl) as Hm.
  split; nia.
Qed.

Lemma In_firstn {A : Type} (n : nat) (l : list A) (x : A) :
  In x (firstn n l) -> In x l.
Proof.
  intros H. rewrite <- (firstn_skipn n l). apply in_or_app. now left.
Qed.

Lemma In_skipn {A : Type} (n : nat) (l : list A) (x : A) :
  In x (skipn n l) -> In x l.
Proof.
  intros H. rewrite <- (firstn_skipn n l). apply in_or_app. now right.
Qed.

Section ListRouteFacts.

Variable regexCompile : string -> option (string -> bool).
Variable sortDocs : string -> Z -> list Customer -> list Customer.
Variable invalidRegexMessage negativeSkipMessage : string.

Hypothesis sortDocs_permutes :
  forall sortBy direction docs,
    Permutation (sortDocs sortBy direction docs) docs.

Lemma listQuery_status (status' search : option string)
      (query : Customer -> bool) (s : string) (c : Customer) :
  listQuery regexCompile status' search = Some query ->
  truthy status' = Some s ->
  query c = true -> statusName (status c) = s.
Proof.
  unfold listQuery. intros Hq Hs. rewrite Hs in Hq.
  destruct (truthy search) as [pattern|].
  - destruct (regexCompile pattern) as [test|]; [|discriminate].
    injection Hq as <-. intros H. apply andb_prop in H.
    apply String.eqb_eq, H.
  - injection Hq as <-. apply String.eqb_eq.
Qed.

(** X19. For a page of at least 1 and a limit of at least 1, [GET /]
    answers 200 unless the search pattern is rejected; the total is the
    number of stored customers that match the filter, whatever the page;
    the page holds [min(limit, total - (page-1)*limit)] customers, all of
    them stored, matching the filter and of the requested status; and
    [pages] is the least number of pages of [limit] customers that hold the
    total, so a page beyond it is empty. *)
Theorem list_page_is_a_window (page limit : Z)
        (status' riskLevel search : option string) (sortBy sortOrder : string)
        (db : Collection) (query : Customer -> bool) :
  (1 <= page)%Z -> (1 <= limit)%Z ->
  listQuery regexCompile status' search = Some query ->
  exists customers pages,
    listCustomers regexCompile sortDocs invalidRegexMessage negativeSkipMessage
                  page limit status' riskLevel search sortBy sortOrder db
    = Json 200 {| l_customers := customers;
                  l_pagination :=
                    {| pg_page := page; pg_limit := limit;
                       pg_total := countDocuments query db;
                       pg_pages := Some pages |} |} /\
    Z.of_nat (length customers)
    = Z.max 0 (Z.min limit
                     (Z.of_nat (countDocuments query db) - (page - 1) * limit)) /\
    (forall c, In c customers -> In c db /\ query c = true) /\
    (forall s c, truthy status' = Some s -> In c customers ->
                 statusName (status c) = s) /\
    ((pages - 1) * limit < Z.of_nat (countDocuments query db) <= pages * limit)%Z /\
    (pages < page -> customers = [])%Z.
Proof.
  intros Hp Hl Hq. unfold listCustomers. rewrite Hq. cbv zeta.
  assert (Hskip : ((page - 1) * limit <? 0)%Z = false)
    by (apply Z.ltb_ge; nia).
  rewrite Hskip.
  unfold ceilDiv at 1. destruct (Z.eqb_spec limit 0) as [Heq|_]; [lia|].
  eexists. eexists. split; [reflexivity|].
  pose proof (ceilDiv_spec (countDocuments query db) limit _ ltac:(lia)
                ltac:(unfold ceilDiv; destruct (Z.eqb_spec limit 0); [lia|reflexivity]))
    as [Hpages Hpos].
  set (sorted := sortDocs sortBy _ (find query db)).
  assert (Hlen : length sorted = countDocuments query db)
    by (unfold sorted, countDocuments, find; apply Permutation_length,
        sortDocs_permutes).
  assert (Hcount : Z.of_nat
                     (length (limitTo limit
                                (skipn (Z.to_nat ((page - 1) * limit)) sorted)))
                   = Z.max 0 (Z.min limit
                       (Z.of_nat (countDocuments query db) - (page - 1) * limit))).
  { unfold limitTo. destruct (Z.eqb_spec limit 0) as [Heq|_]; [lia|].
    rewrite length_firstn, length_skipn, Hlen. lia. }
  split; [exact Hcount|].
  assert (Hin : forall c,
             In c (limitTo limit (skipn (Z.to_nat ((page - 1) * limit)) sorted)) ->
             In c db /\ query c = true).
  { intros c Hc. unfold limitTo in Hc.
    destruct (Z.eqb_spec limit 0) as [Heq|_]; [lia|].
    apply In_firstn, In_skipn in Hc.
    apply (Permutation_in _ (sortDocs_permutes _ _ _)) in Hc.
    unfold find in Hc. apply filter_In in Hc. exact Hc. }
  split; [exact Hin|].
  split.
  { intros s c Hs Hc.
    exact (listQuery_status status' search query s c Hq Hs (proj2 (Hin c Hc))). }
  split; [exact Hpages|].
  intros Hbeyond. apply length_zero_iff_nil. apply Nat2Z.inj. rewrite Hcount.
  nia.
Qed.

(** X20. [GET /] with a page below 1 (and a limit of at least 1) asks the
    store to skip a negative number of documents and answers 500; with a
    limit of 0 and a page of at least 1 it returns every matching customer
    and no page count. *)
Theorem list_edge_parameters (page limit : Z)
        (status' riskLevel search : option string) (sortBy sortOrder : string)
        (db : Collection) (query : Customer -> bool) :
  listQuery regexCompile status' search = Some query ->
  ((page < 1)%Z -> (1 <= limit)%Z ->
   listCustomers regexCompile sortDocs invalidRegexMessage negativeSkipMessage
                 page limit status' riskLevel search sortBy sortOrder db
   = ErrorJson 500 negativeSkipMessage) /\
  (limit = 0%Z ->
   exists customers,
     listCustomers regexCompile sortDocs invalidRegexMessage negativeSkipMessage
                   page limit status' riskLevel search sortBy sortOrder db
     = Json 200 {| l_customers := customers;
                   l_pagination :=
                     {| pg_page := page; pg_limit := 0;
                        pg_total := countDocuments query db;
                        pg_pages := None |} |} /\
     length customers = countDocuments query db /\
     (forall c, In c customers <-> In c db /\ query c = true)).
Proof.
  intros Hq. split.
  - intros Hp Hl. unfold listCustomers. rewrite Hq. cbv zeta.
    assert (Hskip : ((page - 1) * limit <? 0)%Z = true)
      by (apply Z.ltb_lt; nia).
    rewrite Hskip. reflexivity.
  - intros ->. unfold listCustomers. rewrite Hq. cbv zeta.
    rewrite Z.mul_0_r. cbn [Z.ltb Z.compare Z.to_nat skipn limitTo Z.eqb ceilDiv].
    eexists. split; [reflexivity|]. split.
    + unfold countDocuments, find. apply Permutation_length, sortDocs_permutes.
    + intros c. unfold find. rewrite <- filter_In. split; intros H.
      * exact (Permutation_in _ (sortDocs_permutes _ _ _) H).
      * exact (Permutation_in _ (Permutation_sym (sortDocs_permutes _ _ _)) H).
Qed.

End ListRouteFacts.

(** The first page of two customers at risk in the sample population, on a
    store that keeps the insertion order. *)
Lemma list_page_is_a_window_witness :
  exists customers,
    listCustomers (fun _ => None) (fun _ _ docs => docs) "" ""
                  1 2 (Some "at_risk") None None "churnRisk" "desc" population
    = Json 200 {| l_customers := customers;
                  l_pagination := {| pg_page := 1; pg_limit := 2;
                                     pg_total := 2; pg_pages := Some 1%Z |} |} /\
    length customers = 2%nat.
Proof.
  destruct (list_page_is_a_window
              (fun _ => None) (fun _ _ docs => docs) "" ""
              (fun _ _ docs => Permutation_refl docs)
              1 2 (Some "at_risk") None None "churnRisk" "desc" population
              (fun c => String.eqb (statusName (status c)) "at_risk")
              ltac:(lia) ltac:(lia) eq_refl)
    as (customers & pages & Hrun & Hlen & _ & _ & Hpages & _).
  change (countDocuments _ population) with 2%nat in *.
  assert (pages = 1%Z) as -> by lia.
  exists customers. split; [exact Hrun | lia].
Defined.

(** Page 0 of the sample population. *)
Lemma list_edge_parameters_witness :
  listCustomers (fun _ => None) (fun _ _ docs => docs) "" "negative skip"
                0 50 None None None "churnRisk" "desc" population
  = ErrorJson 500 "negative skip".
Proof.
  exact (proj1 (list_edge_parameters
                  (fun _ => None) (fun _ _ docs => docs) "" "negative skip"
                  (fun _ _ docs => Permutation_refl docs)
                  0 50 None None None "churnRisk" "desc" population
                  (fun _ => true) eq_refl)
               ltac:(lia) ltac:(lia)).
Defined.

(** ** The presentation layer *)

Lemma client_score_lower_bound (now : Date) (random : Q) (c : Customer) :
  (lastActivity c <= now)%Z -> 0 <= supportTickets c ->
  0.5 <= Client.calculateChurnRisk now random c /\
  Client.calculateChurnRisk now random c <= 1.
Proof.
  intros Hseen Ht. unfold Client.calculateChurnRisk. cbv zeta.
  split; [|apply clamp_range].
  apply clamp_lower; [discriminate | discriminate |].
  assert (Hdays : 0 <= inject_Z (Client.daysSince now c)).
  { change 0 with (inject_Z 0). rewrite <- Zle_Qle. unfold Client.daysSince.
    apply Z.div_pos; lia. }
  pose proof (proj1 (capped_ratio_band _ 30 Client.weights.daysSinceLastLogin
                       Hdays ltac:(reflexivity) ltac:(discriminate))) as H1.
  pose proof (proj1 (capped_ratio_band _ 20 Client.weights.supportTickets
                       Ht ltac:(reflexivity) ltac:(discriminate))) as H2.
  pose proof (inverted_ratio_nonneg (loginFrequency c) 30
                (Math.abs Client.weights.loginFrequency) ltac:(discriminate))
    as H3.
  pose proof (inverted_ratio_nonneg (subscriptionValue c) 10000
                (Math.abs Client.weights.subscriptionValue) ltac:(discriminate))
    as H4.
  pose proof (inverted_ratio_nonneg (contractLength c) 36
                (Math.abs Client.weights.contractLength) ltac:(discriminate))
    as H5.
  pose proof (inverted_ratio_nonneg (Client.usageOf random c) 100
                (Math.abs Client.weights.productUsage) ltac:(discriminate))
    as H6.
  lra.
Qed.

Lemma churnRisk_set_status (s : Status) (c : Customer) :
  churnRisk (set_status s c) = churnRisk c.
Proof. reflexivity. Qed.

Lemma client_status_cases (r : Q) :
  (r < 0.3 -> Client.statusOf r = active) /\
  (0.3 <= r -> Client.statusOf r = at_risk).
Proof.
  unfold Client.statusOf, Client.Qgeb.
  destruct (Qle_bool 0.7 r) eqn:E7; destruct (Qle_bool 0.3 r) eqn:E3;
    reflect_comparisons; split; intros H;
    solve [ reflexivity | exfalso; lra ].
Qed.

(** X21. The prediction panel never assigns [churned]: its status is
    [active] below 0.3 and [at_risk] from 0.3 on, so it agrees with the
    server's classifier exactly for scores below 0.7, while its risk level
    is the server's at every score. *)
Theorem client_status_never_churned (r : Q) (c : Customer) :
  Client.statusOf r <> churned /\
  (Client.statusOf r = determineStatus (set_churnRisk r c) <-> r < 0.7) /\
  (0.7 <= r ->
   Client.statusOf r = at_risk /\
   determineStatus (set_churnRisk r c) = churned /\ riskLevelOf r = high).
Proof.
  destruct (client_status_cases r) as [Hlow Hhigh].
  pose proof (determineStatus_active (set_churnRisk r c)) as Ha.
  pose proof (determineStatus_at_risk (set_churnRisk r c)) as Hr.
  pose proof (determineStatus_churned (set_churnRisk r c)) as Hc.
  rewrite churnRisk_set_churnRisk in Ha, Hr, Hc.
  destruct (Qlt_le_dec r 0.3) as [H3|H3].
  - rewrite (Hlow H3). split; [discriminate|]. split.
    + split; [intros _; lra | intros _; symmetry; apply Ha, H3].
    + intros H7. exfalso. lra.
  - rewrite (Hhigh H3). split; [discriminate|]. split.
    + split.
      * intros H. symmetry in H. apply Hr in H. tauto.
      * intros H7. symmetry. apply Hr. split; assumption.
    + intros H7. split; [reflexivity|]. split; [apply Hc, H7|].
      apply (riskLevelOf_cases r), H7.
Qed.

(** X22. Running the panel's predictions leaves every customer at risk:
    for customers whose last activity is not in the future and whose ticket
    count is not negative, the panel's score lies between 0.5 and 1 and the
    status it assigns is [at_risk], whatever the random usage drawn. *)
Theorem client_run_marks_everyone_at_risk (now : ObjectId -> Date)
        (random : ObjectId -> Q) (customers : list Customer) :
  (forall c, In c customers ->
             (lastActivity c <= now (_id c))%Z /\ 0 <= supportTickets c) ->
  length (Client.runPredictions now random customers) = length customers /\
  forall p, In p (Client.runPredictions now random customers) ->
            status (Client.customer p) = at_risk /\
            0.5 <= churnRisk (Client.customer p) /\
            churnRisk (Client.customer p) <= 1.
Proof.
  intros Hok. split; [apply length_map|].
  intros p Hp. unfold Client.runPredictions in Hp. apply in_map_iff in Hp.
  destruct Hp as (c & <- & Hc). cbv zeta. cbn [Client.customer].
  destruct (Hok c Hc) as [Hseen Ht].
  destruct (client_score_lower_bound (now (_id c)) (random (_id c)) c Hseen Ht)
    as [Hlo Hhi].
  rewrite status_set_status.
  rewrite churnRisk_set_status.
  rewrite churnRisk_set_churnRisk.
  split; [|split; assumption].
  apply client_status_cases. lra.
Qed.

(** *** The dashboard and the analytics page *)

Lemma risk_slice_cases (r : Q) :
  ((r <? 0.3) = true /\ (Client.Qgeb r 0.3 && (r <? 0.7)) = false
   /\ Client.Qgeb r 0.7 = false) \/
  ((r <? 0.3) = false /\ (Client.Qgeb r 0.3 && (r <? 0.7)) = true
   /\ Client.Qgeb r 0.7 = false) \/
  ((r <? 0.3) = false /\ (Client.Qgeb r 0.3 && (r <? 0.7)) = false
   /\ Client.Qgeb r 0.7 = true).
Proof.
  unfold Client.Qgeb.
  destruct (r <? 0.3) eqn:E1; destruct (Qle_bool 0.3 r) eqn:E2;
    destruct (r <? 0.7) eqn:E3; destruct (Qle_bool 0.7 r) eqn:E4;
    cbn [andb]; reflect_comparisons;
    solve [ tauto | exfalso; lra ].
Qed.

Lemma ticketsOf_sum (customers : list Customer) :
  Client.ticketsOf customers == Qsum (map supportTickets customers).
Proof.
  unfold Client.ticketsOf.
  assert (H : forall l a,
             fold_left (fun sum c => sum + supportTickets c) l a
             == a + Qsum (map supportTickets l)).
  { induction l as [|c l IH]; intros a; cbn [fold_left map Qsum fold_right].
    - ring.
    - rewrite IH. fold (Qsum (map supportTickets l)). ring. }
  rewrite H. ring.
Qed.

(** X23. The dashboard's three risk slices split the customers: their
    values add up to the number of customers, and the tickets of the three
    groups add up to all tickets.  For scores that are not negative the
    slices are the server's histogram, except that the high slice also
    holds what the histogram puts in its overflow bucket: a score of 1 is
    high risk on the dashboard. *)
Theorem dashboard_slices_partition (customers : list Customer) :
  list_sum (map Client.slice_value (Client.riskData customers))
  = length customers /\
  Qsum (map snd (Client.supportData customers))
  == Qsum (map supportTickets customers) /\
  ((forall c, In c customers -> 0 <= churnRisk c) ->
   map Client.slice_value (Client.riskData customers)
   = [ count (histogramBucket customers (Some 0));
       count (histogramBucket customers (Some 0.3));
       (count (histogramBucket customers (Some 0.7%Q))
        + count (histogramBucket customers None))%nat ]).
Proof.
  unfold Client.riskData, Client.supportData.
  cbn [map Client.slice_value snd list_sum fold_right Qsum].
  split; [|split].
  - induction customers as [|c l IH]; [reflexivity|].
    cbn [filter].
    destruct (risk_slice_cases (churnRisk c)) as [(E1 & E2 & E3)|[(E1 & E2 & E3)
                                                 |(E1 & E2 & E3)]];
      rewrite E1, E2, E3; cbn [length]; lia.
  - rewrite !ticketsOf_sum.
    induction customers as [|c l IH]; [reflexivity|].
    cbn [filter].
    destruct (risk_slice_cases (churnRisk c)) as [(E1 & E2 & E3)|[(E1 & E2 & E3)
                                                 |(E1 & E2 & E3)]];
      rewrite E1, E2, E3; cbn [map Qsum fold_right];
      fold (Qsum (map supportTickets l));
      repeat match goal with
             | |- context [fold_right Qplus 0 ?x] => fold (Qsum x)
             end;
      lra.
  - intros Hpos. unfold histogramBucket, bucketFor. cbn [count].
    assert (H : forall (p q : Customer -> bool),
               (forall c, In c customers -> p c = q c) ->
               length (filter p customers) = length (filter q customers)).
    { intros p q Hpq. f_equal. apply filter_ext_in, Hpq. }
    assert (Hcase : forall c, In c customers ->
              let r := churnRisk c in
              (r <? 0.3) = sameBucket (bucketOf [0; 0.3; 0.7; 1.0] r) (Some 0) /\
              (Client.Qgeb r 0.3 && (r <? 0.7))
              = sameBucket (bucketOf [0; 0.3; 0.7; 1.0] r) (Some 0.3) /\
              Client.Qgeb r 0.7
              = (sameBucket (bucketOf [0; 0.3; 0.7; 1.0] r) (Some 0.7)
                 || sameBucket (bucketOf [0; 0.3; 0.7; 1.0] r) None)).
    { intros c Hc. cbv zeta. pose proof (Hpos c Hc) as H0.
      destruct (bucketOf_histogram (churnRisk c)) as (B0 & B3 & B7 & Bn).
      destruct (risk_slice_cases (churnRisk c))
        as [(E1 & E2 & E3)|[(E1 & E2 & E3)|(E1 & E2 & E3)]];
        rewrite E1, E2, E3; unfold Client.Qgeb in *;
        destruct (bucketOf_histogram_cases (churnRisk c)) as [Hb|[Hb|[Hb|Hb]]];
        rewrite Hb;
        first [ apply B0 in Hb | apply B3 in Hb | apply B7 in Hb | apply Bn in Hb ];
        try (apply andb_prop in E2; destruct E2 as [E2 E2']);
        try (apply andb_false_iff in E2);
        reflect_comparisons;
        try solve [ exfalso; lra | exfalso; destruct Hb; lra
                    | exfalso; destruct E2; reflect_comparisons; lra ];
        repeat split; vm_compute; reflexivity. }
    f_equal; [apply H; intros c Hc; apply (Hcase c Hc)|].
    f_equal; [apply H; intros c Hc; apply (Hcase c Hc)|].
    f_equal.
    rewrite (H _ _ (fun c Hc => proj2 (proj2 (Hcase c Hc)))).
    clear H Hcase Hpos.
    induction customers as [|c l IH]; [reflexivity|].
    cbn [filter].
    destruct (bucketOf_histogram_cases (churnRisk c)) as [Hb|[Hb|[Hb|Hb]]];
      rewrite Hb;
      repeat match goal with
             | |- context [sameBucket ?a ?b] =>
                 let v := eval vm_compute in (sameBucket a b) in
                 change (sameBucket a b) with v
             end;
      cbn [orb length]; lia.
Qed.

Ltac settle_comparisons :=
  repeat match goal with
         | |- context [Qle_bool ?a ?b] =>
             first [ replace (Qle_bool a b) with true
                       by (symmetry; apply Qle_bool_iff; lra)
                   | replace (Qle_bool a b) with false
                       by (symmetry; apply Qle_bool_false; lra) ]
         | |- context [Qltb ?a ?b] =>
             first [ replace (Qltb a b) with true
                       by (symmetry; apply Qltb_lt; lra)
                   | replace (Qltb a b) with false
                       by (symmetry; apply Qltb_ge; lra) ]
         end.

(** X24. The five value ranges of the analytics page are disjoint and
    cover the subscription values from 0 on: the sizes of the ranges add up
    to the number of customers whose value is not negative, and the churned
    customers of the ranges to the churned ones among them. *)
Theorem value_ranges_partition (customers : list Customer) :
  list_sum (map (fun r => length (Client.customersInRange r customers))
                Client.valueRanges)
  = length (filter (fun c => Qle_bool 0 (subscriptionValue c)) customers) /\
  list_sum (map (fun r => length (Client.churnedInRange r customers))
                Client.valueRanges)
  = length (filter (fun c => Status_eqb (status c) churned)
                   (filter (fun c => Qle_bool 0 (subscriptionValue c))
                           customers)).
Proof.
  unfold Client.valueRanges, Client.churnedInRange, Client.customersInRange,
    Client.Qgeb.
  cbn [map list_sum fold_right Client.min Client.max].
  split.
  - induction customers as [|c l IH]; [reflexivity|].
    cbn [filter]. set (v := subscriptionValue c).
    destruct (Qlt_le_dec v 0); [|destruct (Qlt_le_dec v 1000);
      [|destruct (Qlt_le_dec v 3000); [|destruct (Qlt_le_dec v 5000);
        [|destruct (Qlt_le_dec v 10000)]]]];
      settle_comparisons; cbn [andb length]; lia.
  - induction customers as [|c l IH]; [reflexivity|].
    cbn [filter]. set (v := subscriptionValue c).
    destruct (Qlt_le_dec v 0); [|destruct (Qlt_le_dec v 1000);
      [|destruct (Qlt_le_dec v 3000); [|destruct (Qlt_le_dec v 5000);
        [|destruct (Qlt_le_dec v 10000)]]]];
      settle_comparisons; cbn [andb filter];
      destruct (Status_eqb (status c) churned); cbn [length]; lia.
Qed.

(** X25. The four ticket groups of the analytics page are disjoint but
    leave the counts strictly between 2 and 3 and between 5 and 6 out: the
    sizes of the groups add up to the number of customers outside these two
    gaps, hence to all customers when every ticket count is a whole
    number. *)
Theorem support_groups_cover_whole_numbers (customers : list Customer) :
  list_sum (map (fun g => length (snd g)) (Client.supportGroups customers))
  = length (filter (fun c => negb ((2 <? supportTickets c)
                                   && (supportTickets c <? 3)
                                   || (5 <? supportTickets c)
                                      && (supportTickets c <? 6)))
                   customers) /\
  ((forall c, In c customers ->
              exists z, supportTickets c == inject_Z z) ->
   list_sum (map (fun g => length (snd g)) (Client.supportGroups customers))
   = length customers).
Proof.
  assert (Hgeneral :
    list_sum (map (fun g => length (snd g)) (Client.supportGroups customers))
    = length (filter (fun c => negb ((2 <? supportTickets c)
                                     && (supportTickets c <? 3)
                                     || (5 <? supportTickets c)
                                        && (supportTickets c <? 6)))
                     customers)).
  { unfold Client.supportGroups, Client.Qgeb, Qgtb.
    cbn [map list_sum fold_right snd].
    induction customers as [|c l IH]; [reflexivity|].
    cbn [filter]. set (t := supportTickets c).
    destruct (Qlt_le_dec 2 t); [destruct (Qlt_le_dec t 3);
      [|destruct (Qlt_le_dec 5 t); [destruct (Qlt_le_dec t 6);
        [|destruct (Qlt_le_dec 10 t)]|]]|];
      settle_comparisons; cbn [andb orb negb length]; lia. }
  split; [exact Hgeneral|].
  intros Hwhole. rewrite Hgeneral. f_equal.
  apply forallb_filter_id. apply forallb_forall. intros c Hc.
  destruct (Hwhole c Hc) as [z Hz]. apply negb_true_iff.
  destruct ((2 <? supportTickets c) && (supportTickets c <? 3)
            || (5 <? supportTickets c) && (supportTickets c <? 6)) eqn:E;
    [|reflexivity].
  exfalso. apply orb_prop in E.
  destruct E as [E|E]; apply andb_prop in E; destruct E as [E1 E2];
    apply Qltb_lt in E1, E2; rewrite Hz in E1, E2.
  - change 2 with (inject_Z 2) in E1. change 3 with (inject_Z 3) in E2.
    rewrite <- Zlt_Qlt in E1, E2. lia.
  - change 5 with (inject_Z 5) in E1. change 6 with (inject_Z 6) in E2.
    rewrite <- Zlt_Qlt in E1, E2. lia.
Qed.

(** A score of 1. *)
Lemma client_status_never_churned_witness :
  0.7 <= 1 /\ Client.statusOf 1 = at_risk /\
  determineStatus (set_churnRisk 1 loyal) = churned.
Proof.
  split; [discriminate|].
  destruct (client_status_never_churned 1 loyal) as (_ & _ & H).
  destruct (H ltac:(discriminate)) as (H1 & H2 & _).
  split; [exact H1 | exact H2].
Defined.

Lemma population_seen (c : Customer) :
  In c population ->
  (lastActivity c <= someDay)%Z /\ 0 <= supportTickets c.
Proof.
  intros [<-|[<-|[<-|[]]]]; split; vm_compute; discriminate.
Defined.

(** The panel's predictions on the sample population. *)
Lemma client_run_marks_everyone_at_risk_witness :
  (forall c, In c population ->
             (lastActivity c <= someDay)%Z /\ 0 <= supportTickets c) /\
  length (Client.runPredictions (fun _ => someDay) (fun _ => 0.5) population)
  = 3%nat /\
  Forall (fun p => status (Client.customer p) = at_risk)
         (Client.runPredictions (fun _ => someDay) (fun _ => 0.5) population).
Proof.
  split; [exact population_seen|].
  destruct (client_run_marks_everyone_at_risk
              (fun _ => someDay) (fun _ => 0.5) population population_seen)
    as [Hlen H].
  split; [exact Hlen|].
  apply Forall_forall. intros p Hp. exact (proj1 (H p Hp)).
Defined.

(** The dashboard of the sample population. *)
Lemma dashboard_slices_partition_witness :
  (forall c, In c population -> 0 <= churnRisk c) /\
  map Client.slice_value (Client.riskData population) = [0; 2; 1]%nat.
Proof.
  split; [intros c Hc; exact (proj2 (population_fresh c Hc))|].
  rewrite (proj2 (proj2 (dashboard_slices_partition population))
             (fun c Hc => proj2 (population_fresh c Hc))).
  reflexivity.
Defined.

Lemma population_whole_tickets (c : Customer) :
  In c population -> exists z, supportTickets c == inject_Z z.
Proof.
  intros [<-|[<-|[<-|[]]]]; [exists 0%Z | exists 0%Z | exists 5%Z];
    reflexivity.
Defined.

(** The ticket groups of the sample population. *)
Lemma support_groups_cover_whole_numbers_witness :
  (forall c, In c population -> exists z, supportTickets c == inject_Z z) /\
  list_sum (map (fun g => length (snd g)) (Client.supportGroups population))
  = 3%nat.
Proof.
  split; [exact population_whole_tickets|].
  exact (proj2 (support_groups_cover_whole_numbers population)
               population_whole_tickets).
Defined.


(** *** The panel's factors and the route's *)

Lemma client_factors_cases (now : Date) (c : Customer) (s : string) :
  In s (Client.getChurnFactors now c) <->
  (s = "Inactive user (14+ days)" /\ (Client.daysSince now c >? 14)%Z = true) \/
  (s = "High support volume" /\ (supportTickets c >? 10) = true) \/
  (s = "Low engagement" /\ (loginFrequency c <? 5) = true) \/
  (s = "Short contract" /\ (contractLength c <? 12) = true) \/
  (s = "Low value customer" /\ (subscriptionValue c <? 1000) = true).
Proof.
  unfold Client.getChurnFactors, push. cbv zeta.
  destruct (Client.daysSince now c >? 14)%Z;
    destruct (supportTickets c >? 10);
    destruct (loginFrequency c <? 5);
    destruct (contractLength c <? 12);
    destruct (subscriptionValue c <? 1000);
    cbn [app In]; intuition (try discriminate; auto).
Qed.

Lemma server_factors_cases (c : Customer) (s : string) :
  In s (explainFactors c) <->
  (s = "Inactive user" /\ (daysSinceLastLogin (features c) >? 14) = true) \/
  (s = "High support volume" /\ (supportTickets c >? 5) = true) \/
  (s = "Low satisfaction" /\ (supportSatisfaction (features c) <? 6) = true) \/
  (s = "Low engagement" /\ (loginFrequency c <? 5) = true).
Proof.
  rewrite explainFactors_rules.
  unfold spec_factors, spec_factorRules. cbn [filter snd fst].
  destruct (daysSinceLastLogin (features c) >? 14);
    destruct (supportTickets c >? 5);
    destruct (supportSatisfaction (features c) <? 6);
    destruct (loginFrequency c <? 5);
    cbn [map fst In]; intuition (try discriminate; auto).
Qed.

(** X26. The panel's factor list and the predict route's are computed by
    different rules.  Both report "Low engagement" for the same customers;
    the panel reports "High support volume" only above 10 tickets, the route
    already above 5, so every panel report of it is also a route report and
    the two differ exactly for more than 5 and at most 10 tickets; the only
    names the two lists can share are these two. *)
Theorem panel_and_route_factors (now : Date) (c : Customer) :
  (In "Low engagement" (Client.getChurnFactors now c) <->
   In "Low engagement" (explainFactors c)) /\
  (In "High support volume" (Client.getChurnFactors now c) ->
   In "High support volume" (explainFactors c)) /\
  (In "High support volume" (explainFactors c) /\
   ~ In "High support volume" (Client.getChurnFactors now c) <->
   5 < supportTickets c /\ supportTickets c <= 10) /\
  (forall s, In s (Client.getChurnFactors now c) -> In s (explainFactors c) ->
             s = "High support volume" \/ s = "Low engagement").
Proof.
  split; [split|split; [|split]].
  - intros H. apply client_factors_cases in H. apply server_factors_cases.
    destruct H as [[H _]|[[H _]|[[_ H]|[[H _]|[H _]]]]]; try discriminate H.
    right; right; right. split; [reflexivity | exact H].
  - intros H. apply server_factors_cases in H. apply client_factors_cases.
    destruct H as [[H _]|[[H _]|[[H _]|[_ H]]]]; try discriminate H.
    right; right; left. split; [reflexivity | exact H].
  - intros H. apply client_factors_cases in H. apply server_factors_cases.
    destruct H as [[H _]|[[_ H]|[[H _]|[[H _]|[H _]]]]]; try discriminate H.
    right; left. split; [reflexivity|].
    apply Qgtb_gt in H. apply Qgtb_gt. lra.
  - split.
    + intros [Hs Hc]. split.
      * apply server_factors_cases in Hs.
        destruct Hs as [[H _]|[[_ H]|[[H _]|[H _]]]]; try discriminate H.
        apply Qgtb_gt in H. exact H.
      * destruct (Qlt_le_dec 10 (supportTickets c)) as [Hgt|Hle]; [|exact Hle].
        exfalso. apply Hc. apply client_factors_cases.
        right; left. split; [reflexivity | apply Qgtb_gt; exact Hgt].
    + intros [Hlo Hhi]. split.
      * apply server_factors_cases. right; left.
        split; [reflexivity | apply Qgtb_gt; exact Hlo].
      * intros H. apply client_factors_cases in H.
        destruct H as [[H _]|[[_ H]|[[H _]|[[H _]|[H _]]]]];
          try discriminate H.
        apply Qgtb_gt in H. lra.
  - intros s Hc Hs. apply client_factors_cases in Hc.
    apply server_factors_cases in Hs.
    destruct Hc as [[-> _]|[[-> _]|[[-> _]|[[-> _]|[-> _]]]]];
      try (left; reflexivity); try (right; reflexivity);
      destruct Hs as [[H _]|[[H _]|[[H _]|[H _]]]]; discriminate H.
Qed.

(** Six tickets: the route reports the volume, the panel does not. *)
Lemma panel_and_route_factors_witness :
  (5 < supportTickets troubled /\ supportTickets troubled <= 10) /\
  In "High support volume" (explainFactors troubled) /\
  ~ In "High support volume" (Client.getChurnFactors someDay troubled).
Proof.
  assert (H : 5 < supportTickets troubled /\ supportTickets troubled <= 10)
    by (split; vm_compute; [reflexivity | discriminate]).
  split; [exact H|].
  exact (proj2 (proj1 (proj2 (proj2
           (panel_and_route_factors someDay troubled)))) H).
Defined.

(** ** Seeding the collection *)

Lemma floor_range (r : Q) (n : Z) :
  0 <= r -> r < 1 -> (0 < n)%Z ->
  0 <= Seed.floor (r * inject_Z n) /\
  Seed.floor (r * inject_Z n) <= inject_Z (n - 1).
Proof.
  intros H0 H1 Hn. unfold Seed.floor.
  assert (Hn' : 0 < inject_Z n)
    by (change 0 with (inject_Z 0); rewrite <- Zlt_Qlt; exact Hn).
  split.
  - change 0 with (inject_Z 0). rewrite <- Zle_Qle.
    apply (Qfloor_resp_le 0). nra.
  - rewrite <- Zle_Qle.
    assert (H : (Qfloor (r * inject_Z n) < n)%Z).
    { rewrite Zlt_Qlt. apply Qle_lt_trans with (r * inject_Z n).
      - apply Qfloor_le.
      - nra. }
    lia.
Qed.

Lemma fold_push_map {A B : Type} (f : A -> B) (l : list A) (acc : list B) :
  fold_left (fun xs i => push xs (f i)) l acc = acc ++ map f l.
Proof.
  revert acc. induction l as [|x l IH]; intros acc; cbn [fold_left map].
  - symmetry. apply app_nil_r.
  - rewrite IH. unfold push. rewrite <- app_assoc. reflexivity.
Qed.

Lemma generate_map (random : nat -> Q) (now : nat -> Date) (count : nat) :
  Seed.generateSampleCustomers random now count
  = map (Seed.sample random now) (seq 0 count).
Proof.
  unfold Seed.generateSampleCustomers. apply (fold_push_map _ _ []).
Qed.

(** *** The text fields *)

Lemma trim_keeps_head (a : Ascii.ascii) (s : string) :
  Seed.isSpace a = false -> exists t, Seed.trim (String a s) = String a t.
Proof.
  intros H. unfold Seed.trim. cbn [Seed.trimStart]. rewrite H.
  cbn [Seed.trimEnd]. destruct (Seed.trimEnd s).
  - rewrite H. eexists. reflexivity.
  - eexists. reflexivity.
Qed.

Lemma names_start_with_a_letter :
  Forall (fun n => exists a s, n = String a s /\ Seed.isSpace a = false)
         Seed.names.
Proof.
  unfold Seed.names.
  repeat (constructor; [eexists; eexists; split; reflexivity|]).
  constructor.
Qed.

Lemma companies_nonempty : Forall (fun n => n <> "") Seed.companies.
Proof.
  unfold Seed.companies. repeat (constructor; [discriminate|]). constructor.
Qed.

Lemma nameAt_in (i : nat) : In (Seed.nameAt i) Seed.names.
Proof.
  unfold Seed.nameAt. apply nth_In. apply Nat.mod_upper_bound. discriminate.
Qed.

Lemma companyAt_in (i : nat) : In (Seed.companyAt i) Seed.companies.
Proof.
  unfold Seed.companyAt. apply nth_In. apply Nat.mod_upper_bound.
  discriminate.
Qed.

Lemma sampleName_nonempty (i : nat) : Seed.sampleName i <> "".
Proof.
  unfold Seed.sampleName.
  destruct (proj1 (Forall_forall _ _) names_start_with_a_letter _
                  (nameAt_in i)) as (a & s & -> & Ha).
  cbn [append].
  match goal with
  | |- Seed.trim (String a ?r) <> _ =>
      destruct (trim_keeps_head a r Ha) as [t Ht]
  end.
  rewrite Ht. discriminate.
Qed.

Lemma sampleEmail_nonempty (i : nat) : Seed.sampleEmail i <> "".
Proof.
  unfold Seed.sampleEmail.
  destruct (proj1 (Forall_forall _ _) names_start_with_a_letter _
                  (nameAt_in i)) as (a & s & -> & _).
  cbn [Seed.toLowerCase Seed.replace].
  destruct (Ascii.eqb (Seed.lowerChar a) " "); cbn [append]; discriminate.
Qed.

Lemma companyAt_nonempty (i : nat) : Seed.companyAt i <> "".
Proof.
  exact (proj1 (Forall_forall _ _) companies_nonempty _ (companyAt_in i)).
Qed.

(** *** The numbers *)

Lemma validate_intro (c : Customer) :
  name c <> "" -> email c <> "" -> company c <> "" ->
  0 <= subscriptionValue c -> 0 <= supportTickets c ->
  0 <= loginFrequency c -> 1 <= contractLength c ->
  0 <= churnRisk c -> churnRisk c <= 1 ->
  1 <= supportSatisfaction (features c) ->
  supportSatisfaction (features c) <= 10 ->
  predictions c = [] ->
  validate c = Ok tt.
Proof.
  intros Hn He Hc Hv Ht Hl Hm Hr0 Hr1 Hs1 Hs10 Hp.
  unfold validate, validators, between. cbn [runValidators].
  apply String.eqb_neq in Hn, He, Hc. rewrite Hn, He, Hc. cbn [negb].
  apply Qle_bool_iff in Hv, Ht, Hl, Hm, Hr0, Hr1, Hs1, Hs10.
  rewrite Hv, Ht, Hl, Hm, Hr0, Hr1, Hs1, Hs10, Hp. reflexivity.
Qed.

Section SeedFacts.

Variable random : nat -> Q.
Variable now : nat -> Date.
Hypothesis random_range : Seed.unitRange random.

Lemma draw (k : nat) (n : Z) :
  (0 < n)%Z ->
  0 <= Seed.floor (random k * inject_Z n) /\
  Seed.floor (random k * inject_Z n) <= inject_Z (n - 1).
Proof.
  intros Hn. destruct (random_range k) as [H0 H1].
  apply floor_range; assumption.
Qed.

Lemma sample_ranges (i : nat) :
  let o := Seed.sample random now i in
  (500 <= Seed.o_subscriptionValue o /\ Seed.o_subscriptionValue o <= 9999) /\
  (0 <= Seed.o_supportTickets o /\ Seed.o_supportTickets o <= 14) /\
  (1 <= Seed.o_loginFrequency o /\ Seed.o_loginFrequency o <= 25) /\
  (6 <= Seed.o_contractLength o /\ Seed.o_contractLength o <= 35) /\
  (0 <= daysSinceLastLogin (Seed.o_features o) /\
   daysSinceLastLogin (Seed.o_features o) <= 89) /\
  (4 <= supportSatisfaction (Seed.o_features o) /\
   supportSatisfaction (Seed.o_features o) <= 9).
Proof.
  cbv zeta. unfold Seed.sample. cbv zeta.
  cbn [Seed.o_subscriptionValue Seed.o_supportTickets Seed.o_loginFrequency
       Seed.o_contractLength Seed.o_features daysSinceLastLogin
       supportSatisfaction].
  pose proof (draw (12 * i + 2) 9500 eq_refl) as [? ?].
  pose proof (draw (12 * i + 3) 15 eq_refl) as [? ?].
  pose proof (draw (12 * i + 4) 25 eq_refl) as [? ?].
  pose proof (draw (12 * i + 5) 30 eq_refl) as [? ?].
  pose proof (draw (12 * i + 1) 90 eq_refl) as [? ?].
  pose proof (draw (12 * i + 10) 6 eq_refl) as [? ?].
  change (inject_Z 9500) with 9500 in *. change (inject_Z 15) with 15 in *.
  change (inject_Z 25) with 25 in *. change (inject_Z 30) with 30 in *.
  change (inject_Z 90) with 90 in *. change (inject_Z 6) with 6 in *.
  change (inject_Z (9500 - 1)) with 9499 in *.
  change (inject_Z (15 - 1)) with 14 in *.
  change (inject_Z (25 - 1)) with 24 in *.
  change (inject_Z (30 - 1)) with 29 in *.
  change (inject_Z (90 - 1)) with 89 in *.
  change (inject_Z (6 - 1)) with 5 in *.
  repeat split; lra.
Qed.

Lemma sample_valid (i : nat) (id : ObjectId) :
  validate (Seed.construct (Seed.sample random now i) id) = Ok tt.
Proof.
  destruct (sample_ranges i)
    as ((Hv & _) & (Ht & _) & (Hl & _) & (Hm & _) & _ & (Hs & Hs')).
  cbv zeta in Hv, Ht, Hl, Hm, Hs, Hs'.
  apply validate_intro;
    cbn [Seed.construct name email company subscriptionValue supportTickets
         loginFrequency contractLength churnRisk features predictions].
  - apply sampleName_nonempty.
  - apply sampleEmail_nonempty.
  - apply companyAt_nonempty.
  - lra.
  - exact Ht.
  - lra.
  - lra.
  - discriminate.
  - discriminate.
  - lra.
  - lra.
  - reflexivity.
Qed.

End SeedFacts.

(** *** The insert *)

Lemma constructAll_length (objects : list Seed.Sample)
      (newId : nat -> ObjectId) (n : nat) :
  length (Seed.constructAll objects newId n) = length objects.
Proof.
  revert n. induction objects as [|o l IH]; intros n; cbn [Seed.constructAll length];
    [reflexivity | rewrite IH; reflexivity].
Qed.

Lemma constructAll_In (objects : list Seed.Sample) (newId : nat -> ObjectId)
      (n : nat) (c : Customer) :
  In c (Seed.constructAll objects newId n) ->
  exists o id, In o objects /\ c = Seed.construct o id.
Proof.
  revert n. induction objects as [|o l IH]; intros n; cbn [Seed.constructAll In].
  - intros [].
  - intros [<-|H].
    + exists o, (newId n). split; [left; reflexivity | reflexivity].
    + destruct (IH _ H) as (o' & id & Ho & ->).
      exists o', id. split; [right; exact Ho | reflexivity].
Qed.

Lemma constructAll_emails (objects : list Seed.Sample)
      (newId : nat -> ObjectId) (n : nat) :
  map email (Seed.constructAll objects newId n) = map Seed.o_email objects.
Proof.
  revert n. induction objects as [|o l IH]; intros n; cbn [Seed.constructAll map];
    [reflexivity | rewrite IH; reflexivity].
Qed.

Lemma constructAll_ids (objects : list Seed.Sample) (newId : nat -> ObjectId)
      (n : nat) :
  map _id (Seed.constructAll objects newId n)
  = map newId (seq n (length objects)).
Proof.
  revert n. induction objects as [|o l IH]; intros n;
    cbn [Seed.constructAll map length seq];
    [reflexivity | rewrite IH; reflexivity].
Qed.

Lemma validateAll_ok (docs : list Customer) :
  Forall (fun c => validate c = Ok tt) docs -> Seed.validateAll docs = Ok tt.
Proof.
  induction 1 as [|c l Hc _ IH]; cbn [Seed.validateAll]; [reflexivity|].
  rewrite Hc. exact IH.
Qed.

Lemma existsb_email (e : string) (db : Collection) :
  existsb (fun x => String.eqb (email x) e) db
  = existsb (String.eqb e) (map email db).
Proof.
  induction db as [|x db IH]; cbn [existsb map]; [reflexivity|].
  rewrite IH, (String.eqb_sym e). reflexivity.
Qed.

Lemma insertOrdered_distinct (docs : list Customer) (db : Collection) :
  Seed.distinctFrom (map email db) (map email docs) = true ->
  Seed.insertOrdered docs db = (db ++ docs, None).
Proof.
  revert db. induction docs as [|c docs IH]; intros db;
    cbn [map Seed.distinctFrom Seed.insertOrdered].
  - intros _. rewrite app_nil_r. reflexivity.
  - intros H. apply andb_prop in H. destruct H as [Hfree Hrest].
    rewrite existsb_email. apply negb_true_iff in Hfree. rewrite Hfree.
    rewrite IH.
    + rewrite <- app_assoc. reflexivity.
    + rewrite map_app. exact Hrest.
Qed.

Lemma sample_emails_distinct :
  Seed.distinctFrom [] (map Seed.sampleEmail (seq 0 100)) = true.
Proof. vm_compute. reflexivity. Qed.

Lemma insertMany_samples (random : nat -> Q) (now : nat -> Date)
      (newId : nat -> ObjectId) (count : nat) :
  Seed.unitRange random ->
  Seed.distinctFrom [] (map Seed.sampleEmail (seq 0 count)) = true ->
  Seed.insertMany (Seed.generateSampleCustomers random now count) newId []
  = (Seed.constructAll (map (Seed.sample random now) (seq 0 count)) newId 0,
     None).
Proof.
  intros Hrandom Hdistinct. unfold Seed.insertMany. cbv zeta.
  rewrite generate_map. rewrite validateAll_ok.
  - apply (insertOrdered_distinct _ []). cbn [map].
    rewrite constructAll_emails, map_map. exact Hdistinct.
  - apply Forall_forall. intros c Hc.
    apply constructAll_In in Hc. destruct Hc as (o & id & Ho & ->).
    apply in_map_iff in Ho. destruct Ho as (i & <- & _).
    apply sample_valid. exact Hrandom.
Qed.

Lemma seed_empty (random : nat -> Q) (now : nat -> Date)
      (newId : nat -> ObjectId) :
  Seed.unitRange random ->
  Seed.seedDatabase random now newId []
  = Seed.constructAll (map (Seed.sample random now) (seq 0 100)) newId 0.
Proof.
  intros Hrandom. unfold Seed.seedDatabase. cbv zeta.
  change (countDocuments (fun _ => true) []) with 0%nat. cbn [Nat.eqb].
  rewrite (insertMany_samples random now newId 100 Hrandom
                              sample_emails_distinct).
  reflexivity.
Qed.

Lemma seed_nonempty (random : nat -> Q) (now : nat -> Date)
      (newId : nat -> ObjectId) (db : Collection) :
  db <> [] -> Seed.seedDatabase random now newId db = db.
Proof.
  intros H. destruct db as [|c db]; [contradiction|].
  unfold Seed.seedDatabase, countDocuments. cbv zeta.
  cbn [filter length Nat.eqb]. reflexivity.
Qed.

Lemma seeded_member (random : nat -> Q) (now : nat -> Date)
      (newId : nat -> ObjectId) (c : Customer) :
  Seed.unitRange random ->
  In c (Seed.seedDatabase random now newId []) ->
  exists i id, c = Seed.construct (Seed.sample random now i) id.
Proof.
  intros Hrandom Hc. rewrite (seed_empty _ _ _ Hrandom) in Hc.
  apply constructAll_In in Hc. destruct Hc as (o & id & Ho & ->).
  apply in_map_iff in Ho. destruct Ho as (i & <- & _).
  exists i, id. reflexivity.
Qed.

Lemma seeded_length (random : nat -> Q) (now : nat -> Date)
      (newId : nat -> ObjectId) :
  Seed.unitRange random ->
  length (Seed.seedDatabase random now newId []) = 100%nat.
Proof.
  intros Hrandom. rewrite (seed_empty _ _ _ Hrandom).
  rewrite constructAll_length, length_map, length_seq. reflexivity.
Qed.

Lemma sample_score (random : nat -> Q) (now : nat -> Date) (i : nat)
      (id : ObjectId) :
  Seed.unitRange random ->
  0.5 <= calculateChurnRisk (Seed.construct (Seed.sample random now i) id).
Proof.
  intros Hrandom.
  destruct (sample_ranges random now Hrandom i)
    as (_ & (Ht & _) & _ & _ & (Hd & _) & (_ & Hs)).
  cbv zeta in Ht, Hd, Hs.
  apply score_lower_bound;
    cbn [Seed.construct features supportTickets]; try lra.
Qed.

Lemma score_status_not_active (r : Q) (c : Customer) :
  0.5 <= r -> determineStatus (set_churnRisk r c) <> active.
Proof.
  intros Hr. unfold determineStatus. rewrite churnRisk_set_churnRisk.
  destruct (r <? 0.3) eqn:E3.
  - apply Qltb_lt in E3. lra.
  - destruct (r <? 0.7); discriminate.
Qed.

Lemma half_in_unit_range : Seed.unitRange (fun _ => 1 # 2).
Proof. intros k. split; [discriminate | reflexivity]. Defined.

(** X27. For results of [Math.random()] in [0, 1), the generator returns
    [count] objects, each of which passes the schema validators once the
    defaults are filled in, with a subscription value in 500..9999, 0..14
    tickets, a login frequency in 1..25, a contract of 6..35 months, 0..89
    days since the last login and a satisfaction in 4..9. *)
Theorem generated_customers_are_valid (random : nat -> Q) (now : nat -> Date)
        (count : nat) :
  Seed.unitRange random ->
  length (Seed.generateSampleCustomers random now count) = count /\
  forall o, In o (Seed.generateSampleCustomers random now count) ->
    (forall id, validate (Seed.construct o id) = Ok tt) /\
    (500 <= Seed.o_subscriptionValue o /\ Seed.o_subscriptionValue o <= 9999) /\
    (0 <= Seed.o_supportTickets o /\ Seed.o_supportTickets o <= 14) /\
    (1 <= Seed.o_loginFrequency o /\ Seed.o_loginFrequency o <= 25) /\
    (6 <= Seed.o_contractLength o /\ Seed.o_contractLength o <= 35) /\
    (0 <= daysSinceLastLogin (Seed.o_features o) /\
     daysSinceLastLogin (Seed.o_features o) <= 89) /\
    (4 <= supportSatisfaction (Seed.o_features o) /\
     supportSatisfaction (Seed.o_features o) <= 9).
Proof.
  intros Hrandom. rewrite generate_map. split.
  - rewrite length_map, length_seq. reflexivity.
  - intros o Ho. apply in_map_iff in Ho. destruct Ho as (i & <- & _). split.
    + intros id. apply sample_valid. exact Hrandom.
    + exact (sample_ranges random now Hrandom i).
Qed.

(** Every draw one half. *)
Lemma generated_customers_are_valid_witness :
  Seed.unitRange (fun _ => 1 # 2) /\
  length (Seed.generateSampleCustomers (fun _ => 1 # 2) (fun _ => someDay) 3)
  = 3%nat.
Proof.
  split; [exact half_in_unit_range|].
  exact (proj1 (generated_customers_are_valid
                  (fun _ => 1 # 2) (fun _ => someDay) 3 half_in_unit_range)).
Defined.

(** X28. For results of [Math.random()] in [0, 1), seeding an empty
    collection stores 100 customers that pass the validators, each with the
    schema defaults: score 0, status [active], no prediction.  No hook has
    scored them: the scorer gives every one of them at least 0.5, a score
    whose status is not [active]. *)
Theorem seeding_stores_defaults (random : nat -> Q) (now : nat -> Date)
        (newId : nat -> ObjectId) :
  Seed.unitRange random ->
  length (Seed.seedDatabase random now newId []) = 100%nat /\
  allValid (Seed.seedDatabase random now newId []) /\
  forall c, In c (Seed.seedDatabase random now newId []) ->
    churnRisk c = 0 /\ status c = active /\ predictions c = [] /\
    0.5 <= calculateChurnRisk c /\
    determineStatus (set_churnRisk (calculateChurnRisk c) c) <> active.
Proof.
  intros Hrandom. split; [apply seeded_length; exact Hrandom|]. split.
  - apply Forall_forall. intros c Hc.
    destruct (seeded_member _ _ _ c Hrandom Hc) as (i & id & ->).
    apply sample_valid. exact Hrandom.
  - intros c Hc.
    destruct (seeded_member _ _ _ c Hrandom Hc) as (i & id & ->).
    repeat (split; [reflexivity|]).
    pose proof (sample_score random now i id Hrandom) as Hscore.
    split; [exact Hscore|].
    apply score_status_not_active. exact Hscore.
Qed.

Lemma seeding_stores_defaults_witness :
  Seed.unitRange (fun _ => 1 # 2) /\
  length (Seed.seedDatabase (fun _ => 1 # 2) (fun _ => someDay) Seed.decimal [])
  = 100%nat.
Proof.
  split; [exact half_in_unit_range|].
  exact (proj1 (seeding_stores_defaults
                  (fun _ => 1 # 2) (fun _ => someDay) Seed.decimal
                  half_in_unit_range)).
Defined.

(** X29. Seeding happens once: whatever the collection, after a seeding
    with results of [Math.random()] in [0, 1), seeding a second time (with
    any other random draws, clock and identifiers) changes nothing; a
    collection that is not empty is never touched. *)
Theorem seeding_happens_once (random random' : nat -> Q)
        (now now' : nat -> Date) (newId newId' : nat -> ObjectId)
        (db : Collection) :
  Seed.unitRange random ->
  (db <> [] -> Seed.seedDatabase random now newId db = db) /\
  Seed.seedDatabase random' now' newId'
                    (Seed.seedDatabase random now newId db)
  = Seed.seedDatabase random now newId db.
Proof.
  intros Hrandom. split; [apply seed_nonempty|].
  apply seed_nonempty. destruct db as [|c db].
  - intros Hnil.
    pose proof (seeded_length random now newId Hrandom) as Hlen.
    rewrite Hnil in Hlen. discriminate Hlen.
  - rewrite seed_nonempty; discriminate.
Qed.

Lemma seeding_happens_once_witness :
  Seed.unitRange (fun _ => 1 # 2) /\
  Seed.seedDatabase (fun _ => 1 # 3) (fun _ => (someDay + 1)%Z)
                    (fun n => Seed.decimal (n + 100))
                    (Seed.seedDatabase (fun _ => 1 # 2) (fun _ => someDay)
                                       Seed.decimal [])
  = Seed.seedDatabase (fun _ => 1 # 2) (fun _ => someDay) Seed.decimal [].
Proof.
  split; [exact half_in_unit_range|].
  exact (proj2 (seeding_happens_once
                  (fun _ => 1 # 2) (fun _ => 1 # 3)
                  (fun _ => someDay) (fun _ => (someDay + 1)%Z)
                  Seed.decimal (fun n => Seed.decimal (n + 100)) []
                  half_in_unit_range)).
Defined.

(** *** The first bulk prediction *)

Lemma distinctFrom_spec (seen l : list string) :
  Seed.distinctFrom seen l = true ->
  NoDup l /\ forall e, In e l -> ~ In e seen.
Proof.
  revert seen. induction l as [|e l IH]; intros seen; cbn [Seed.distinctFrom].
  - intros _. split; [constructor | intros e []].
  - intros H. apply andb_prop in H. destruct H as [Hfree Hrest].
    apply negb_true_iff in Hfree.
    destruct (IH _ Hrest) as [Hnodup Hseen].
    assert (He : ~ In e seen).
    { intros Hin.
      assert (existsb (String.eqb e) seen = true) as Hex
          by (apply existsb_exists; exists e; split;
              [exact Hin | apply String.eqb_refl]).
      congruence. }
    split.
    + constructor; [|exact Hnodup].
      intros Hin. apply (Hseen e Hin). apply in_or_app. right. left.
      reflexivity.
    + intros x [<-|Hx]; [exact He|].
      intros Hin. apply (Hseen x Hx). apply in_or_app. left. exact Hin.
Qed.

Lemma filter_all {A : Type} (p : A -> bool) (l : list A) :
  (forall x, In x l -> p x = true) -> filter p l = l.
Proof.
  induction l as [|x l IH]; intros H; cbn [filter]; [reflexivity|].
  rewrite (H x (or_introl eq_refl)), IH; [reflexivity|].
  intros y Hy. apply H. right. exact Hy.
Qed.

Lemma decimal_ids_distinct : NoDup (map Seed.decimal (seq 0 100)).
Proof.
  apply (distinctFrom_spec []). vm_compute. reflexivity.
Qed.

(** X30. The first bulk prediction after seeding an empty collection, for
    results of [Math.random()] in [0, 1) and distinct identifiers handed
    out: it answers 200 and processes all 100 customers, and afterwards no
    customer is [active] any more; each has a score of at least 0.5 and
    exactly one prediction record. *)
Theorem first_bulk_run_after_seeding (random : nat -> Q) (now : nat -> Date)
        (newId : nat -> ObjectId) (clock savedAt : ObjectId -> Date) :
  Seed.unitRange random ->
  NoDup (map newId (seq 0 100)) ->
  snd (predictBulk clock savedAt (Seed.seedDatabase random now newId []))
  = Json 200 {| bulk_message := "Bulk prediction completed";
                processedCustomers := 100 |} /\
  length (fst (predictBulk clock savedAt
                           (Seed.seedDatabase random now newId [])))
  = 100%nat /\
  forall c,
    In c (fst (predictBulk clock savedAt
                           (Seed.seedDatabase random now newId []))) ->
    status c <> active /\ 0.5 <= churnRisk c /\
    length (predictions c) = 1%nat.
Proof.
  intros Hrandom Hids.
  pose proof (seeded_length random now newId Hrandom) as Hlen.
  assert (Hactive : forall c,
             In c (Seed.seedDatabase random now newId []) ->
             ne_churned c = true).
  { intros c Hc. destruct (seeded_member _ _ _ c Hrandom Hc) as (i & id & ->).
    reflexivity. }
  rewrite predictBulk_closed_form.
  - cbn [fst snd]. rewrite (filter_all _ _ Hactive), length_map, Hlen.
    split; [reflexivity|]. split; [reflexivity|].
    intros c Hc. apply in_map_iff in Hc. destruct Hc as (c0 & <- & Hc0).
    rewrite (Hactive c0 Hc0).
    destruct (seeded_member _ _ _ c0 Hrandom Hc0) as (i & id & ->).
    pose proof (sample_score random now i id Hrandom) as Hscore.
    unfold bulkRescored, rescored. cbn [status churnRisk predictions].
    split; [apply score_status_not_active; exact Hscore|].
    split; [exact Hscore | reflexivity].
  - unfold uniqueIds. rewrite (seed_empty _ _ _ Hrandom).
    rewrite constructAll_ids, length_map, length_seq. exact Hids.
  - apply Forall_forall. intros c Hc.
    destruct (seeded_member _ _ _ c Hrandom Hc) as (i & id & ->).
    apply sample_valid. exact Hrandom.
Qed.

Lemma first_bulk_run_after_seeding_witness :
  (Seed.unitRange (fun _ => 1 # 2) /\ NoDup (map Seed.decimal (seq 0 100))) /\
  length (fst (predictBulk (fun _ => someDay) (fun _ => someDay)
                 (Seed.seedDatabase (fun _ => 1 # 2) (fun _ => someDay)
                                    Seed.decimal [])))
  = 100%nat.
Proof.
  split; [split; [exact half_in_unit_range | exact decimal_ids_distinct]|].
  exact (proj1 (proj2 (first_bulk_run_after_seeding
                         (fun _ => 1 # 2) (fun _ => someDay) Seed.decimal
                         (fun _ => someDay) (fun _ => someDay)
                         half_in_unit_range decimal_ids_distinct))).
Defined.
